(** * Product CRUD API: a shallow embedding of the controller and schema

    The development follows the layout of the repository:

    - [Js]: the fragment of JavaScript the controller relies on (truthiness,
      [Number(...)], [Math.ceil], [String.prototype.trim], [split]/[join]);
    - [Schema]: the Product schema of [models/Product.js] (casts, setters and
      validators, with their messages);
    - [Http]: requests and the JSON envelope written by [res.status(..).json(..)];
    - [Controller]: the seven handlers of [controllers/productController.js],
      written in a state-and-exception monad over an abstract [Model];
    - [Store]: an in-memory instance of the Mongoose model the handlers call.

    Modelling conventions.  A JavaScript number is a double: [NaN], an
    infinity, or a finite value held as a rational; what is read from text
    and every arithmetic result is rounded to the nearest double, ties to
    even, and overflows to an infinity.  The two zeros are one value.
    Strings are sequences of 8-bit characters.  The persistence layer is a
    list of documents in insertion order together with the id counter, the
    current time and the state of the connection. *)

From Stdlib Require Import Bool Arith ZArith NArith QArith Qround Lia List.
From Stdlib Require Import Ascii String Sorted Permutation.
From Stdlib Require Import DecimalString.
Import ListNotations.

Local Close Scope Q_scope.
Local Open Scope string_scope.
Local Open Scope bool_scope.
Local Open Scope nat_scope.

(* ================================================================== *)
(** * JavaScript values                                                *)
(* ================================================================== *)

Module Js.

(** ** Numbers *)

Inductive number : Type :=
| NaN
| Inf (negative : bool)
| Fin (q : Q).

(** The integer nearest to [n / d], the even one of two that are as near. *)
Definition round_half_even (n d : Z) : Z :=
  let f := (n / d)%Z in
  match (2 * (n mod d) ?= d)%Z with
  | Lt => f
  | Gt => (f + 1)%Z
  | Eq => if Z.even f then f else (f + 1)%Z
  end.

(** [(a / d) / 2^e] as a fraction. *)
Definition scaled (a d e : Z) : Z * Z :=
  if (0 <=? e)%Z then (a, (d * 2 ^ e)%Z) else ((a * 2 ^ (- e))%Z, d).

(** The exponent of the double nearest to [a / d]: the [e] with
    [2^52 <= (a / d) / 2^e < 2^53], and [-1074] for a subnormal. *)
Definition exponent_of (a d : Z) : Z :=
  let e0 := (Z.log2 a - Z.log2 d - 53)%Z in
  let '(n, m) := scaled a d (e0 + 1) in
  Z.max (if (2 ^ 52 * m <=? n)%Z then e0 + 1 else e0) (-1074).

(** [m * 2^e] with its sign; an infinity from [2^1024] on. *)
Definition double (negative : bool) (m e : Z) : number :=
  let s := if negative then (- m)%Z else m in
  if (0 <=? e)%Z then
    if (2 ^ 1024 <=? m * 2 ^ e)%Z then Inf negative
    else Fin (inject_Z (s * 2 ^ e))
  else Fin (Qred (Qmake s (Z.to_pos (2 ^ (- e))))).

(** The double nearest to a rational, ties to even. *)
Definition round_double (q : Q) : number :=
  let a := Z.abs (Qnum (Qred q)) in
  let d := Zpos (Qden (Qred q)) in
  if (a =? 0)%Z then Fin 0
  else
    let e := exponent_of a d in
    let '(n, m) := scaled a d e in
    double (Qnum (Qred q) <? 0)%Z (round_half_even n m) e.

(** The number of a rational result. *)
Definition fin (q : Q) : number := round_double q.

(** An integer literal; it is exact up to [2^53]. *)
Definition of_Z (z : Z) : number := Fin (inject_Z z).

(** A count held in a number. *)
Definition of_nat (n : nat) : number := fin (inject_Z (Z.of_nat n)).

Definition Qsign_neg (q : Q) : bool := (Qnum q <? 0)%Z.
Definition Qis_zero (q : Q) : bool := (Qnum q =? 0)%Z.

Definition is_nan (x : number) : bool :=
  match x with NaN => true | _ => false end.

(** [x - y] *)
Definition sub (x y : number) : number :=
  match x, y with
  | NaN, _ | _, NaN => NaN
  | Inf a, Inf b => if Bool.eqb a b then NaN else Inf a
  | Inf a, Fin _ => Inf a
  | Fin _, Inf b => Inf (negb b)
  | Fin p, Fin q => fin (p - q)%Q
  end.

(** [x * y] *)
Definition mul (x y : number) : number :=
  match x, y with
  | NaN, _ | _, NaN => NaN
  | Inf a, Inf b => Inf (xorb a b)
  | Inf a, Fin q | Fin q, Inf a =>
      if Qis_zero q then NaN else Inf (xorb a (Qsign_neg q))
  | Fin p, Fin q => fin (p * q)%Q
  end.

(** [x / y] *)
Definition div (x y : number) : number :=
  match x, y with
  | NaN, _ | _, NaN => NaN
  | Inf _, Inf _ => NaN
  | Inf a, Fin q => Inf (xorb a (Qsign_neg q))
  | Fin _, Inf _ => of_Z 0
  | Fin p, Fin q =>
      if Qis_zero q then (if Qis_zero p then NaN else Inf (Qsign_neg p))
      else fin (p / q)%Q
  end.

(** [Math.ceil(x)] *)
Definition Math_ceil (x : number) : number :=
  match x with
  | Fin q => of_Z (Qceiling q)
  | _ => x
  end.

(** [x >= y] and [x <= y]; every comparison with [NaN] is false. *)
Definition geb (x y : number) : bool :=
  match x, y with
  | NaN, _ | _, NaN => false
  | Inf a, Inf b => implb a b
  | Inf a, Fin _ => negb a
  | Fin _, Inf b => b
  | Fin p, Fin q => Qle_bool q p
  end.

Definition leb (x y : number) : bool := geb y x.

(** The total order the database sorts numbers by: [NaN] first, then
    [-Infinity], the finite numbers, and [Infinity]. *)
Definition rank (x : number) : Z :=
  match x with NaN => 0 | Inf true => 1 | Fin _ => 2 | Inf false => 3 end%Z.

Definition compare (x y : number) : comparison :=
  match x, y with
  | Fin p, Fin q => Qcompare p q
  | _, _ => Z.compare (rank x) (rank y)
  end.

(** ** Characters and strings *)

Definition code (c : ascii) : nat := nat_of_ascii c.

(** White space of [trim] and of [Number]: TAB, LF, VT, FF, CR, SP, NBSP. *)
Definition is_ws (c : ascii) : bool :=
  let n := code c in
  ((9 <=? n) && (n <=? 13)) || (n =? 32) || (n =? 160).

Fixpoint trimStart (s : string) : string :=
  match s with
  | EmptyString => EmptyString
  | String c s' => if is_ws c then trimStart s' else s
  end.

Fixpoint trimEnd (s : string) : string :=
  match s with
  | EmptyString => EmptyString
  | String c s' =>
      match trimEnd s' with
      | EmptyString => if is_ws c then EmptyString else String c EmptyString
      | t => String c t
      end
  end.

(** [s.trim()] *)
Definition trim (s : string) : string := trimEnd (trimStart s).

(** [s.split(sep)] for a one-character separator. *)
Fixpoint split (sep : ascii) (s : string) : list string :=
  match s with
  | EmptyString => [EmptyString]
  | String c s' =>
      if Ascii.eqb c sep then EmptyString :: split sep s'
      else match split sep s' with
           | h :: t => String c h :: t
           | [] => [String c EmptyString]
           end
  end.

(** [l.join(sep)] *)
Definition join (sep : string) (l : list string) : string := String.concat sep l.

Definition starts_with (p s : string) : bool := String.prefix p s.

(** The first occurrence of [pattern] in [s]: what is before it and what
    is after it. *)
Fixpoint find_first (pattern s : string) : option (string * string) :=
  if String.prefix pattern s
  then Some (EmptyString,
             substring (String.length pattern)
                       (String.length s - String.length pattern) s)
  else match s with
       | EmptyString => None
       | String c s' =>
           match find_first pattern s' with
           | Some (before, after) => Some (String c before, after)
           | None => None
           end
       end.

(** The replacement text of [replace] for a pattern that is a string: [$$]
    is a dollar, [$&] the match, [$`] what is before the match and [$'] what
    is after it; any other character is itself. *)
Fixpoint substitute (matched before after template : string) : string :=
  match template with
  | EmptyString => EmptyString
  | String c t =>
      if Ascii.eqb c "$" then
        match t with
        | EmptyString => String c EmptyString
        | String d rest =>
            if Ascii.eqb d "$" then String "$" (substitute matched before after rest)
            else if Ascii.eqb d "&" then matched ++ substitute matched before after rest
            else if Ascii.eqb d "`" then before ++ substitute matched before after rest
            else if Ascii.eqb d "'" then after ++ substitute matched before after rest
            else String c (substitute matched before after t)
        end
      else String c (substitute matched before after t)
  end.

(** [s.replace(pattern, replacement)] for two strings: the first occurrence
    only. *)
Definition replace (pattern replacement s : string) : string :=
  match find_first pattern s with
  | Some (before, after) =>
      before ++ substitute pattern before after replacement ++ after
  | None => s
  end.

(** The double quote, for messages that quote a value. *)
Definition dquote : string := String (ascii_of_nat 34) EmptyString.

(** ** [Number(string)] : the StringToNumber grammar *)

Definition digit_of (radix : nat) (c : ascii) : option Z :=
  let n := code c in
  let v :=
    if (48 <=? n) && (n <=? 57) then Some (n - 48)
    else if (97 <=? n) && (n <=? 122) then Some (n - 87)
    else if (65 <=? n) && (n <=? 90) then Some (n - 55)
    else None in
  match v with
  | Some d => if d <? radix then Some (Z.of_nat d) else None
  | None => None
  end.

(** Reads the longest prefix of digits: its value, its length, the rest. *)
Fixpoint read_digits (radix : nat) (s : string) (acc : Z) (cnt : nat)
  : Z * nat * string :=
  match s with
  | EmptyString => (acc, cnt, s)
  | String c s' =>
      match digit_of radix c with
      | Some d => read_digits radix s' (Z.of_nat radix * acc + d)%Z (S cnt)
      | None => (acc, cnt, s)
      end
  end.

(** [m * 10^e] *)
Definition scale10 (m e : Z) : number :=
  if (0 <=? e)%Z then fin (inject_Z (m * 10 ^ e))
  else fin (Qmake m (Z.to_pos (10 ^ (- e)))).

(** ExponentPart, read after the mantissa [m * 10^(-frac)]. *)
Definition read_exponent (m : Z) (frac : nat) (s : string) : number :=
  match s with
  | EmptyString => scale10 m (- Z.of_nat frac)
  | String c s' =>
      if (code c =? 101) || (code c =? 69) then
        let '(neg, s'') :=
          match s' with
          | String "-" t => (true, t)
          | String "+" t => (false, t)
          | _ => (false, s')
          end in
        match read_digits 10 s'' 0 0 with
        | (e, S _, EmptyString) =>
            scale10 m ((if neg then - e else e) - Z.of_nat frac)
        | _ => NaN
        end
      else NaN
  end.

(** StrUnsignedDecimalLiteral *)
Definition read_unsigned (s : string) : number :=
  if String.eqb s "Infinity" then Inf false
  else
    let '(ip, n1, r1) := read_digits 10 s 0 0 in
    match r1 with
    | String "." r =>
        let '(m, n, r2) := read_digits 10 r ip n1 in
        if n =? 0 then NaN else read_exponent m (n - n1) r2
    | _ => if n1 =? 0 then NaN else read_exponent ip 0 r1
    end.

Definition negate (x : number) : number :=
  match x with
  | NaN => NaN
  | Inf b => Inf (negb b)
  | Fin q => Fin (- q)%Q
  end.

(** NonDecimalIntegerLiteral: [0x], [0o], [0b] followed by digits only. *)
Definition read_radix (radix : nat) (s : string) : number :=
  match read_digits radix s 0 0 with
  | (v, S _, EmptyString) => fin (inject_Z v)
  | _ => NaN
  end.

Definition Number_of_string (s : string) : number :=
  match trim s with
  | EmptyString => of_Z 0
  | String "-" t => negate (read_unsigned t)
  | String "+" t => read_unsigned t
  | String "0" (String p t) as u =>
      if (code p =? 120) || (code p =? 88) then read_radix 16 t
      else if (code p =? 111) || (code p =? 79) then read_radix 8 t
      else if (code p =? 98) || (code p =? 66) then read_radix 2 t
      else read_unsigned u
  | u => read_unsigned u
  end.

(** ** [String(number)] *)

Definition string_of_Z (z : Z) : string :=
  NilZero.string_of_int (Z.to_int z).

(** The number of decimal digits of a positive integer. *)
Definition decimal_length (a : Z) : Z :=
  Z.of_nat (String.length (string_of_Z a)).

(** [10^n <= a / d] *)
Definition reaches (a d n : Z) : bool :=
  if (0 <=? n)%Z then (d * 10 ^ n <=? a)%Z else (d <=? a * 10 ^ (- n))%Z.

(** The [n] with [10^(n-1) <= a / d < 10^n]. *)
Definition magnitude (a d : Z) : Z :=
  let n0 := (decimal_length a - decimal_length d)%Z in
  if reaches a d n0 then (n0 + 1)%Z else n0.

(** The integer part of [(a / d) * 10^p]. *)
Definition floor_scaled (a d p : Z) : Z :=
  if (0 <=? p)%Z then (a * 10 ^ p / d)%Z else (a / (d * 10 ^ (- p)))%Z.

(** [s * 10^p] *)
Definition decimal (s p : Z) : Q :=
  if (0 <=? p)%Z then inject_Z (s * 10 ^ p)
  else Qmake s (Z.to_pos (10 ^ (- p))).

(** [s * 10^p] reads back as [q]. *)
Definition reads_back (s p : Z) (q : Q) : bool :=
  match round_double (decimal s p) with
  | Fin r => Qeq_bool r q
  | _ => false
  end.

(** The digits [s] and the [n] of Number::toString for a positive [q]: the
    least number [k] of digits with which [s * 10^(n - k)] reads back as [q],
    and of two such [s] the one nearer to [q]. *)
Fixpoint shortest (fuel : nat) (k : Z) (q : Q) (n : Z) : Z * Z :=
  let lo := floor_scaled (Qnum q) (Zpos (Qden q)) (k - n) in
  let hi := (lo + 1)%Z in
  match fuel with
  | O => (lo, k)
  | S fuel' =>
      match reads_back lo (n - k) q, reads_back hi (n - k) q with
      | true, true =>
          match Qcompare (q - decimal lo (n - k)) (decimal hi (n - k) - q) with
          | Lt => (lo, k)
          | Gt => (hi, k)
          | Eq => if Z.even lo then (lo, k) else (hi, k)
          end
      | true, false => (lo, k)
      | false, true => (hi, k)
      | false, false => shortest fuel' (k + 1)%Z q n
      end
  end.

Fixpoint strip_zeros (s : string) : string :=
  match s with
  | EmptyString => EmptyString
  | String c s' =>
      match strip_zeros s' with
      | EmptyString => if Ascii.eqb c "0" then EmptyString else String c EmptyString
      | t => String c t
      end
  end.

Fixpoint zeros (n : nat) : string :=
  match n with
  | O => EmptyString
  | S n' => String "0" (zeros n')
  end.

(** The text of [digits * 10^(n - k)] for [k] digits. *)
Definition notation (digits : string) (n : Z) : string :=
  let k := Z.of_nat (String.length digits) in
  if ((k <=? n) && (n <=? 21))%Z then digits ++ zeros (Z.to_nat (n - k))
  else if ((0 <? n) && (n <=? 21))%Z then
    substring 0 (Z.to_nat n) digits ++ "."
    ++ substring (Z.to_nat n) (Z.to_nat (k - n)) digits
  else if ((-6 <? n) && (n <=? 0))%Z then "0." ++ zeros (Z.to_nat (- n)) ++ digits
  else
    let e := (n - 1)%Z in
    let exponent := (if (e <? 0)%Z then "e-" else "e+") ++ string_of_Z (Z.abs e) in
    match digits with
    | EmptyString => EmptyString
    | String c EmptyString => String c exponent
    | String c rest => String c ("." ++ rest ++ exponent)
    end.

(** Number::toString for a positive rational: its digits without the
    zeros that end them, and the place of the decimal point. *)
Definition string_of_positive (q : Q) : string :=
  let n := magnitude (Qnum q) (Zpos (Qden q)) in
  let '(s, k) := shortest 17 1 q n in
  let digits := string_of_Z s in
  notation (strip_zeros digits) (n - k + Z.of_nat (String.length digits)).

Definition string_of_number (x : number) : string :=
  match x with
  | NaN => "NaN"
  | Inf true => "-Infinity"
  | Inf false => "Infinity"
  | Fin q =>
      if Qis_zero q then "0"
      else if Qsign_neg q then "-" ++ string_of_positive (- q)%Q
      else string_of_positive q
  end.

(** ** Values of a JSON body or of a query string *)

Inductive value : Type :=
| Undefined
| Null
| Bool (b : bool)
| Num (n : number)
| Str (s : string).

(** ToBoolean *)
Definition truthy (v : value) : bool :=
  match v with
  | Undefined | Null => false
  | Bool b => b
  | Num NaN => false
  | Num (Fin q) => negb (Qis_zero q)
  | Num (Inf _) => true
  | Str s => negb (String.eqb s "")
  end.

(** [Number(v)] *)
Definition Number (v : value) : number :=
  match v with
  | Undefined => NaN
  | Null => of_Z 0
  | Bool b => of_Z (if b then 1 else 0)
  | Num n => n
  | Str s => Number_of_string s
  end.

End Js.

Definition value : Type := Js.value.
Definition number : Type := Js.number.

(* ================================================================== *)
(** * Documents and exceptions                                         *)
(* ================================================================== *)

(** A persisted Product: the three schema paths, the [_id] and version key
    the driver adds, and the two paths of [timestamps: true]. *)
Module Doc.
Record t : Type := mk {
  _id : N;
  name : string;
  price : number;
  category : string;
  createdAt : Z;
  updatedAt : Z;
  __v : N
}.
End Doc.
Definition document : Type := Doc.t.

(** A JavaScript exception, with the three properties the handlers read:
    [error.name], [error.kind], [error.message], and [error.errors] (the
    per-path errors of a ValidationError, in insertion order). *)
Module Exn.
Record t : Type := mk {
  name : string;
  kind : option string;
  message : string;
  errors : list (string * string)
}.
End Exn.
Definition exn : Type := Exn.t.

(* ================================================================== *)
(** * models/Product.js : the schema                                   *)
(* ================================================================== *)

Module Schema.

(** [enum.values] of the [category] path. *)
Definition categories : list string :=
  ["Electronics"; "Clothing"; "Food"; "Books"; "Toys"; "Accessories";
   "Stationery"; "Other"].

Definition is_category (s : string) : bool :=
  existsb (String.eqb s) categories.

(** ** Casting

    A cast yields [Some x], or [None] for [null]/[undefined], or fails. *)
Inductive cast (A : Type) : Type :=
| Cast (x : option A)
| CastError (e : string).
Arguments Cast {A} x.
Arguments CastError {A} e.

(** [type: String] with [trim: true]: numbers and booleans are converted
    with [toString], and the setter trims the result. *)
Definition cast_String (v : value) : cast string :=
  match v with
  | Js.Undefined | Js.Null => Cast None
  | Js.Bool b => Cast (Some (if b then "true" else "false"))
  | Js.Num n => Cast (Some (Js.trim (Js.string_of_number n)))
  | Js.Str s => Cast (Some (Js.trim s))
  end.

Definition cast_error_message (type shown type_of path : string) : string :=
  "Cast to " ++ type ++ " failed for value " ++ Js.dquote ++ shown ++ Js.dquote
  ++ " (type " ++ type_of ++ ") at path " ++ Js.dquote ++ path ++ Js.dquote.

(** [type: Number]: the empty string is [null], other strings and booleans
    go through [Number(..)], and [NaN] is refused. *)
Definition cast_Number (path : string) (v : value) : cast number :=
  match v with
  | Js.Undefined | Js.Null => Cast None
  | Js.Bool b => Cast (Some (Js.Number v))
  | Js.Num n =>
      if Js.is_nan n then CastError (cast_error_message "Number" "NaN" "number" path)
      else Cast (Some n)
  | Js.Str s =>
      if String.eqb s "" then Cast None
      else if Js.is_nan (Js.Number_of_string s)
           then CastError (cast_error_message "Number" s "string" path)
           else Cast (Some (Js.Number_of_string s))
  end.

(** ** Validators

    A validator is a test on the cast value ([None] when the value is [null]
    or [undefined], which only [required] refuses) and the message of its
    failure, in which [{VALUE}] stands for the value. *)
Record validator (A : Type) : Type := {
  test : option A -> bool;
  message : option A -> string
}.
Arguments test {A} v x.
Arguments message {A} v x.

Definition lift {A} (ok : A -> bool) (x : option A) : bool :=
  match x with Some a => ok a | None => true end.

(** [required: [true, msg]] on a String path: a non-empty string. *)
Definition required_String (msg : string) : validator string :=
  {| test := fun x => match x with
                      | Some s => negb (String.eqb s "")
                      | None => false
                      end;
     message := fun _ => msg |}.

(** [required: [true, msg]] on a Number path: a number. *)
Definition required_Number (msg : string) : validator number :=
  {| test := fun x => match x with Some _ => true | None => false end;
     message := fun _ => msg |}.

Definition minlength (n : nat) (msg : string) : validator string :=
  {| test := lift (fun s => n <=? String.length s); message := fun _ => msg |}.

Definition maxlength (n : nat) (msg : string) : validator string :=
  {| test := lift (fun s => String.length s <=? n); message := fun _ => msg |}.

Definition min (n : number) (msg : string) : validator number :=
  {| test := lift (fun x => Js.geb x n); message := fun _ => msg |}.

Definition validate (ok : number -> bool) (msg : string) : validator number :=
  {| test := lift ok; message := fun _ => msg |}.

(** [enum: { values, message }]: the message is the template in which the
    value is put with [message.replace('{VALUE}', value)]. *)
Definition enum (values : list string) (template : string) : validator string :=
  {| test := lift (fun s => existsb (String.eqb s) values);
     message := fun x => Js.replace "{VALUE}"
                           (match x with Some s => s | None => "null" end)
                           template |}.

(** The validators of a path run in order; the first failure is the error
    of the path. *)
Fixpoint doValidate {A} (vs : list (validator A)) (x : option A) : option string :=
  match vs with
  | [] => None
  | v :: rest => if test v x then doValidate rest x else Some (message v x)
  end.

(** ** The three paths, as declared *)

Definition name_validators : list (validator string) :=
  [ required_String "Product name is required";
    minlength 3 "Product name must be at least 3 characters long";
    maxlength 100 "Product name cannot exceed 100 characters" ].

Definition price_validators : list (validator number) :=
  [ required_Number "Product price is required";
    min (Js.of_Z 0) "Price cannot be negative";
    validate (fun value => Js.geb value (Js.of_Z 0))
             "Price must be a positive number" ].

Definition category_validators : list (validator string) :=
  [ required_String "Product category is required";
    enum categories "{VALUE} is not a valid category" ].

(** The error of one path: a failed cast, or the first failed validator. *)
Definition path_error {A} (c : cast A) (vs : list (validator A)) : option string :=
  match c with
  | CastError e => Some e
  | Cast x => doValidate vs x
  end.

(** The two apart: a cast fails when the value is set, a validator when the
    document is validated. *)
Definition cast_failure {A} (c : cast A) : option string :=
  match c with
  | CastError e => Some e
  | Cast _ => None
  end.

Definition validator_failure {A} (c : cast A) (vs : list (validator A))
  : option string :=
  match c with
  | CastError _ => None
  | Cast x => doValidate vs x
  end.

Definition name_error (v : value) : option string :=
  path_error (cast_String v) name_validators.
Definition price_error (v : value) : option string :=
  path_error (cast_Number "price" v) price_validators.
Definition category_error (v : value) : option string :=
  path_error (cast_String v) category_validators.

(** The [errors] object of a ValidationError: one entry per failing path,
    in the order the paths are given. *)
Fixpoint collect (l : list (string * option string)) : list (string * string) :=
  match l with
  | [] => []
  | (path, Some msg) :: rest => (path, msg) :: collect rest
  | (_, None) :: rest => collect rest
  end.

Definition validation_message (prefix : string) (errs : list (string * string)) : string :=
  prefix ++ ": " ++ Js.join ", " (map (fun '(p, m) => p ++ ": " ++ m) errs).

Definition ValidationError (prefix : string) (errs : list (string * string)) : exn :=
  {| Exn.name := "ValidationError"; Exn.kind := None;
     Exn.message := validation_message prefix errs; Exn.errors := errs |}.

(** A value that went through cast and validation without error. *)
Definition cast_value {A} (c : cast A) (default : A) : A :=
  match c with Cast (Some x) => x | _ => default end.

End Schema.
(* ================================================================== *)
(** * Asynchronous calls: state and exceptions                         *)
(* ================================================================== *)

(** An [await]ed call runs against the state [W] of the persistence layer
    and either returns or throws; the state it leaves is kept either way. *)
Inductive result (A : Type) : Type :=
| Ok (a : A)
| Throw (e : exn).
Arguments Ok {A} a.
Arguments Throw {A} e.

Definition M (W A : Type) : Type := W -> result A * W.

Definition ret {W A} (a : A) : M W A := fun w => (Ok a, w).

Definition throw {W A} (e : exn) : M W A := fun w => (Throw e, w).

Definition bind {W A B} (c : M W A) (k : A -> M W B) : M W B :=
  fun w => match c w with
           | (Ok a, w') => k a w'
           | (Throw e, w') => (Throw e, w')
           end.

(** [try { c } catch (error) { h error }] around a handler body: the
    handler always answers. *)
Definition try_catch {W A} (c : M W A) (h : exn -> A) : W -> A * W :=
  fun w => match c w with
           | (Ok a, w') => (a, w')
           | (Throw e, w') => (h e, w')
           end.

Declare Scope async_scope.
Delimit Scope async_scope with async.
Notation "x <- c ;; k" := (bind c (fun x => k))
  (at level 61, c at next level, right associativity) : async_scope.

(* ================================================================== *)
(** * Requests and responses                                           *)
(* ================================================================== *)

(** [req.body] of POST and PUT *)
Module Body.
Record t : Type := mk { name : value; price : value; category : value }.
End Body.

(** [req.query] of GET /api/products: each parameter absent or a string. *)
Module Query.
Record t : Type := mk {
  category : option string;
  minPrice : option string;
  maxPrice : option string;
  sort : option string;
  page : option string;
  limit : option string
}.
Definition empty : t := mk None None None None None None.
End Query.

(** [req.params] *)
Module Params.
Record t : Type := mk { id : string; category : string }.
End Params.

Module Req.
Record t : Type := mk { body : Body.t; query : Query.t; params : Params.t }.
End Req.
Definition request : Type := Req.t.

(** The value of [data] in an envelope. *)
Inductive payload : Type :=
| NullData
| One (d : document)
| Many (l : list document).

(** What [res.status(code).json({...})] sends: the status code and the
    object, whose keys other than [success] are optional. *)
Module Res.
Record t : Type := mk {
  status : nat;
  success : bool;
  message : option string;
  data : option payload;
  error : option string;
  errors : option (list string);
  count : option nat;
  total : option nat;
  page : option number;
  totalPages : option number;
  deletedCount : option nat
}.

Definition json (status : nat) (success : bool) : t :=
  mk status success None None None None None None None None None.

Definition with_message (m : string) (r : t) : t :=
  mk (status r) (success r) (Some m) (data r) (error r) (errors r)
     (count r) (total r) (page r) (totalPages r) (deletedCount r).
Definition with_data (d : payload) (r : t) : t :=
  mk (status r) (success r) (message r) (Some d) (error r) (errors r)
     (count r) (total r) (page r) (totalPages r) (deletedCount r).
Definition with_error (e : string) (r : t) : t :=
  mk (status r) (success r) (message r) (data r) (Some e) (errors r)
     (count r) (total r) (page r) (totalPages r) (deletedCount r).
Definition with_errors (l : list string) (r : t) : t :=
  mk (status r) (success r) (message r) (data r) (error r) (Some l)
     (count r) (total r) (page r) (totalPages r) (deletedCount r).
Definition with_count (n : nat) (r : t) : t :=
  mk (status r) (success r) (message r) (data r) (error r) (errors r)
     (Some n) (total r) (page r) (totalPages r) (deletedCount r).
Definition with_total (n : nat) (r : t) : t :=
  mk (status r) (success r) (message r) (data r) (error r) (errors r)
     (count r) (Some n) (page r) (totalPages r) (deletedCount r).
Definition with_page (n : number) (r : t) : t :=
  mk (status r) (success r) (message r) (data r) (error r) (errors r)
     (count r) (total r) (Some n) (totalPages r) (deletedCount r).
Definition with_totalPages (n : number) (r : t) : t :=
  mk (status r) (success r) (message r) (data r) (error r) (errors r)
     (count r) (total r) (page r) (Some n) (deletedCount r).
Definition with_deletedCount (n : nat) (r : t) : t :=
  mk (status r) (success r) (message r) (data r) (error r) (errors r)
     (count r) (total r) (page r) (totalPages r) (Some n).

(** The documents an envelope carries. *)
Definition records (r : t) : list document :=
  match data r with
  | Some (One d) => [d]
  | Some (Many l) => l
  | _ => []
  end.
End Res.
Definition response : Type := Res.t.

(* ================================================================== *)
(** * The Mongoose model, as the handlers see it                       *)
(* ================================================================== *)

(** A filter such as [{ category, price: { $gte, $lte } }]. *)
Module Filter.
Record range : Type := mk_range { gte : option number; lte : option number }.
Record t : Type := mk { category : option string; price : option range }.
Definition all : t := mk None None.
End Filter.

(** The chained options of a [find]: [.sort(s).limit(n).skip(k)]. *)
Module Options.
Record t : Type := mk {
  sort : option string;
  limit : option number;
  skip : option number
}.
Definition none : t := mk None None None.
End Options.

(** The static methods of the model the controller calls. *)
Record Model (W : Type) : Type := {
  create : Body.t -> M W document;
  find : Filter.t -> Options.t -> M W (list document);
  countDocuments : Filter.t -> M W nat;
  findById : string -> M W (option document);
  findByIdAndUpdate : string -> Body.t -> M W (option document);
  findByIdAndDelete : string -> M W (option document);
  deleteMany : Filter.t -> M W nat
}.
Arguments create {W} m _ _.
Arguments find {W} m _ _ _.
Arguments countDocuments {W} m _ _.
Arguments findById {W} m _ _.
Arguments findByIdAndUpdate {W} m _ _ _.
Arguments findByIdAndDelete {W} m _ _.
Arguments deleteMany {W} m _ _.

(** [productSchema.statics.findByCategory] *)
Definition findByCategory {W} (this : Model W) (category : string)
  : M W (list document) :=
  find this (Filter.mk (Some category) None) Options.none.


(** [productSchema.methods.getSummary] *)
Definition getSummary (this : document) : string :=
  Doc.name this ++ " - $" ++ Js.string_of_number (Doc.price this)
  ++ " (" ++ Doc.category this ++ ")".

(* ================================================================== *)
(** * controllers/productController.js                                 *)
(* ================================================================== *)

Module Controller.
Section Handlers.

Context {W : Type} (Product : Model W).

Local Open Scope async_scope.

(** A query parameter as a JavaScript value. *)
Definition param (p : option string) : value :=
  match p with
  | Some s => Js.Str s
  | None => Js.Undefined
  end.

(** [const { p = d } = req.query]: the default replaces [undefined] only. *)
Definition default_to (d : value) (v : value) : value :=
  match v with
  | Js.Undefined => d
  | _ => v
  end.

(** The string of a parameter that passes [if (p)]. *)
Definition given (p : option string) : option string :=
  match p with
  | Some s => if Js.truthy (Js.Str s) then Some s else None
  | None => None
  end.

Definition is_given (p : option string) : bool :=
  Js.truthy (param p).

(** The catch-all of every handler. *)
Definition server_error (error : exn) : response :=
  Res.with_error (Exn.message error)
    (Res.with_message "Server Error" (Res.json 500 false)).

(** [Object.values(error.errors).map(err => err.message)] *)
Definition messages_of (error : exn) : list string :=
  map snd (Exn.errors error).

Definition validation_error (error : exn) : response :=
  Res.with_errors (messages_of error)
    (Res.with_message "Validation Error" (Res.json 400 false)).

Definition invalid_id (id : string) : response :=
  Res.with_message ("Invalid product ID: " ++ id) (Res.json 404 false).

Definition not_found (id : string) : response :=
  Res.with_message ("Product not found with ID: " ++ id) (Res.json 404 false).

Definition is_ValidationError (error : exn) : bool :=
  String.eqb (Exn.name error) "ValidationError".

Definition is_ObjectId_kind (error : exn) : bool :=
  match Exn.kind error with
  | Some k => String.eqb k "ObjectId"
  | None => false
  end.

(** POST /api/products *)
Definition createProduct (req : request) : W -> response * W :=
  try_catch
    (let name := Body.name (Req.body req) in
     let price := Body.price (Req.body req) in
     let category := Body.category (Req.body req) in
     if negb (Js.truthy name) || negb (Js.truthy price) || negb (Js.truthy category)
     then
       ret (Res.with_message
              "Please provide all required fields: name, price, and category"
              (Res.json 400 false))
     else
       product <- create Product (Body.mk name price category) ;;
       ret (Res.with_data (One product)
              (Res.with_message "Product created successfully"
                 (Res.json 201 true))))
    (fun error =>
       if is_ValidationError error then validation_error error
       else server_error error).

(** The filter built from [category], [minPrice], [maxPrice]. *)
Definition build_query (q : Query.t) : Filter.t :=
  Filter.mk
    (given (Query.category q))
    (if is_given (Query.minPrice q) || is_given (Query.maxPrice q)
     then Some (Filter.mk_range
                  (option_map (fun s => Js.Number (Js.Str s)) (given (Query.minPrice q)))
                  (option_map (fun s => Js.Number (Js.Str s)) (given (Query.maxPrice q))))
     else None).

(** The sort string built from [sort]. *)
Definition build_sort (q : Query.t) : string :=
  match given (Query.sort q) with
  | Some sort => Js.join " " (Js.split "," sort)
  | None => "-createdAt"
  end.

Definition page_of (q : Query.t) : value :=
  default_to (Js.Num (Js.of_Z 1)) (param (Query.page q)).

Definition limit_of (q : Query.t) : value :=
  default_to (Js.Num (Js.of_Z 10)) (param (Query.limit q)).

(** [(Number(page) - 1) * Number(limit)] *)
Definition skip_of (q : Query.t) : number :=
  Js.mul (Js.sub (Js.Number (page_of q)) (Js.of_Z 1)) (Js.Number (limit_of q)).

(** GET /api/products *)
Definition getAllProducts (req : request) : W -> response * W :=
  try_catch
    (let q := Req.query req in
     let page := page_of q in
     let limit := limit_of q in
     let query := build_query q in
     let sortOption := build_sort q in
     let skip := skip_of q in
     products <- find Product query
                   (Options.mk (Some sortOption) (Some (Js.Number limit)) (Some skip)) ;;
     total <- countDocuments Product query ;;
     ret (Res.with_data (Many products)
            (Res.with_totalPages
               (Js.Math_ceil (Js.div (Js.of_nat total) (Js.Number limit)))
               (Res.with_page (Js.Number page)
                  (Res.with_total total
                     (Res.with_count (List.length products)
                        (Res.json 200 true)))))))
    server_error.

(** GET /api/products/:id *)
Definition getProductById (req : request) : W -> response * W :=
  let id := Params.id (Req.params req) in
  try_catch
    (product <- findById Product id ;;
     match product with
     | None => ret (not_found id)
     | Some p => ret (Res.with_data (One p) (Res.json 200 true))
     end)
    (fun error =>
       if is_ObjectId_kind error then invalid_id id
       else server_error error).

Definition payload_of (product : option document) : payload :=
  match product with
  | Some p => One p
  | None => NullData
  end.

(** PUT /api/products/:id *)
Definition updateProduct (req : request) : W -> response * W :=
  let id := Params.id (Req.params req) in
  try_catch
    (let name := Body.name (Req.body req) in
     let price := Body.price (Req.body req) in
     let category := Body.category (Req.body req) in
     product <- findById Product id ;;
     match product with
     | None => ret (not_found id)
     | Some _ =>
         product <- findByIdAndUpdate Product id (Body.mk name price category) ;;
         ret (Res.with_data (payload_of product)
                (Res.with_message "Product updated successfully"
                   (Res.json 200 true)))
     end)
    (fun error =>
       if is_ValidationError error then validation_error error
       else if is_ObjectId_kind error then invalid_id id
       else server_error error).

(** DELETE /api/products/:id *)
Definition deleteProduct (req : request) : W -> response * W :=
  let id := Params.id (Req.params req) in
  try_catch
    (product <- findById Product id ;;
     match product with
     | None => ret (not_found id)
     | Some p =>
         _ <- findByIdAndDelete Product id ;;
         ret (Res.with_data (One p)
                (Res.with_message "Product deleted successfully"
                   (Res.json 200 true)))
     end)
    (fun error =>
       if is_ObjectId_kind error then invalid_id id
       else server_error error).

(** DELETE /api/products *)
Definition deleteAllProducts (req : request) : W -> response * W :=
  try_catch
    (deletedCount <- deleteMany Product Filter.all ;;
     ret (Res.with_deletedCount deletedCount
            (Res.with_message
               ("Successfully deleted "
                ++ Js.string_of_number (Js.of_nat deletedCount) ++ " products")
               (Res.json 200 true))))
    server_error.

(** GET /api/products/category/:category *)
Definition getProductsByCategory (req : request) : W -> response * W :=
  try_catch
    (products <- findByCategory Product (Params.category (Req.params req)) ;;
     ret (Res.with_data (Many products)
            (Res.with_count (List.length products) (Res.json 200 true))))
    server_error.

End Handlers.
End Controller.

(* ================================================================== *)
(** * The persistence layer: an in-memory Product collection           *)
(* ================================================================== *)

(** The model [mongoose.model('Product', productSchema)] is the library's
    code, not the repository's.  What the handlers rely on is embedded here
    as follows.

    - [create] casts and validates every path before the insert; a value
      that cannot be cast is an error of its path from the moment it is
      set, so it comes first; then each failing path contributes the message
      of its first failing validator, in the order the schema declares the
      paths; a new document gets an unused [_id], version 0, and the same
      time in [createdAt] and [updatedAt].
    - [findById], [findByIdAndUpdate] and [findByIdAndDelete] cast the id
      first; a string that is not 24 hexadecimal digits is a CastError of
      kind [ObjectId].
    - [findByIdAndUpdate] drops the keys whose value is [undefined], fails
      with a CastError on a value it cannot cast, runs the validators of
      the paths it sets ([runValidators]), sets [updatedAt] to the current
      time and returns the document as updated ([new]).  The keys of the
      update are moved into [$set] from the last to the first, and the
      validators run in the order of [$set]: for a body that lists name,
      price and category in this order, category comes first and name last.
    - A filter is cast by the schema, setters included; [NaN] is not a
      number.
    - [sort] takes a space-separated list of paths and throws on an empty
      one, before the query is sent; documents the keys do not tell apart
      keep their insertion order; [skip] comes before [limit].  A path that
      no document has tells no two documents apart; what the server makes
      of a path that is not the name of a field (one that starts with a
      dollar sign, say) is not part of the embedding.
    - Casts and validation are decided before the server is reached. *)

Module Store.

(** The collection in insertion order, the counter ids are drawn from, the
    time [Date.now()] reads, and the connection: [Some msg] when every
    round-trip to the server fails with [msg]. *)
Record t : Type := mk {
  docs : list document;
  next_id : N;
  now : Z;
  down : option string
}.

Local Open Scope async_scope.

(** ** Errors of the driver *)

Definition NetworkError (msg : string) : exn :=
  {| Exn.name := "MongoNetworkError"; Exn.kind := None;
     Exn.message := msg; Exn.errors := [] |}.

Definition ServerError (msg : string) : exn :=
  {| Exn.name := "MongoServerError"; Exn.kind := None;
     Exn.message := msg; Exn.errors := [] |}.

Definition CastError (kind msg : string) : exn :=
  {| Exn.name := "CastError"; Exn.kind := Some kind;
     Exn.message := msg; Exn.errors := [] |}.

(** A round-trip to the server. *)
Definition roundtrip : M t unit :=
  fun w => match down w with
           | Some msg => (Throw (NetworkError msg), w)
           | None => (Ok tt, w)
           end.

Definition get_docs : M t (list document) := fun w => (Ok (docs w), w).
Definition set_docs (l : list document) : M t unit :=
  fun w => (Ok tt, mk l (next_id w) (now w) (down w)).
Definition Date_now : M t Z := fun w => (Ok (now w), w).
Definition fresh_id : M t N :=
  fun w => (Ok (next_id w), mk (docs w) (N.succ (next_id w)) (now w) (down w)).

(** A cast is decided before any round-trip: it returns or throws. *)
Definition lift {A} (r : result A) : M t A := fun w => (r, w).

(** ** ObjectId: 24 hexadecimal digits *)

Definition castObjectId (s : string) : option N :=
  if String.length s =? 24 then
    match Js.read_digits 16 s 0 0 with
    | (v, _, EmptyString) => Some (Z.to_N v)
    | _ => None
    end
  else None.

Definition cast_id (id : string) : result N :=
  match castObjectId id with
  | Some i => Ok i
  | None =>
      Throw (CastError "ObjectId"
               (Schema.cast_error_message "ObjectId" id "string" "_id"
                ++ " for model " ++ Js.dquote ++ "Product" ++ Js.dquote))
  end.

(** ** Filters *)

Definition for_model : string :=
  " for model " ++ Js.dquote ++ "Product" ++ Js.dquote.

Definition cast_bound (b : option number) : result (option number) :=
  match b with
  | Some x =>
      if Js.is_nan x
      then Throw (CastError "Number"
                    (Schema.cast_error_message "Number" "NaN" "number" "price"
                     ++ for_model))
      else Ok (Some x)
  | None => Ok None
  end.

(** Casting a filter by the schema: the [trim] setter runs on [category],
    and a bound on [price] must be a number. *)
Definition cast_filter (f : Filter.t) : result Filter.t :=
  match Filter.price f with
  | Some r =>
      match cast_bound (Filter.gte r) with
      | Ok lo =>
          match cast_bound (Filter.lte r) with
          | Ok hi => Ok (Filter.mk (option_map Js.trim (Filter.category f))
                                   (Some (Filter.mk_range lo hi)))
          | Throw e => Throw e
          end
      | Throw e => Throw e
      end
  | None => Ok (Filter.mk (option_map Js.trim (Filter.category f)) None)
  end.

Definition in_range (r : Filter.range) (x : number) : bool :=
  match Filter.gte r with Some lo => Js.geb x lo | None => true end
  && match Filter.lte r with Some hi => Js.leb x hi | None => true end.

Definition matches (f : Filter.t) (d : document) : bool :=
  match Filter.category f with
  | Some c => String.eqb (Doc.category d) c
  | None => true
  end
  && match Filter.price f with
     | Some r => in_range r (Doc.price d)
     | None => true
     end.

(** ** Sorting *)

(** The sort object of [.sort(string)]: the paths of a space-separated
    list, each descending when prefixed by [-]; a path given twice keeps
    its first position and takes its last direction. *)
Definition sort_key : Type := (string * bool)%type.

Definition parse_key (property : string) : sort_key :=
  match property with
  | String "-" rest => (rest, true)
  | _ => (property, false)
  end.

Fixpoint assign (k : sort_key) (o : list sort_key) : list sort_key :=
  match o with
  | [] => [k]
  | k' :: rest =>
      if String.eqb (fst k') (fst k) then k :: rest else k' :: assign k rest
  end.

Definition InvalidField : exn :=
  {| Exn.name := "Error"; Exn.kind := None;
     Exn.message := "Invalid field " ++ Js.dquote ++ Js.dquote ++ " passed to sort()";
     Exn.errors := [] |}.

Definition add_property (o : result (list sort_key)) (property : string)
  : result (list sort_key) :=
  match o with
  | Ok keys =>
      if String.eqb (fst (parse_key property)) "" then Throw InvalidField
      else Ok (assign (parse_key property) keys)
  | Throw e => Throw e
  end.

Definition parse_sort (arg : string) : result (list sort_key) :=
  fold_left add_property (Js.split " " arg) (Ok []).

(** The order of the values of a path; a path the documents do not have
    compares equal everywhere. *)
Definition compare_path (path : string) (a b : document) : comparison :=
  if String.eqb path "_id" then N.compare (Doc._id a) (Doc._id b)
  else if String.eqb path "name" then String.compare (Doc.name a) (Doc.name b)
  else if String.eqb path "price" then Js.compare (Doc.price a) (Doc.price b)
  else if String.eqb path "category"
       then String.compare (Doc.category a) (Doc.category b)
  else if String.eqb path "createdAt" then Z.compare (Doc.createdAt a) (Doc.createdAt b)
  else if String.eqb path "updatedAt" then Z.compare (Doc.updatedAt a) (Doc.updatedAt b)
  else if String.eqb path "__v" then N.compare (Doc.__v a) (Doc.__v b)
  else Eq.

Definition compare_key (k : sort_key) (a b : document) : comparison :=
  if snd k then CompOpp (compare_path (fst k) a b) else compare_path (fst k) a b.

(** The composite order: the first key that tells two documents apart. *)
Fixpoint compare_docs (keys : list sort_key) (a b : document) : comparison :=
  match keys with
  | [] => Eq
  | k :: rest =>
      match compare_key k a b with
      | Eq => compare_docs rest a b
      | c => c
      end
  end.

Definition before (keys : list sort_key) (a b : document) : bool :=
  match compare_docs keys a b with Gt => false | _ => true end.

Fixpoint insert_sorted (keys : list sort_key) (x : document) (l : list document)
  : list document :=
  match l with
  | [] => [x]
  | y :: rest =>
      if before keys x y then x :: l else y :: insert_sorted keys x rest
  end.

(** A stable sort: documents the keys do not tell apart stay in insertion
    order. *)
Fixpoint sort_docs (keys : list sort_key) (l : list document) : list document :=
  match l with
  | [] => []
  | x :: rest => insert_sorted keys x (sort_docs keys rest)
  end.

(** ** The pagination window *)

Definition as_integer (x : number) : option Z :=
  match x with
  | Js.Fin q => if Pos.eqb (Qden (Qred q)) 1 then Some (Qnum (Qred q)) else None
  | _ => None
  end.

(** [skip]: a natural number, or the server refuses the command. *)
Definition cast_skip (skip : option number) : result nat :=
  match skip with
  | None => Ok 0
  | Some x =>
      match as_integer x with
      | Some z => if (0 <=? z)%Z then Ok (Z.to_nat z)
                  else Throw (ServerError "skip value must be non-negative")
      | None => Throw (ServerError "skip value must be an integer")
      end
  end.

(** [limit]: [0] is no limit and a negative limit is its absolute value;
    anything but an integer is refused. *)
Definition cast_limit (limit : option number) : result (option nat) :=
  match limit with
  | None => Ok None
  | Some x =>
      match as_integer x with
      | Some z => if (z =? 0)%Z then Ok None else Ok (Some (Z.abs_nat z))
      | None => Throw (ServerError "limit value must be an integer")
      end
  end.

Definition window (skip : nat) (limit : option nat) (l : list document)
  : list document :=
  match limit with
  | Some n => firstn n (skipn skip l)
  | None => skipn skip l
  end.

(** ** The static methods *)

Definition sort_of (o : Options.t) : result (list sort_key) :=
  match Options.sort o with
  | Some s => parse_sort s
  | None => Ok []
  end.

Definition find (f : Filter.t) (o : Options.t) : M t (list document) :=
  keys <- lift (sort_of o) ;;
  f' <- lift (cast_filter f) ;;
  _ <- roundtrip ;;
  skip <- lift (cast_skip (Options.skip o)) ;;
  limit <- lift (cast_limit (Options.limit o)) ;;
  all <- get_docs ;;
  ret (window skip limit (sort_docs keys (filter (matches f') all))).

Definition countDocuments (f : Filter.t) : M t nat :=
  f' <- lift (cast_filter f) ;;
  _ <- roundtrip ;;
  all <- get_docs ;;
  ret (List.length (filter (matches f') all)).

Definition has_id (i : N) (d : document) : bool := N.eqb (Doc._id d) i.

Definition findById (id : string) : M t (option document) :=
  i <- lift (cast_id id) ;;
  _ <- roundtrip ;;
  all <- get_docs ;;
  ret (List.find (has_id i) all).

(** Document validation on [save]: the casts that failed when the document
    was built, then the validators of every path. *)
Definition validate_document (b : Body.t) : list (string * string) :=
  Schema.collect
    [ ("name", Schema.cast_failure (Schema.cast_String (Body.name b)));
      ("price", Schema.cast_failure (Schema.cast_Number "price" (Body.price b)));
      ("category", Schema.cast_failure (Schema.cast_String (Body.category b)));
      ("name", Schema.validator_failure (Schema.cast_String (Body.name b))
                 Schema.name_validators);
      ("price", Schema.validator_failure (Schema.cast_Number "price" (Body.price b))
                  Schema.price_validators);
      ("category", Schema.validator_failure (Schema.cast_String (Body.category b))
                     Schema.category_validators) ].

Definition create (b : Body.t) : M t document :=
  match validate_document b with
  | [] =>
      _ <- roundtrip ;;
      ts <- Date_now ;;
      i <- fresh_id ;;
      let d := Doc.mk i
                 (Schema.cast_value (Schema.cast_String (Body.name b)) "")
                 (Schema.cast_value (Schema.cast_Number "price" (Body.price b)) (Js.of_Z 0))
                 (Schema.cast_value (Schema.cast_String (Body.category b)) "")
                 ts ts 0%N in
      all <- get_docs ;;
      _ <- set_docs (all ++ [d]) ;;
      ret d
  | errs => throw (Schema.ValidationError "Product validation failed" errs)
  end.

(** Casting an update: [undefined] keys are dropped, and a value that
    cannot be cast is a CastError of the whole command. *)
Definition cast_path {A} (kind : string) (c : Schema.cast A) : result (option A) :=
  match c with
  | Schema.Cast x => Ok x
  | Schema.CastError e => Throw (CastError kind e)
  end.

Definition is_undefined (v : value) : bool :=
  match v with Js.Undefined => true | _ => false end.

(** Update validators ([runValidators: true]): the paths the update sets,
    in the order of [$set]. *)
Definition validate_update (b : Body.t) : list (string * string) :=
  Schema.collect
    [ ("category", if is_undefined (Body.category b) then None
                   else Schema.category_error (Body.category b));
      ("price", if is_undefined (Body.price b) then None
                else Schema.price_error (Body.price b));
      ("name", if is_undefined (Body.name b) then None
               else Schema.name_error (Body.name b)) ].

(** [$set] of the paths given, and of [updatedAt]. *)
Definition apply_update (b : Body.t) (ts : Z) (d : document) : document :=
  Doc.mk (Doc._id d)
    (if is_undefined (Body.name b) then Doc.name d
     else Schema.cast_value (Schema.cast_String (Body.name b)) (Doc.name d))
    (if is_undefined (Body.price b) then Doc.price d
     else Schema.cast_value (Schema.cast_Number "price" (Body.price b)) (Doc.price d))
    (if is_undefined (Body.category b) then Doc.category d
     else Schema.cast_value (Schema.cast_String (Body.category b)) (Doc.category d))
    (Doc.createdAt d) ts (Doc.__v d).

Fixpoint replace_first (i : N) (d' : document) (l : list document) : list document :=
  match l with
  | [] => []
  | d :: rest => if has_id i d then d' :: rest else d :: replace_first i d' rest
  end.

Fixpoint remove_first (i : N) (l : list document) : list document :=
  match l with
  | [] => []
  | d :: rest => if has_id i d then rest else d :: remove_first i rest
  end.

(** [findByIdAndUpdate(id, update, { new: true, runValidators: true })] *)
Definition findByIdAndUpdate (id : string) (b : Body.t) : M t (option document) :=
  i <- lift (cast_id id) ;;
  _ <- lift (cast_path "String" (Schema.cast_String (Body.name b))) ;;
  _ <- lift (cast_path "Number" (Schema.cast_Number "price" (Body.price b))) ;;
  _ <- lift (cast_path "String" (Schema.cast_String (Body.category b))) ;;
  match validate_update b with
  | [] =>
      _ <- roundtrip ;;
      ts <- Date_now ;;
      all <- get_docs ;;
      match List.find (has_id i) all with
      | Some d =>
          let d' := apply_update b ts d in
          _ <- set_docs (replace_first i d' all) ;;
          ret (Some d')
      | None => ret None
      end
  | errs => throw (Schema.ValidationError "Validation failed" errs)
  end.

Definition findByIdAndDelete (id : string) : M t (option document) :=
  i <- lift (cast_id id) ;;
  _ <- roundtrip ;;
  all <- get_docs ;;
  match List.find (has_id i) all with
  | Some d => _ <- set_docs (remove_first i all) ;; ret (Some d)
  | None => ret None
  end.

Definition deleteMany (f : Filter.t) : M t nat :=
  f' <- lift (cast_filter f) ;;
  _ <- roundtrip ;;
  all <- get_docs ;;
  _ <- set_docs (filter (fun d => negb (matches f' d)) all) ;;
  ret (List.length (filter (matches f') all)).

(** [mongoose.model('Product', productSchema)] *)
Definition Product : Model t :=
  Build_Model t create find countDocuments findById findByIdAndUpdate
    findByIdAndDelete deleteMany.

End Store.


(* ================================================================== *)
(** * Statements about the API                                         *)
(* ================================================================== *)

(** ** Requests *)

Definition no_body : Body.t := Body.mk Js.Undefined Js.Undefined Js.Undefined.

(** POST /api/products with a JSON body. *)
Definition post (b : Body.t) : request :=
  Req.mk b Query.empty (Params.mk "" "").

(** GET /api/products?... *)
Definition get_list (q : Query.t) : request :=
  Req.mk no_body q (Params.mk "" "").

(** GET or DELETE /api/products/:id *)
Definition by_id (id : string) : request :=
  Req.mk no_body Query.empty (Params.mk id "").

(** PUT /api/products/:id with a JSON body. *)
Definition put (id : string) (b : Body.t) : request :=
  Req.mk b Query.empty (Params.mk id "").

(** ** Envelopes *)

(** The flag and the status code of an envelope agree. *)
Definition envelope_ok (r : response) : Prop :=
  (Res.success r = true <-> Res.status r = 200 \/ Res.status r = 201) /\
  (Res.success r = false <->
   Res.status r = 400 \/ Res.status r = 404 \/ Res.status r = 500).


(** ** Field constraints, as the specification words them *)

Definition valid_name (s : string) : Prop :=
  3 <= String.length (Js.trim s) <= 100.

Definition valid_price (p : number) : Prop := Js.geb p (Js.of_Z 0) = true.

Definition valid_category (c : string) : Prop := In c Schema.categories.

(** The message a field of the right type earns when it violates its
    constraint. *)
Definition name_violation (s : string) : option string :=
  let t := Js.trim s in
  if String.eqb t "" then Some "Product name is required"
  else if String.length t <? 3
       then Some "Product name must be at least 3 characters long"
  else if 100 <? String.length t
       then Some "Product name cannot exceed 100 characters"
  else None.

Definition price_violation (p : number) : option string :=
  if Js.is_nan p then None
  else if Js.geb p (Js.of_Z 0) then None else Some "Price cannot be negative".

(** The message for a value that is not a category: the template of the
    schema with the value put in the place of [{VALUE}]. *)
Definition not_a_category (t : string) : string :=
  Js.replace "{VALUE}" t "{VALUE} is not a valid category".

Definition category_violation (c : string) : option string :=
  let t := Js.trim c in
  if String.eqb t "" then Some "Product category is required"
  else if Schema.is_category t then None
  else Some (not_a_category t).


(** The message for a text given as price that is not a number. *)
Definition not_a_number (s : string) : string :=
  "Cast to Number failed for value " ++ Js.dquote ++ s ++ Js.dquote
  ++ " (type string) at path " ++ Js.dquote ++ "price" ++ Js.dquote.

Definition violation_of_name (v : value) : option string :=
  match v with Js.Str s => name_violation s | _ => None end.
Definition violation_of_price (v : value) : option string :=
  match v with
  | Js.Num p => price_violation p
  | Js.Str s =>
      if String.eqb s "" then Some "Product price is required"
      else if Js.is_nan (Js.Number (Js.Str s)) then Some (not_a_number s)
      else price_violation (Js.Number (Js.Str s))
  | _ => None
  end.
Definition violation_of_category (v : value) : option string :=
  match v with Js.Str c => category_violation c | _ => None end.

Definition cons_some {A} (o : option A) (l : list A) : list A :=
  match o with Some x => x :: l | None => l end.

(** One message per field of the body that violates its constraint. *)
Definition violations (b : Body.t) : list string :=
  cons_some (violation_of_name (Body.name b))
    (cons_some (violation_of_price (Body.price b))
       (cons_some (violation_of_category (Body.category b)) [])).

(** A field of the body is a string (name, category) or a number (price). *)
Definition typed (b : Body.t) : Prop :=
  (exists s, Body.name b = Js.Str s) /\
  (exists p, Body.price b = Js.Num p /\ Js.is_nan p = false) /\
  (exists c, Body.category b = Js.Str c).




Definition all_truthy (b : Body.t) : Prop :=
  Js.truthy (Body.name b) = true /\ Js.truthy (Body.price b) = true /\
  Js.truthy (Body.category b) = true.


(** ** The store *)

Definition healthy (w : Store.t) : Prop := Store.down w = None.

(** Ids are drawn from the counter: none in the store has reached it. *)
Definition fresh_ids (w : Store.t) : Prop :=
  Forall (fun d => (Doc._id d < Store.next_id w)%N) (Store.docs w).

Definition lookup (i : N) (w : Store.t) : option document :=
  List.find (Store.has_id i) (Store.docs w).

(** ** Create, then get by id *)

(** [create_then_get stored name price category w]: the create answers 201
    with a record, and a get-by-id on its id answers 200 with the same
    record, whose name is [stored name], whose price and category are the
    ones sent, and whose two timestamps are equal. *)
Definition create_then_get (stored : string -> string)
  (name : string) (price : number) (category : string) (w : Store.t) : Prop :=
  let created :=
    Controller.createProduct Store.Product
      (post (Body.mk (Js.Str name) (Js.Num price) (Js.Str category))) w in
  Res.status (fst created) = 201 /\
  exists d,
    Res.data (fst created) = Some (One d) /\
    forall id, Store.castObjectId id = Some (Doc._id d) ->
      let got := fst (Controller.getProductById Store.Product (by_id id) (snd created)) in
      Res.status got = 200 /\
      Res.data got = Some (One d) /\
      Doc.name d = stored name /\
      Doc.price d = price /\
      Doc.category d = category /\
      Doc.createdAt d = Doc.updatedAt d.

(** ** Missing fields *)

Definition missing (b : Body.t) : list string :=
  (if Store.is_undefined (Body.name b) then ["name"] else [])
  ++ (if Store.is_undefined (Body.price b) then ["price"] else [])
  ++ (if Store.is_undefined (Body.category b) then ["category"] else []).

(** The answer to a create that misses a field: a 400 from which [named]
    reads the fields that are absent, and an unchanged store. *)
Definition missing_field_answer (named : response -> list string)
  (b : Body.t) (w : Store.t) : Prop :=
  let answer := Controller.createProduct Store.Product (post b) w in
  Res.status (fst answer) = 400 /\
  named (fst answer) = missing b /\
  snd answer = w.

Definition missing_fields_message : string :=
  "Please provide all required fields: name, price, and category".

(** ** Listing *)

(** A parameter counts as present when it is given a non-empty value, which
    is the test the handler makes. *)
Definition present (p : option string) (s : string) : Prop :=
  Controller.given p = Some s.

Definition above (p : option string) (d : document) : bool :=
  match Controller.given p with
  | Some s => Js.geb (Doc.price d) (Js.Number (Js.Str s))
  | None => true
  end.

Definition below (p : option string) (d : document) : bool :=
  match Controller.given p with
  | Some s => Js.leb (Doc.price d) (Js.Number (Js.Str s))
  | None => true
  end.

Definition in_category (p : option string) (d : document) : bool :=
  match Controller.given p with
  | Some c => String.eqb (Doc.category d) (Js.trim c)
  | None => true
  end.

(** The documents a list request selects, before sorting and paging. *)
Definition selected (q : Query.t) (w : Store.t) : list document :=
  filter (fun d => in_category (Query.category q) d
                   && (above (Query.minPrice q) d && below (Query.maxPrice q) d))
         (Store.docs w).

(** The sort keys of a request, when its sort string is one. *)
Definition sort_keys_of (q : Query.t) : list Store.sort_key :=
  match Store.parse_sort (Controller.build_sort q) with
  | Ok keys => keys
  | Throw _ => []
  end.

Definition sorted_selection (q : Query.t) (w : Store.t) : list document :=
  Store.sort_docs (sort_keys_of q) (selected q w).

(** The path an item of the [sort] parameter names. *)
Definition path_of (item : string) : string := fst (Store.parse_key item).

(** The integers a number holds exactly. *)
Definition safe (z : Z) : Prop := (Z.abs z < 2 ^ 53)%Z.


(** The price bounds that are given read as numbers. *)
Definition numeric_bounds (q : Query.t) : Prop :=
  (forall s, present (Query.minPrice q) s -> Js.is_nan (Js.Number (Js.Str s)) = false) /\
  (forall s, present (Query.maxPrice q) s -> Js.is_nan (Js.Number (Js.Str s)) = false).



(** ** Sorting *)

(** The fields of a record. *)
Definition record_fields : list string :=
  ["_id"; "name"; "price"; "category"; "createdAt"; "updatedAt"; "__v"].

(** An item of the sort parameter: a field, after [-] for descending. *)
Definition descending (item : string) : bool :=
  match item with
  | String "-" _ => true
  | _ => false
  end.

Definition field_of (item : string) : string :=
  match item with
  | String "-" field => field
  | _ => item
  end.

(** A list of field names: each item names a field of the record, and no
    field is named twice. *)
Definition field_list (items : list string) : Prop :=
  Forall (fun item => In (field_of item) record_fields) items /\
  NoDup (map field_of items).

(** The sort string of a request names fields of the record only. *)
Definition sortable (q : Query.t) : Prop :=
  Forall (fun property => In (field_of property) record_fields)
         (Js.split " " (Controller.build_sort q)).

(** Texts in the order of their characters. *)
Fixpoint text_le (s t : string) : Prop :=
  match s, t with
  | EmptyString, _ => True
  | String _ _, EmptyString => False
  | String a s', String b t' =>
      (N_of_ascii a < N_of_ascii b)%N \/ (a = b /\ text_le s' t')
  end.

(** Numbers in their order, [NaN] before every number. *)
Definition number_le (x y : number) : Prop :=
  Js.is_nan x = true \/ Js.leb x y = true.

(** [a] is not after [b] by the value of a field. *)
Definition le_by (field : string) (a b : document) : Prop :=
  if String.eqb field "name" then text_le (Doc.name a) (Doc.name b)
  else if String.eqb field "category" then text_le (Doc.category a) (Doc.category b)
  else if String.eqb field "price" then number_le (Doc.price a) (Doc.price b)
  else if String.eqb field "createdAt" then (Doc.createdAt a <= Doc.createdAt b)%Z
  else if String.eqb field "updatedAt" then (Doc.updatedAt a <= Doc.updatedAt b)%Z
  else if String.eqb field "_id" then (Doc._id a <= Doc._id b)%N
  else if String.eqb field "__v" then (Doc.__v a <= Doc.__v b)%N
  else True.

(** By an item of the sort parameter, [a] comes before [b]: with the
    smaller value, or with the larger one when the item is descending. *)
Definition before_by (item : string) (a b : document) : Prop :=
  if descending item then ~ le_by (field_of item) a b
  else ~ le_by (field_of item) b a.

(** The item does not tell [a] and [b] apart. *)
Definition tie_by (item : string) (a b : document) : Prop :=
  le_by (field_of item) a b /\ le_by (field_of item) b a.

(** The composite order of a list of items, applied from left to right:
    [a] may come before [b]. *)
Fixpoint in_order (items : list string) (a b : document) : Prop :=
  match items with
  | [] => True
  | item :: rest => before_by item a b \/ (tie_by item a b /\ in_order rest a b)
  end.

(** The records of a list are in the order its sort parameter asks for. *)
Definition sorted_as_asked (q : Query.t) (w : Store.t) : Prop :=
  forall s, present (Query.sort q) s ->
    Sorted (in_order (Js.split "," s))
      (Res.records (fst (Controller.getAllProducts Store.Product (get_list q) w))).

(** What is returned is a part of a list [l]: some records are skipped,
    then some are taken. *)
Definition window_of (l : list document) (records : list document) : Prop :=
  exists k n, records = firstn n (skipn k l).

Fixpoint has_space (s : string) : bool :=
  match s with
  | EmptyString => false
  | String c s' => Ascii.eqb c " " || has_space s'
  end.

(** [a] may come before [b] under the keys of a sort object. *)
Definition ordered (keys : list Store.sort_key) (a b : document) : Prop :=
  Store.compare_docs keys a b <> Gt.

Definition newest_first (a b : document) : Prop :=
  (Doc.createdAt b <= Doc.createdAt a)%Z.

(** The listing a request asks for, when the filter casts to [f'] and the
    window to [k], [n]. *)
Definition listing (q : Query.t) (f' : Filter.t) (k : nat) (n : option nat)
  (w : Store.t) : list document :=
  Store.window k n
    (Store.sort_docs (sort_keys_of q) (filter (Store.matches f') (Store.docs w))).

Definition list_envelope (q : Query.t) (products : list document) (total : nat)
  : response :=
  Res.with_data (Many products)
    (Res.with_totalPages
       (Js.Math_ceil (Js.div (Js.of_nat total) (Js.Number (Controller.limit_of q))))
       (Res.with_page (Js.Number (Controller.page_of q))
          (Res.with_total total
             (Res.with_count (List.length products) (Res.json 200 true))))).

(** ** Updating *)

(** The value a path holds after an update that supplies [v]. *)
Definition new_string (v : value) (old : string) : string :=
  match v with Js.Str s => Js.trim s | _ => old end.

Definition new_number (v : value) (old : number) : number :=
  match v with Js.Num p => p | _ => old end.

(** Every field supplied is valid. *)
Definition supplied_valid (b : Body.t) : Prop :=
  (Body.name b = Js.Undefined \/ exists s, Body.name b = Js.Str s /\ valid_name s) /\
  (Body.price b = Js.Undefined \/ exists p, Body.price b = Js.Num p /\ valid_price p) /\
  (Body.category b = Js.Undefined \/
   exists c, Body.category b = Js.Str c /\ valid_category c).

(** An update stamps the record later than it was: the record returned
    has an [updatedAt] strictly greater than before. *)
Definition stamped_later (id : string) (b : Body.t) (w : Store.t) : Prop :=
  forall i d,
    Store.castObjectId id = Some i -> lookup i w = Some d ->
    exists d',
      Res.data (fst (Controller.updateProduct Store.Product (put id b) w))
      = Some (One d') /\
      (Doc.updatedAt d < Doc.updatedAt d')%Z.

(** ** Sample data *)

Definition empty_store : Store.t := Store.mk [] 0%N 1000%Z None.

Definition laptop : document :=
  Doc.mk 0%N "Laptop" (Js.of_Z 1200) "Electronics" 1000%Z 1000%Z 0%N.
Definition novel : document :=
  Doc.mk 1%N "Novel" (Js.of_Z 15) "Books" 1100%Z 1100%Z 0%N.
Definition phone : document :=
  Doc.mk 2%N "Phone" (Js.of_Z 699) "Electronics" 1200%Z 1200%Z 0%N.
Definition camera : document :=
  Doc.mk 3%N "Camera" (Js.of_Z 2500) "Electronics" 1300%Z 1300%Z 0%N.

Definition shop : Store.t :=
  Store.mk [laptop; novel; phone; camera] 4%N 2000%Z None.

Definition three_violations : Body.t :=
  Body.mk (Js.Str "ab") (Js.Num (Js.of_Z (-5))) (Js.Str "Bogus").

Definition id0 : string := "000000000000000000000000".
Definition id9 : string := "000000000000000000000009".

(** ** What the store operations leave behind *)

(** The document a create inserts. *)
Definition new_document (b : Body.t) (w : Store.t) : document :=
  Doc.mk (Store.next_id w)
    (Schema.cast_value (Schema.cast_String (Body.name b)) "")
    (Schema.cast_value (Schema.cast_Number "price" (Body.price b)) (Js.of_Z 0))
    (Schema.cast_value (Schema.cast_String (Body.category b)) "")
    (Store.now w) (Store.now w) 0%N.

Definition with_docs (l : list document) (w : Store.t) : Store.t :=
  Store.mk l (Store.next_id w) (Store.now w) (Store.down w).

(** The catch block of the update handler. *)
Definition update_catch (id : string) (error : exn) : response :=
  if Controller.is_ValidationError error then Controller.validation_error error
  else if Controller.is_ObjectId_kind error then Controller.invalid_id id
  else Controller.server_error error.

(** The catch block of the create handler. *)
Definition create_catch (error : exn) : response :=
  if Controller.is_ValidationError error then Controller.validation_error error
  else Controller.server_error error.

Definition created (d : document) : response :=
  Res.with_data (One d)
    (Res.with_message "Product created successfully" (Res.json 201 true)).

Definition updated (d : document) : response :=
  Res.with_data (One d)
    (Res.with_message "Product updated successfully" (Res.json 200 true)).

Definition deleted (d : document) : response :=
  Res.with_data (One d)
    (Res.with_message "Product deleted successfully" (Res.json 200 true)).

(* ================================================================== *)
(** * Further statements                                               *)
(* ================================================================== *)

(** ** The seven handlers, by name *)

Inductive call : Type :=
| Create | List | Get | Update | Delete | DeleteAll | ByCategory.

Definition handle {W : Type} (Product : Model W) (c : call)
  : request -> W -> response * W :=
  match c with
  | Create => Controller.createProduct Product
  | List => Controller.getAllProducts Product
  | Get => Controller.getProductById Product
  | Update => Controller.updateProduct Product
  | Delete => Controller.deleteProduct Product
  | DeleteAll => Controller.deleteAllProducts Product
  | ByCategory => Controller.getProductsByCategory Product
  end.

(** The status codes a handler can answer with. *)
Definition statuses (c : call) : list nat :=
  match c with
  | Create => [201; 400; 500]
  | List => [200; 500]
  | Get => [200; 404; 500]
  | Update => [200; 400; 404; 500]
  | Delete => [200; 404; 500]
  | DeleteAll => [200; 500]
  | ByCategory => [200; 500]
  end.

(** The keys of an envelope go with its status: a failure carries a message
    and neither data nor counts; [error] comes with 500 and the message
    "Server Error"; [errors] comes with 400 and the message "Validation
    Error". *)
Definition well_shaped (r : response) : Prop :=
  (Res.success r = false ->
   Res.message r <> None /\ Res.data r = None /\ Res.count r = None /\
   Res.total r = None /\ Res.page r = None /\ Res.totalPages r = None /\
   Res.deletedCount r = None) /\
  (Res.error r <> None <-> Res.status r = 500) /\
  (Res.status r = 500 -> Res.message r = Some "Server Error") /\
  (Res.errors r <> None ->
   Res.status r = 400 /\ Res.message r = Some "Validation Error") /\
  (Res.success r = true ->
   Res.error r = None /\ Res.errors r = None /\
   (Res.data r <> None \/ Res.deletedCount r <> None)).

Definition falsy (v : value) : Prop := Js.truthy v = false.

(** The answer of the create handler to a body it does not pass on. *)
Definition fields_required : response :=
  Res.with_message missing_fields_message (Res.json 400 false).

(** A model in which a record that was read is gone when it is written:
    [findById] finds [d], and the two writes by id find nothing. *)
Definition vanishing (d : document) : Model unit :=
  Build_Model unit
    (fun _ => ret d)
    (fun _ _ => ret [d])
    (fun _ => ret 1)
    (fun _ => ret (Some d))
    (fun _ _ => ret None)
    (fun _ => ret None)
    (fun _ => ret 0).

(** ** The store, as the API keeps it *)

Definition valid_document (d : document) : Prop :=
  3 <= String.length (Doc.name d) <= 100 /\
  Js.geb (Doc.price d) (Js.of_Z 0) = true /\
  In (Doc.category d) Schema.categories.

Definition unique_ids (w : Store.t) : Prop :=
  NoDup (map Doc._id (Store.docs w)).

Definition well_formed (w : Store.t) : Prop :=
  fresh_ids w /\ unique_ids w /\ Forall valid_document (Store.docs w).

(** The stores the API can reach from an empty collection: by a request to
    one of the handlers, or by the clock and the connection changing
    between two requests. *)
Inductive reachable : Store.t -> Prop :=
| reach_empty (now : Z) (down : option string) :
    reachable (Store.mk [] 0%N now down)
| reach_later (w : Store.t) (now : Z) (down : option string) :
    reachable w -> reachable (Store.mk (Store.docs w) (Store.next_id w) now down)
| reach_call (w : Store.t) (c : call) (req : request) :
    reachable w -> reachable (snd (handle Store.Product c req w)).

(** GET /api/products/category/:category *)
Definition by_category (category : string) : request :=
  Req.mk no_body Query.empty (Params.mk "" category).

Definition of_category (c : string) (d : document) : bool :=
  String.eqb (Doc.category d) (Js.trim c).


(** ** Pages *)




(** ** The schema, value by value *)

Definition accepted_name (s : string) : Prop :=
  3 <= String.length (Js.trim s) <= 100.

Definition accepted_price (p : number) : Prop :=
  Js.geb p (Js.of_Z 0) = true.

Definition accepted_category (c : string) : Prop :=
  In (Js.trim c) Schema.categories.

Definition second_price_message : string := "Price must be a positive number".

(** ** Values that are not numbers *)



(** What an update may not change in a record. *)
Definition identity (d : document) : N * Z := (Doc._id d, Doc.createdAt d).

(* ================================================================== *)
(** * Sanity checks of the embedding                                   *)
(* ================================================================== *)

Example Number_examples :
  Js.Number (Js.Str "10") = Js.of_Z 10 /\
  Js.Number (Js.Str " 2.50 ") = Js.Fin (5 # 2) /\
  Js.Number (Js.Str "1e3") = Js.of_Z 1000 /\
  Js.Number (Js.Str "-.5") = Js.Fin (-1 # 2) /\
  Js.Number (Js.Str "0x1F") = Js.of_Z 31 /\
  Js.Number (Js.Str "") = Js.of_Z 0 /\
  Js.Number (Js.Str "12px") = Js.NaN /\
  Js.Number (Js.Str "abc") = Js.NaN /\
  Js.Number (Js.Str "1.0000000000000001") = Js.of_Z 1 /\
  Js.Number (Js.Str "9007199254740993") = Js.of_Z 9007199254740992 /\
  Js.Number (Js.Str "0.1") = Js.Fin (3602879701896397 # 36028797018963968) /\
  Js.Number (Js.Str "1e400") = Js.Inf false.
Proof. repeat split; reflexivity. Qed.

Example string_examples :
  Js.trim "  Laptop  " = "Laptop" /\
  Js.split "," "price,-name" = ["price"; "-name"] /\
  Js.join " " ["price"; "-name"] = "price -name" /\
  Js.string_of_number (Js.Fin (5 # 2)) = "2.5" /\
  Js.string_of_number (Js.of_Z 0) = "0" /\
  Js.string_of_number (Js.of_Z (-12)) = "-12" /\
  Js.string_of_number (Js.Number (Js.Str "0.1")) = "0.1" /\
  Js.string_of_number (Js.of_Z (10 ^ 21)) = "1e+21" /\
  Js.string_of_number (Js.Number (Js.Str "0.00000012")) = "1.2e-7" /\
  Js.replace "{VALUE}" "Bogus" "{VALUE} is not valid" = "Bogus is not valid" /\
  Js.replace "{VALUE}" "$&" "{VALUE} is not valid" = "{VALUE} is not valid" /\
  Js.replace "{VALUE}" "a$$b$'" "{VALUE} is not valid" = "a$b is not valid is not valid".
Proof. repeat split; reflexivity. Qed.

Example schema_examples :
  Schema.name_error (Js.Str "ab") = Some "Product name must be at least 3 characters long" /\
  Schema.name_error (Js.Str "   ") = Some "Product name is required" /\
  Schema.price_error (Js.Num (Js.of_Z (-5))) = Some "Price cannot be negative" /\
  Schema.price_error (Js.Num (Js.of_Z 0)) = None /\
  Schema.category_error (Js.Str "Bogus") = Some "Bogus is not a valid category" /\
  Schema.category_error (Js.Str " Food ") = None /\
  Store.parse_sort "price -name" = Ok [("price", false); ("name", true)] /\
  Store.parse_sort "price -price" = Ok [("price", true)] /\
  Store.parse_sort "price  name" = Throw Store.InvalidField.
Proof. repeat split; reflexivity. Qed.

(* ================================================================== *)
(** * The envelope                                                     *)
(* ================================================================== *)

Lemma envelope_ok_intro (st : nat) (ok : bool) (r : response) :
  Res.status r = st -> Res.success r = ok ->
  (st, ok) = (200, true) \/ (st, ok) = (201, true) \/ (st, ok) = (400, false)
  \/ (st, ok) = (404, false) \/ (st, ok) = (500, false) ->
  envelope_ok r.
Proof.
  intros Hst Hok H. unfold envelope_ok. rewrite Hst, Hok.
  destruct H as [H | [H | [H | [H | H]]]]; inversion H; subst;
    repeat split; intros; try discriminate; auto;
    repeat match goal with
           | G : _ \/ _ |- _ => destruct G
           end; discriminate.
Qed.

(** Splits on every call and test of a handler, down to the envelopes. *)
Ltac handler_cases :=
  cbv [try_catch bind ret findByCategory];
  repeat match goal with
         | |- context [match ?c with _ => _ end] =>
             lazymatch c with
             | context [match _ with _ => _ end] => fail
             | _ => destruct c eqn:?
             end
         | |- context [if ?c then _ else _] =>
             lazymatch c with
             | context [if _ then _ else _] => fail
             | _ => destruct c eqn:?
             end
         end.

Ltac envelope_case :=
  cbn [fst];
  first
    [ eapply (envelope_ok_intro 200 true); [reflexivity | reflexivity | tauto]
    | eapply (envelope_ok_intro 201 true); [reflexivity | reflexivity | tauto]
    | eapply (envelope_ok_intro 400 false); [reflexivity | reflexivity | tauto]
    | eapply (envelope_ok_intro 404 false); [reflexivity | reflexivity | tauto]
    | eapply (envelope_ok_intro 500 false); [reflexivity | reflexivity | tauto] ].

Section Envelope.

Context {W : Type} (Product : Model W).

Lemma createProduct_envelope req w :
  envelope_ok (fst (Controller.createProduct Product req w)).
Proof. unfold Controller.createProduct. handler_cases; envelope_case. Qed.

Lemma getAllProducts_envelope req w :
  envelope_ok (fst (Controller.getAllProducts Product req w)).
Proof. unfold Controller.getAllProducts. handler_cases; envelope_case. Qed.

Lemma getProductById_envelope req w :
  envelope_ok (fst (Controller.getProductById Product req w)).
Proof. unfold Controller.getProductById. handler_cases; envelope_case. Qed.

Lemma updateProduct_envelope req w :
  envelope_ok (fst (Controller.updateProduct Product req w)).
Proof. unfold Controller.updateProduct. handler_cases; envelope_case. Qed.

Lemma deleteProduct_envelope req w :
  envelope_ok (fst (Controller.deleteProduct Product req w)).
Proof. unfold Controller.deleteProduct. handler_cases; envelope_case. Qed.

Lemma deleteAllProducts_envelope req w :
  envelope_ok (fst (Controller.deleteAllProducts Product req w)).
Proof. unfold Controller.deleteAllProducts. handler_cases; envelope_case. Qed.

Lemma getProductsByCategory_envelope req w :
  envelope_ok (fst (Controller.getProductsByCategory Product req w)).
Proof. unfold Controller.getProductsByCategory. handler_cases; envelope_case. Qed.

End Envelope.

(* ================================================================== *)
(** * How the store operations run                                     *)
(* ================================================================== *)

Lemma filter_true {A} (f : A -> bool) (l : list A) :
  (forall x, f x = true) -> filter f l = l.
Proof.
  intros H. induction l as [|x l IH]; simpl; [reflexivity|].
  rewrite H, IH. reflexivity.
Qed.

Lemma filter_false {A} (f : A -> bool) (l : list A) :
  (forall x, f x = false) -> filter f l = [].
Proof.
  intros H. induction l as [|x l IH]; simpl; [reflexivity|].
  rewrite H. exact IH.
Qed.

Lemma window_nil k n : Store.window k n [] = [].
Proof. destruct n; simpl; rewrite skipn_nil; [apply firstn_nil | reflexivity]. Qed.

Lemma In_firstn {A} (n : nat) (l : list A) (x : A) :
  In x (firstn n l) -> In x l.
Proof.
  revert l. induction n as [|n IH]; intros [|y l]; simpl; try tauto.
  intros [H | H]; [left; exact H | right; apply IH; exact H].
Qed.

Lemma In_skipn {A} (n : nat) (l : list A) (x : A) :
  In x (skipn n l) -> In x l.
Proof.
  revert l. induction n as [|n IH]; intros [|y l]; simpl; try tauto.
  intros H. right. apply IH. exact H.
Qed.

Lemma window_incl k n l d : In d (Store.window k n l) -> In d l.
Proof.
  unfold Store.window. destruct n as [n|]; intros H.
  - apply In_firstn in H. eapply In_skipn; eassumption.
  - eapply In_skipn; eassumption.
Qed.

Lemma find_run f o w :
  Store.find f o w =
  (match Store.sort_of o with
   | Throw e => Throw e
   | Ok keys =>
       match Store.cast_filter f with
       | Throw e => Throw e
       | Ok f' =>
           match Store.down w with
           | Some msg => Throw (Store.NetworkError msg)
           | None =>
               match Store.cast_skip (Options.skip o) with
               | Throw e => Throw e
               | Ok k =>
                   match Store.cast_limit (Options.limit o) with
                   | Throw e => Throw e
                   | Ok n =>
                       Ok (Store.window k n
                             (Store.sort_docs keys
                                (filter (Store.matches f') (Store.docs w))))
                   end
               end
           end
       end
   end, w).
Proof.
  unfold Store.find, Store.lift, Store.roundtrip, Store.get_docs, bind, ret.
  destruct (Store.sort_of o); [|reflexivity].
  destruct (Store.cast_filter f); [|reflexivity].
  destruct (Store.down w); [reflexivity|].
  destruct (Store.cast_skip _); [|reflexivity].
  destruct (Store.cast_limit _); reflexivity.
Qed.

Lemma countDocuments_run f w :
  Store.countDocuments f w =
  (match Store.cast_filter f with
   | Throw e => Throw e
   | Ok f' =>
       match Store.down w with
       | Some msg => Throw (Store.NetworkError msg)
       | None => Ok (List.length (filter (Store.matches f') (Store.docs w)))
       end
   end, w).
Proof.
  unfold Store.countDocuments, Store.lift, Store.roundtrip, Store.get_docs, bind, ret.
  destruct (Store.cast_filter f); [|reflexivity].
  destruct (Store.down w); reflexivity.
Qed.

Lemma findById_run id w :
  Store.findById id w =
  (match Store.cast_id id with
   | Throw e => Throw e
   | Ok i =>
       match Store.down w with
       | Some msg => Throw (Store.NetworkError msg)
       | None => Ok (lookup i w)
       end
   end, w).
Proof.
  unfold Store.findById, Store.lift, Store.roundtrip, Store.get_docs, bind, ret, lookup.
  destruct (Store.cast_id id); [|reflexivity].
  destruct (Store.down w); reflexivity.
Qed.

Lemma cast_String_total v : Schema.cast_failure (Schema.cast_String v) = None.
Proof. destruct v as [| |[|]| |]; reflexivity. Qed.

Lemma validator_failure_String v vs :
  Schema.validator_failure (Schema.cast_String v) vs
  = Schema.path_error (Schema.cast_String v) vs.
Proof. destruct v as [| |[|]| |]; reflexivity. Qed.

(** When the price casts, validation lists the errors of the paths in the
    order of the schema. *)
Lemma validate_document_cast b :
  Schema.cast_failure (Schema.cast_Number "price" (Body.price b)) = None ->
  Store.validate_document b =
  Schema.collect
    [ ("name", Schema.name_error (Body.name b));
      ("price", Schema.price_error (Body.price b));
      ("category", Schema.category_error (Body.category b)) ].
Proof.
  intros H. unfold Store.validate_document.
  rewrite !cast_String_total, H, !validator_failure_String.
  cbn [Schema.collect].
  unfold Schema.price_error.
  destruct (Schema.cast_Number "price" (Body.price b)); [reflexivity | discriminate H].
Qed.

(** When it does not, the cast error comes first. *)
Lemma validate_document_cast_error b e :
  Schema.cast_Number "price" (Body.price b) = Schema.CastError e ->
  Store.validate_document b =
  ("price", e)
    :: Schema.collect
         [ ("name", Schema.name_error (Body.name b));
           ("category", Schema.category_error (Body.category b)) ].
Proof.
  intros H. unfold Store.validate_document.
  rewrite !cast_String_total, H, !validator_failure_String. reflexivity.
Qed.

Lemma create_run b w :
  Store.create b w =
  match Store.validate_document b with
  | [] =>
      match Store.down w with
      | Some msg => (Throw (Store.NetworkError msg), w)
      | None =>
          (Ok (new_document b w),
           Store.mk (Store.docs w ++ [new_document b w])
                    (N.succ (Store.next_id w)) (Store.now w) (Store.down w))
      end
  | e :: errs =>
      (Throw (Schema.ValidationError "Product validation failed" (e :: errs)), w)
  end.
Proof.
  unfold Store.create.
  destruct (Store.validate_document b); [|reflexivity].
  unfold Store.roundtrip, Store.Date_now, Store.fresh_id, Store.get_docs,
    Store.set_docs, bind, ret.
  destruct (Store.down w) eqn:Hd; [reflexivity|].
  cbn. rewrite Hd. reflexivity.
Qed.

Lemma findByIdAndUpdate_run id b w :
  Store.findByIdAndUpdate id b w =
  match Store.cast_id id with
  | Throw e => (Throw e, w)
  | Ok i =>
      match Store.cast_path "Number" (Schema.cast_Number "price" (Body.price b)) with
      | Throw e => (Throw e, w)
      | Ok _ =>
          match Store.validate_update b with
          | [] =>
              match Store.down w with
              | Some msg => (Throw (Store.NetworkError msg), w)
              | None =>
                  match lookup i w with
                  | Some d =>
                      (Ok (Some (Store.apply_update b (Store.now w) d)),
                       with_docs
                         (Store.replace_first i
                            (Store.apply_update b (Store.now w) d) (Store.docs w)) w)
                  | None => (Ok None, w)
                  end
              end
          | e :: errs =>
              (Throw (Schema.ValidationError "Validation failed" (e :: errs)), w)
          end
      end
  end.
Proof.
  unfold Store.findByIdAndUpdate, Store.lift, bind, ret.
  destruct (Store.cast_id id); [|reflexivity].
  assert (Hs : forall v, exists x, Store.cast_path "String" (Schema.cast_String v) = Ok x).
  { intros v. destruct v; simpl; eauto. }
  destruct (Hs (Body.name b)) as [x1 ->].
  destruct (Store.cast_path "Number" _); [|reflexivity].
  destruct (Hs (Body.category b)) as [x2 ->].
  destruct (Store.validate_update b); [|reflexivity].
  unfold Store.roundtrip, Store.Date_now, Store.get_docs, Store.set_docs, lookup, with_docs.
  destruct (Store.down w) eqn:Hd; [reflexivity|].
  destruct (List.find _ _); cbn; rewrite ?Hd; reflexivity.
Qed.

Lemma findByIdAndDelete_run id w :
  Store.findByIdAndDelete id w =
  match Store.cast_id id with
  | Throw e => (Throw e, w)
  | Ok i =>
      match Store.down w with
      | Some msg => (Throw (Store.NetworkError msg), w)
      | None =>
          match lookup i w with
          | Some d => (Ok (Some d), with_docs (Store.remove_first i (Store.docs w)) w)
          | None => (Ok None, w)
          end
      end
  end.
Proof.
  unfold Store.findByIdAndDelete, Store.lift, Store.roundtrip, Store.get_docs,
    Store.set_docs, bind, ret, lookup, with_docs.
  destruct (Store.cast_id id); [|reflexivity].
  destruct (Store.down w) eqn:Hd; [reflexivity|].
  destruct (List.find _ _); cbn; rewrite ?Hd; reflexivity.
Qed.

Lemma deleteMany_all_run w :
  Store.deleteMany Filter.all w =
  match Store.down w with
  | Some msg => (Throw (Store.NetworkError msg), w)
  | None => (Ok (List.length (Store.docs w)), with_docs [] w)
  end.
Proof.
  unfold Store.deleteMany, Store.lift, Store.roundtrip, Store.get_docs,
    Store.set_docs, bind, ret, with_docs.
  cbn [Store.cast_filter Filter.all Filter.price Filter.category option_map].
  destruct (Store.down w) eqn:Hd; [reflexivity|].
  cbn. rewrite filter_true by reflexivity.
  rewrite filter_false by reflexivity. rewrite ?Hd. reflexivity.
Qed.

(** ** How the handlers run on the store *)

Lemma getAllProducts_run req w :
  Controller.getAllProducts Store.Product req w =
  (let q := Req.query req in
   match Store.parse_sort (Controller.build_sort q) with
   | Throw e => Controller.server_error e
   | Ok _ =>
       match Store.cast_filter (Controller.build_query q) with
       | Throw e => Controller.server_error e
       | Ok f' =>
           match Store.down w with
           | Some msg => Controller.server_error (Store.NetworkError msg)
           | None =>
               match Store.cast_skip (Some (Controller.skip_of q)) with
               | Throw e => Controller.server_error e
               | Ok k =>
                   match Store.cast_limit (Some (Js.Number (Controller.limit_of q))) with
                   | Throw e => Controller.server_error e
                   | Ok n =>
                       list_envelope q (listing q f' k n w)
                         (List.length (filter (Store.matches f') (Store.docs w)))
                   end
               end
           end
       end
   end, w).
Proof.
  unfold Controller.getAllProducts, try_catch, bind, ret.
  cbn [find countDocuments Store.Product].
  rewrite find_run. cbn [Options.skip Options.limit Options.sort Store.sort_of].
  unfold listing, sort_keys_of.
  destruct (Store.parse_sort _) eqn:Hs; [|reflexivity].
  destruct (Store.cast_filter _) eqn:Hf; [|reflexivity].
  destruct (Store.down w) eqn:Hd; [reflexivity|].
  destruct (Store.cast_skip _); [|reflexivity].
  destruct (Store.cast_limit _); [|reflexivity].
  rewrite countDocuments_run, Hf, Hd. reflexivity.
Qed.

Lemma cast_id_malformed id :
  Store.castObjectId id = None ->
  exists e, Store.cast_id id = Throw e /\ Controller.is_ObjectId_kind e = true
            /\ Controller.is_ValidationError e = false.
Proof.
  intros H. unfold Store.cast_id. rewrite H. eexists. repeat split.
Qed.

Lemma cast_id_shaped id i :
  Store.castObjectId id = Some i -> Store.cast_id id = Ok i.
Proof. intros H. unfold Store.cast_id. rewrite H. reflexivity. Qed.

Lemma getProductById_run req w :
  Controller.getProductById Store.Product req w =
  (let id := Params.id (Req.params req) in
   match Store.cast_id id with
   | Throw e =>
       if Controller.is_ObjectId_kind e then Controller.invalid_id id
       else Controller.server_error e
   | Ok i =>
       match Store.down w with
       | Some msg => Controller.server_error (Store.NetworkError msg)
       | None =>
           match lookup i w with
           | Some p => Res.with_data (One p) (Res.json 200 true)
           | None => Controller.not_found id
           end
       end
   end, w).
Proof.
  unfold Controller.getProductById, try_catch, bind, ret.
  cbn [findById Store.Product]. rewrite findById_run.
  destruct (Store.cast_id _); [|reflexivity].
  destruct (Store.down w); [reflexivity|].
  destruct (lookup _ _); reflexivity.
Qed.

Lemma createProduct_run req w :
  Controller.createProduct Store.Product req w =
  (let b := Req.body req in
   if negb (Js.truthy (Body.name b)) || negb (Js.truthy (Body.price b))
      || negb (Js.truthy (Body.category b))
   then (Res.with_message missing_fields_message (Res.json 400 false), w)
   else
     match Store.validate_document b with
     | [] =>
         match Store.down w with
         | Some msg => (create_catch (Store.NetworkError msg), w)
         | None =>
             (created (new_document b w),
              Store.mk (Store.docs w ++ [new_document b w])
                       (N.succ (Store.next_id w)) (Store.now w) (Store.down w))
         end
     | e :: errs =>
         (create_catch
            (Schema.ValidationError "Product validation failed" (e :: errs)), w)
     end).
Proof.
  destruct req as [[name price category] q prm].
  unfold Controller.createProduct, try_catch, bind, ret.
  cbn [Req.body Body.name Body.price Body.category create Store.Product].
  destruct (negb (Js.truthy name) || negb (Js.truthy price)
            || negb (Js.truthy category)); [reflexivity|].
  rewrite create_run.
  destruct (Store.validate_document _); [|reflexivity].
  destruct (Store.down w); reflexivity.
Qed.

Lemma updateProduct_run req w :
  Controller.updateProduct Store.Product req w =
  (let id := Params.id (Req.params req) in
   let b := Req.body req in
   match Store.cast_id id with
   | Throw e => (update_catch id e, w)
   | Ok i =>
       match Store.down w with
       | Some msg => (update_catch id (Store.NetworkError msg), w)
       | None =>
           match lookup i w with
           | None => (Controller.not_found id, w)
           | Some d =>
               match Store.cast_path "Number"
                       (Schema.cast_Number "price" (Body.price b)) with
               | Throw e => (update_catch id e, w)
               | Ok _ =>
                   match Store.validate_update b with
                   | [] =>
                       (updated (Store.apply_update b (Store.now w) d),
                        with_docs
                          (Store.replace_first i
                             (Store.apply_update b (Store.now w) d)
                             (Store.docs w)) w)
                   | e :: errs =>
                       (update_catch id
                          (Schema.ValidationError "Validation failed" (e :: errs)), w)
                   end
               end
           end
       end
   end).
Proof.
  destruct req as [[name price category] q [id cat]].
  unfold Controller.updateProduct, try_catch, bind, ret.
  cbn [Req.body Req.params Params.id Body.name Body.price Body.category
       findById findByIdAndUpdate Store.Product].
  rewrite findById_run.
  destruct (Store.cast_id id) eqn:Hid; [|reflexivity].
  destruct (Store.down w) eqn:Hd; [reflexivity|].
  destruct (lookup a w) eqn:Hl; [|reflexivity].
  rewrite findByIdAndUpdate_run, Hid, Hd, Hl.
  destruct (Store.cast_path _ _); [|reflexivity].
  destruct (Store.validate_update _); reflexivity.
Qed.

Lemma deleteProduct_run req w :
  Controller.deleteProduct Store.Product req w =
  (let id := Params.id (Req.params req) in
   match Store.cast_id id with
   | Throw e =>
       (if Controller.is_ObjectId_kind e then Controller.invalid_id id
        else Controller.server_error e, w)
   | Ok i =>
       match Store.down w with
       | Some msg => (Controller.server_error (Store.NetworkError msg), w)
       | None =>
           match lookup i w with
           | None => (Controller.not_found id, w)
           | Some d => (deleted d, with_docs (Store.remove_first i (Store.docs w)) w)
           end
       end
   end).
Proof.
  unfold Controller.deleteProduct, try_catch, bind, ret.
  cbn [findById findByIdAndDelete Store.Product].
  rewrite findById_run.
  destruct (Store.cast_id _) eqn:Hid; [|reflexivity].
  destruct (Store.down w) eqn:Hd; [reflexivity|].
  destruct (lookup a w) eqn:Hl; [|reflexivity].
  rewrite findByIdAndDelete_run, Hid, Hd, Hl. reflexivity.
Qed.

Lemma deleteAllProducts_run req w :
  Controller.deleteAllProducts Store.Product req w =
  match Store.down w with
  | Some msg => (Controller.server_error (Store.NetworkError msg), w)
  | None =>
      (Res.with_deletedCount (List.length (Store.docs w))
         (Res.with_message
            ("Successfully deleted "
             ++ Js.string_of_number (Js.of_nat (List.length (Store.docs w)))
             ++ " products")
            (Res.json 200 true)),
       with_docs [] w)
  end.
Proof.
  unfold Controller.deleteAllProducts, try_catch, bind, ret.
  cbn [deleteMany Store.Product].
  rewrite deleteMany_all_run.
  destruct (Store.down w); reflexivity.
Qed.

(* ================================================================== *)
(** * An invariant of the store                                        *)
(* ================================================================== *)

Lemma Forall_replace_first (P : document -> Prop) i d' l :
  P d' -> Forall P l -> Forall P (Store.replace_first i d' l).
Proof.
  intros Hd H. induction H as [|x l Hx Hl IH]; simpl; [constructor|].
  destruct (Store.has_id i x); constructor; assumption.
Qed.

Lemma Forall_remove_first (P : document -> Prop) i l :
  Forall P l -> Forall P (Store.remove_first i l).
Proof.
  intros H. induction H as [|x l Hx Hl IH]; simpl; [constructor|].
  destruct (Store.has_id i x); [assumption | constructor; assumption].
Qed.

Lemma getProductsByCategory_state req w :
  snd (Controller.getProductsByCategory Store.Product req w) = w.
Proof.
  unfold Controller.getProductsByCategory, findByCategory, try_catch, bind, ret.
  cbn [find Store.Product]. rewrite find_run.
  destruct (Store.cast_filter _); [|reflexivity].
  destruct (Store.down w); [reflexivity|].
  destruct (Store.cast_skip _); [|reflexivity].
  destruct (Store.cast_limit _); reflexivity.
Qed.

(** The empty store has fresh ids, and every handler keeps them fresh: the
    id a create draws is the id of no record. *)
Lemma fresh_ids_invariant (req : request) (w : Store.t) :
  fresh_ids empty_store /\
  (fresh_ids w ->
   fresh_ids (snd (Controller.createProduct Store.Product req w)) /\
   fresh_ids (snd (Controller.getAllProducts Store.Product req w)) /\
   fresh_ids (snd (Controller.getProductById Store.Product req w)) /\
   fresh_ids (snd (Controller.updateProduct Store.Product req w)) /\
   fresh_ids (snd (Controller.deleteProduct Store.Product req w)) /\
   fresh_ids (snd (Controller.deleteAllProducts Store.Product req w)) /\
   fresh_ids (snd (Controller.getProductsByCategory Store.Product req w))).
Proof.
  split; [constructor|]. intros H.
  rewrite createProduct_run, getAllProducts_run, getProductById_run,
    updateProduct_run, deleteProduct_run, deleteAllProducts_run,
    getProductsByCategory_state.
  cbv zeta. cbn [snd]. repeat split; try exact H.
  - destruct (_ || _); [exact H|].
    destruct (Store.validate_document _); [|exact H].
    destruct (Store.down w); [exact H|].
    unfold fresh_ids in *. cbn [snd Store.docs Store.next_id].
    apply Forall_app. split.
    + eapply Forall_impl; [|exact H]. cbv beta. intros a Ha. lia.
    + repeat constructor. unfold new_document. cbn [Doc._id]. lia.
  - destruct (Store.cast_id _) as [i|]; [|exact H].
    destruct (Store.down w); [exact H|].
    destruct (lookup i w) as [d|] eqn:Hl; [|exact H].
    destruct (Store.cast_path _ _); [|exact H].
    destruct (Store.validate_update _); [|exact H].
    unfold fresh_ids in *. cbn [snd with_docs Store.docs Store.next_id].
    apply Forall_replace_first; [|exact H].
    unfold lookup in Hl. apply find_some in Hl. destruct Hl as [Hin _].
    rewrite Forall_forall in H. apply (H d Hin).
  - destruct (Store.cast_id _) as [i|]; [|exact H].
    destruct (Store.down w); [exact H|].
    destruct (lookup i w) as [d|]; [|exact H].
    unfold fresh_ids in *. cbn [snd with_docs Store.docs Store.next_id].
    apply Forall_remove_first. exact H.
  - destruct (Store.down w); [exact H|]. constructor.
Qed.

(* ================================================================== *)
(** * The envelope of every handler                                    *)
(* ================================================================== *)

(** C10. Whatever the model does, each of the seven handlers answers with
    an envelope whose [success] flag is [true] exactly when the status is
    200 or 201, and [false] exactly when it is 400, 404 or 500. *)
Theorem success_flag_matches_status
  (W : Type) (Product : Model W) (req : request) (w : W) :
  envelope_ok (fst (Controller.createProduct Product req w)) /\
  envelope_ok (fst (Controller.getAllProducts Product req w)) /\
  envelope_ok (fst (Controller.getProductById Product req w)) /\
  envelope_ok (fst (Controller.updateProduct Product req w)) /\
  envelope_ok (fst (Controller.deleteProduct Product req w)) /\
  envelope_ok (fst (Controller.deleteAllProducts Product req w)) /\
  envelope_ok (fst (Controller.getProductsByCategory Product req w)).
Proof.
  repeat split;
    try apply (proj1 (createProduct_envelope Product req w));
    try apply (proj2 (createProduct_envelope Product req w));
    try apply (proj1 (getAllProducts_envelope Product req w));
    try apply (proj2 (getAllProducts_envelope Product req w));
    try apply (proj1 (getProductById_envelope Product req w));
    try apply (proj2 (getProductById_envelope Product req w));
    try apply (proj1 (updateProduct_envelope Product req w));
    try apply (proj2 (updateProduct_envelope Product req w));
    try apply (proj1 (deleteProduct_envelope Product req w));
    try apply (proj2 (deleteProduct_envelope Product req w));
    try apply (proj1 (deleteAllProducts_envelope Product req w));
    try apply (proj2 (deleteAllProducts_envelope Product req w));
    try apply (proj1 (getProductsByCategory_envelope Product req w));
    try apply (proj2 (getProductsByCategory_envelope Product req w)).
Qed.

(* ================================================================== *)
(** * Identifiers                                                      *)
(* ================================================================== *)

(** C4. A malformed identifier is answered 404 by get-by-id, update and
    delete-by-id, whatever the body and the state of the store; and so is,
    on a working connection, an identifier of the right shape that no
    document has. *)
Theorem malformed_id_is_not_found (id : string) (b : Body.t) (w : Store.t) :
  Store.castObjectId id = None ->
  (Res.status (fst (Controller.getProductById Store.Product (by_id id) w)) = 404 /\
   Res.status (fst (Controller.updateProduct Store.Product (put id b) w)) = 404 /\
   Res.status (fst (Controller.deleteProduct Store.Product (by_id id) w)) = 404) /\
  (forall id' i,
      Store.castObjectId id' = Some i -> lookup i w = None -> healthy w ->
      Res.status (fst (Controller.getProductById Store.Product (by_id id') w)) = 404 /\
      Res.status (fst (Controller.updateProduct Store.Product (put id' b) w)) = 404 /\
      Res.status (fst (Controller.deleteProduct Store.Product (by_id id') w)) = 404).
Proof.
  intros Hbad. split.
  - destruct (cast_id_malformed id Hbad) as [e [He [Hk Hv]]].
    rewrite getProductById_run, updateProduct_run, deleteProduct_run.
    cbn [by_id put Req.params Params.id Req.body].
    rewrite He. unfold update_catch. rewrite Hk, Hv. repeat split.
  - intros id' i Hid Hl Hw. red in Hw.
    rewrite getProductById_run, updateProduct_run, deleteProduct_run.
    cbn [by_id put Req.params Params.id Req.body].
    rewrite (cast_id_shaped _ _ Hid), Hw, Hl. repeat split.
Qed.

Lemma malformed_id_is_not_found_witness :
  Store.castObjectId "not-an-id" = None /\
  Res.status (fst (Controller.getProductById Store.Product (by_id "not-an-id") shop)) = 404 /\
  Res.status (fst (Controller.updateProduct Store.Product
                     (put "not-an-id" (Body.mk Js.Undefined (Js.Num (Js.of_Z 1500)) Js.Undefined))
                     shop)) = 404 /\
  Res.status (fst (Controller.deleteProduct Store.Product (by_id "not-an-id") shop)) = 404.
Proof.
  split; [reflexivity|].
  apply (malformed_id_is_not_found "not-an-id"
           (Body.mk Js.Undefined (Js.Num (Js.of_Z 1500)) Js.Undefined) shop).
  reflexivity.
Defined.

(* ================================================================== *)
(** * Delete all                                                       *)
(* ================================================================== *)

Lemma listing_of_nothing q f' k n w :
  Store.docs w = [] -> listing q f' k n w = [].
Proof.
  intros H. unfold listing. rewrite H. simpl. apply window_nil.
Qed.

(** C9. On a working connection, delete-all answers 200 with a
    [deletedCount] equal to the number of records held, leaves the store
    empty, and every later list returns no record; a list without
    parameters answers 200 with zero records and a total of zero. *)
Theorem deleteAll_empties_the_store (req : request) (w : Store.t) :
  healthy w ->
  let answer := Controller.deleteAllProducts Store.Product req w in
  Res.status (fst answer) = 200 /\
  Res.deletedCount (fst answer) = Some (List.length (Store.docs w)) /\
  Store.docs (snd answer) = [] /\
  (forall q,
      Res.records (fst (Controller.getAllProducts Store.Product (get_list q) (snd answer))) = []) /\
  (let r := fst (Controller.getAllProducts Store.Product (get_list Query.empty) (snd answer)) in
   Res.status r = 200 /\ Res.data r = Some (Many []) /\
   Res.count r = Some 0 /\ Res.total r = Some 0).
Proof.
  intros Hw answer. subst answer. red in Hw.
  rewrite deleteAllProducts_run, Hw. cbn [fst snd].
  repeat split.
  - intros q. rewrite getAllProducts_run. cbn [fst get_list Req.query].
    destruct (Store.parse_sort _); [|reflexivity].
    destruct (Store.cast_filter _); [|reflexivity].
    cbn [with_docs Store.down Store.docs]. rewrite Hw.
    destruct (Store.cast_skip _); [|reflexivity].
    destruct (Store.cast_limit _); [|reflexivity].
    unfold list_envelope, Res.records. cbn. apply listing_of_nothing. reflexivity.
  - rewrite getAllProducts_run. cbn. rewrite Hw. reflexivity.
  - rewrite getAllProducts_run. cbn. rewrite Hw. reflexivity.
  - rewrite getAllProducts_run. cbn. rewrite Hw. reflexivity.
  - rewrite getAllProducts_run. cbn. rewrite Hw. reflexivity.
Qed.

Lemma deleteAll_empties_the_store_witness :
  Res.deletedCount (fst (Controller.deleteAllProducts Store.Product (by_id "") shop)) = Some 4.
Proof.
  apply (deleteAll_empties_the_store (by_id "") shop). reflexivity.
Defined.

(* ================================================================== *)
(** * Create                                                           *)
(* ================================================================== *)

Lemma missing_is_falsy b :
  missing b <> [] ->
  negb (Js.truthy (Body.name b)) || negb (Js.truthy (Body.price b))
  || negb (Js.truthy (Body.category b)) = true.
Proof.
  unfold missing. destruct b as [n p c]. cbn [Body.name Body.price Body.category].
  destruct n; cbn [Store.is_undefined]; try reflexivity;
    destruct p; cbn [Store.is_undefined app]; try (intros _; apply orb_true_iff; left; apply orb_true_r);
    destruct c; cbn [Store.is_undefined app]; try (intros _; apply orb_true_r);
    intros H; exfalso; apply H; reflexivity.
Qed.

(** C2, as the code has it. A create request that misses one of name, price
    and category is answered 400 with the one fixed message that lists the
    three required fields, without a list of errors, and the store is left
    as it was. *)
Theorem missing_field_is_rejected (b : Body.t) (w : Store.t) :
  missing b <> [] ->
  let answer := Controller.createProduct Store.Product (post b) w in
  Res.status (fst answer) = 400 /\
  Res.success (fst answer) = false /\
  Res.message (fst answer) = Some missing_fields_message /\
  Res.errors (fst answer) = None /\
  snd answer = w.
Proof.
  intros H answer. subst answer.
  rewrite createProduct_run. cbn [post Req.body].
  rewrite (missing_is_falsy b H). repeat split.
Qed.

Lemma missing_field_is_rejected_witness :
  Res.message
    (fst (Controller.createProduct Store.Product
            (post (Body.mk (Js.Str "Laptop") Js.Undefined (Js.Str "Electronics")))
            shop))
  = Some missing_fields_message.
Proof.
  apply (missing_field_is_rejected
           (Body.mk (Js.Str "Laptop") Js.Undefined (Js.Str "Electronics")) shop).
  discriminate.
Defined.

(** C2, as stated, fails: no reading of the answer tells which field is
    absent, since a request without a name and a request without a price
    are answered alike. *)
Lemma missing_field_is_not_named :
  ~ exists named : response -> list string,
      forall b w, missing b <> [] -> missing_field_answer named b w.
Proof.
  intros [named H].
  pose (b1 := Body.mk Js.Undefined (Js.Num (Js.of_Z 5)) (Js.Str "Food")).
  pose (b2 := Body.mk (Js.Str "Bread") Js.Undefined (Js.Str "Food")).
  assert (H1 : missing b1 <> []) by discriminate.
  assert (H2 : missing b2 <> []) by discriminate.
  destruct (H b1 empty_store H1) as [_ [N1 _]].
  destruct (H b2 empty_store H2) as [_ [N2 _]].
  assert (E : fst (Controller.createProduct Store.Product (post b1) empty_store)
              = fst (Controller.createProduct Store.Product (post b2) empty_store))
    by reflexivity.
  rewrite E in N1. rewrite N1 in N2. discriminate N2.
Qed.

Lemma trim_category c : valid_category c -> Js.trim c = c.
Proof.
  unfold valid_category. simpl.
  intros H. repeat (destruct H as [H | H]; [subst c; reflexivity|]). contradiction.
Qed.

Lemma is_category_true c : valid_category c -> Schema.is_category c = true.
Proof.
  unfold valid_category. simpl.
  intros H. repeat (destruct H as [H | H]; [subst c; reflexivity|]). contradiction.
Qed.

Lemma category_nonempty c : valid_category c -> Js.truthy (Js.Str c) = true.
Proof.
  unfold valid_category. simpl.
  intros H. repeat (destruct H as [H | H]; [subst c; reflexivity|]). contradiction.
Qed.

Lemma trimEnd_length s : String.length (Js.trimEnd s) <= String.length s.
Proof.
  induction s as [|c s IH]; simpl; [lia|].
  destruct (Js.trimEnd s); [destruct (Js.is_ws c)|]; simpl in *; lia.
Qed.

Lemma trimStart_length s : String.length (Js.trimStart s) <= String.length s.
Proof.
  induction s as [|c s IH]; simpl; [lia|].
  destruct (Js.is_ws c); simpl; lia.
Qed.

Lemma trim_length s : String.length (Js.trim s) <= String.length s.
Proof.
  unfold Js.trim. etransitivity; [apply trimEnd_length | apply trimStart_length].
Qed.

Lemma name_nonempty s : valid_name s -> Js.truthy (Js.Str s) = true.
Proof.
  unfold valid_name. intros [H _]. pose proof (trim_length s) as L.
  destruct s; simpl in *; [lia | reflexivity].
Qed.

Lemma name_error_valid s : valid_name s -> Schema.name_error (Js.Str s) = None.
Proof.
  unfold valid_name. intros [H1 H2].
  unfold Schema.name_error, Schema.path_error, Schema.cast_String.
  cbn [Schema.doValidate Schema.name_validators Schema.test Schema.required_String
       Schema.minlength Schema.maxlength Schema.lift].
  assert (String.eqb (Js.trim s) "" = false) as ->.
  { destruct (Js.trim s); [simpl in H1; lia | reflexivity]. }
  cbn [negb].
  rewrite (proj2 (Nat.leb_le _ _) H1), (proj2 (Nat.leb_le _ _) H2). reflexivity.
Qed.

Lemma valid_price_not_nan p : valid_price p -> Js.is_nan p = false.
Proof. unfold valid_price. destruct p; simpl; congruence. Qed.

Lemma price_error_valid p : valid_price p -> Schema.price_error (Js.Num p) = None.
Proof.
  intros H. pose proof (valid_price_not_nan p H) as Hn. red in H.
  unfold Schema.price_error, Schema.path_error, Schema.cast_Number. rewrite Hn.
  cbn. rewrite H. reflexivity.
Qed.

Lemma category_error_valid c :
  valid_category c -> Schema.category_error (Js.Str c) = None.
Proof.
  unfold valid_category. simpl.
  intros H. repeat (destruct H as [H | H]; [subst c; reflexivity|]). contradiction.
Qed.

Lemma lookup_fresh i l d :
  Forall (fun x => (Doc._id x < i)%N) l ->
  Doc._id d = i ->
  List.find (Store.has_id i) (l ++ [d]) = Some d.
Proof.
  intros Hl Hd. induction Hl as [|x l Hx Hl IH]; simpl.
  - unfold Store.has_id. rewrite Hd, N.eqb_refl. reflexivity.
  - unfold Store.has_id at 1.
    destruct (N.eqb_spec (Doc._id x) i) as [E | _]; [lia | exact IH].
Qed.

(** C1, as the code has it. For a name whose trimmed length is between 3
    and 100, a price that is at least 0 and is not 0, and a category of the
    enumerated set, on a working connection: the create answers 201 with a
    record, and a get-by-id on the id it was given answers 200 with that
    record, whose name is the trimmed name, whose price and category are
    the ones sent, and whose [createdAt] and [updatedAt] are equal. *)
Theorem create_then_get_by_id
  (name : string) (price : number) (category : string) (w : Store.t) :
  valid_name name ->
  valid_price price -> Js.truthy (Js.Num price) = true ->
  valid_category category ->
  healthy w -> fresh_ids w ->
  create_then_get Js.trim name price category w.
Proof.
  intros Hn Hp Hp0 Hc Hw Hf. red in Hw.
  unfold create_then_get. cbv zeta.
  rewrite createProduct_run. cbn [post Req.body Body.name Body.price Body.category].
  rewrite (name_nonempty _ Hn), Hp0, (category_nonempty _ Hc). cbn [negb orb].
  rewrite validate_document_cast
    by (cbn [Body.price]; unfold Schema.cast_Number;
        rewrite (valid_price_not_nan _ Hp); reflexivity).
  cbn [Body.name Body.price Body.category].
  rewrite (name_error_valid _ Hn), (price_error_valid _ Hp), (category_error_valid _ Hc).
  cbn [Schema.collect]. rewrite Hw. cbn [fst snd].
  split; [reflexivity|].
  eexists. split; [reflexivity|].
  intros id Hid.
  rewrite getProductById_run. cbn [by_id Req.params Params.id fst].
  rewrite (cast_id_shaped _ _ Hid). cbn [Store.down]. rewrite ?Hw.
  unfold lookup. cbn [Store.docs new_document Doc._id].
  rewrite lookup_fresh; [|exact Hf|reflexivity].
  cbn [Res.status Res.data Res.with_data Res.json Doc.name Doc.price Doc.category
       Doc.createdAt Doc.updatedAt Body.name Body.price Body.category].
  repeat split.
  - unfold new_document. cbn [Doc.price Body.price].
    unfold Schema.cast_Number. rewrite (valid_price_not_nan _ Hp). reflexivity.
  - unfold new_document. cbn [Doc.category Body.category].
    cbn. apply trim_category. exact Hc.
Qed.

Lemma create_then_get_by_id_witness :
  create_then_get Js.trim "  Laptop  " (Js.of_Z 1200) "Electronics" shop.
Proof.
  apply (create_then_get_by_id "  Laptop  " (Js.of_Z 1200) "Electronics" shop).
  - unfold valid_name. simpl. lia.
  - reflexivity.
  - reflexivity.
  - unfold valid_category. simpl. tauto.
  - reflexivity.
  - unfold fresh_ids. simpl. repeat constructor.
Defined.

(** C1, as stated, fails: the record does not carry the name that was
    sent when that name has white space around it. *)
Lemma created_name_is_not_identical :
  ~ create_then_get (fun s => s) "  Laptop  " (Js.of_Z 1200) "Electronics" empty_store.
Proof.
  unfold create_then_get. cbv zeta.
  intros [_ [d [Hd H]]].
  vm_compute in Hd. injection Hd as Hd. subst d.
  specialize (H id0 eq_refl).
  destruct H as [_ [_ [Hname _]]].
  vm_compute in Hname. discriminate Hname.
Qed.

(** The required-field test of the create handler also turns away a price
    of 0, which the schema accepts. *)
Example create_with_price_zero :
  Schema.price_error (Js.Num (Js.of_Z 0)) = None /\
  Res.status
    (fst (Controller.createProduct Store.Product
            (post (Body.mk (Js.Str "Sample") (Js.Num (Js.of_Z 0)) (Js.Str "Other")))
            empty_store)) = 400.
Proof. split; reflexivity. Qed.

(* ================================================================== *)
(** * Validation                                                       *)
(* ================================================================== *)

(** The validators of the schema give the messages of the specification. *)
Lemma name_error_spec s : Schema.name_error (Js.Str s) = name_violation s.
Proof.
  unfold Schema.name_error, Schema.path_error, Schema.cast_String, name_violation.
  cbn [Schema.doValidate Schema.name_validators Schema.test Schema.message
       Schema.required_String Schema.minlength Schema.maxlength Schema.lift].
  destruct (String.eqb (Js.trim s) ""); cbn [negb]; [reflexivity|].
  rewrite Nat.ltb_antisym.
  destruct (3 <=? String.length (Js.trim s)); cbn [negb]; [|reflexivity].
  rewrite Nat.ltb_antisym.
  destruct (String.length (Js.trim s) <=? 100); reflexivity.
Qed.

Lemma price_error_spec p :
  Js.is_nan p = false -> Schema.price_error (Js.Num p) = price_violation p.
Proof.
  intros Hn.
  unfold Schema.price_error, Schema.path_error, Schema.cast_Number, price_violation.
  rewrite Hn.
  cbn [Schema.doValidate Schema.price_validators Schema.test Schema.message
       Schema.required_Number Schema.min Schema.validate Schema.lift].
  destruct (Js.geb p (Js.of_Z 0)); reflexivity.
Qed.

Lemma category_error_spec c :
  Schema.category_error (Js.Str c) = category_violation c.
Proof.
  unfold Schema.category_error, Schema.path_error, Schema.cast_String,
    category_violation, Schema.is_category, not_a_category.
  cbn [Schema.doValidate Schema.category_validators Schema.test Schema.message
       Schema.required_String Schema.enum Schema.lift].
  destruct (String.eqb (Js.trim c) ""); cbn [negb]; [reflexivity|].
  destruct (existsb _ _); reflexivity.
Qed.




Lemma messages_of_collect n p c :
  map snd (Schema.collect [("name", n); ("price", p); ("category", c)])
  = cons_some n (cons_some p (cons_some c [])).
Proof. destruct n, p, c; reflexivity. Qed.



Lemma validate_document_typed b :
  typed b -> map snd (Store.validate_document b) = violations b.
Proof.
  intros [[s Hs] [[p [Hp Hn]] [c Hc]]].
  rewrite validate_document_cast
    by (rewrite Hp; unfold Schema.cast_Number; rewrite Hn; reflexivity).
  unfold violations.
  rewrite messages_of_collect, Hs, Hp, Hc.
  rewrite name_error_spec, (price_error_spec _ Hn), category_error_spec.
  reflexivity.
Qed.







(** The three messages as they are answered: a create lists them in the
    order of the schema, an update in the reverse of the order in which the
    body lists its fields; a price that is not a number comes first on a
    create. *)
Example three_violations_answered :
  Res.errors (fst (Controller.createProduct Store.Product (post three_violations) shop))
  = Some ["Product name must be at least 3 characters long";
          "Price cannot be negative";
          "Bogus is not a valid category"]
  /\
  Res.errors (fst (Controller.updateProduct Store.Product (put id0 three_violations) shop))
  = Some ["Bogus is not a valid category";
          "Price cannot be negative";
          "Product name must be at least 3 characters long"]
  /\
  Res.errors
    (fst (Controller.createProduct Store.Product
            (post (Body.mk (Js.Str "ab") (Js.Str "cheap") (Js.Str "$&"))) shop))
  = Some [not_a_number "cheap";
          "Product name must be at least 3 characters long";
          "{VALUE} is not a valid category"].
Proof. repeat split; reflexivity. Qed.


(** The update handler has the same exception when the record does not
    exist: the answer is 404 whatever the body holds. *)
Example update_of_nothing_is_not_validated :
  Res.status
    (fst (Controller.updateProduct Store.Product (put id9 three_violations) shop))
  = 404.
Proof. reflexivity. Qed.

(* ================================================================== *)
(** * Update                                                           *)
(* ================================================================== *)

Lemma find_has_id i l d :
  List.find (Store.has_id i) l = Some d -> Doc._id d = i.
Proof.
  intros H. apply find_some in H. destruct H as [_ H].
  unfold Store.has_id in H. apply N.eqb_eq in H. exact H.
Qed.

Lemma find_replace_same i d' l d :
  List.find (Store.has_id i) l = Some d -> Doc._id d' = i ->
  List.find (Store.has_id i) (Store.replace_first i d' l) = Some d'.
Proof.
  intros H Hd'. induction l as [|x l IH]; simpl in *; [discriminate|].
  destruct (Store.has_id i x) eqn:E.
  - simpl. unfold Store.has_id. rewrite Hd', N.eqb_refl. reflexivity.
  - simpl. rewrite E. apply IH. exact H.
Qed.

Lemma find_replace_other i j d' l :
  j <> i -> Doc._id d' = i ->
  List.find (Store.has_id j) (Store.replace_first i d' l)
  = List.find (Store.has_id j) l.
Proof.
  intros Hji Hd'. induction l as [|x l IH]; simpl; [reflexivity|].
  destruct (Store.has_id i x) eqn:E.
  - simpl. unfold Store.has_id in *. apply N.eqb_eq in E.
    rewrite Hd', E.
    destruct (N.eqb_spec i j) as [F | _]; [congruence | reflexivity].
  - simpl. rewrite IH. reflexivity.
Qed.

Lemma validate_update_valid b : supplied_valid b -> Store.validate_update b = [].
Proof.
  intros [Hn [Hp Hc]]. unfold Store.validate_update.
  destruct Hn as [-> | [s [-> Hs]]], Hp as [-> | [p [-> Hp]]],
    Hc as [-> | [c [-> Hc]]]; cbn [Store.is_undefined];
    rewrite ?(name_error_valid _ Hs), ?(price_error_valid _ Hp),
      ?(category_error_valid _ Hc); reflexivity.
Qed.

Lemma cast_price_valid b :
  supplied_valid b ->
  exists x, Store.cast_path "Number" (Schema.cast_Number "price" (Body.price b)) = Ok x.
Proof.
  intros [_ [[-> | [p [-> Hp]]] _]]; simpl; [eauto|].
  rewrite (valid_price_not_nan _ Hp). simpl. eauto.
Qed.

Lemma apply_update_fields b ts d :
  supplied_valid b ->
  let d' := Store.apply_update b ts d in
  Doc.name d' = new_string (Body.name b) (Doc.name d) /\
  Doc.price d' = new_number (Body.price b) (Doc.price d) /\
  Doc.category d' = new_string (Body.category b) (Doc.category d) /\
  Doc._id d' = Doc._id d /\
  Doc.createdAt d' = Doc.createdAt d /\
  Doc.updatedAt d' = ts /\
  Doc.__v d' = Doc.__v d.
Proof.
  intros [Hn [Hp Hc]]. cbv zeta. unfold Store.apply_update.
  cbn [Doc.name Doc.price Doc.category Doc._id Doc.createdAt Doc.updatedAt Doc.__v].
  repeat split.
  - destruct Hn as [-> | [s [-> _]]]; reflexivity.
  - destruct Hp as [-> | [p [-> Hp]]]; [reflexivity|].
    cbn. rewrite (valid_price_not_nan _ Hp). reflexivity.
  - destruct Hc as [-> | [c [-> _]]]; reflexivity.
Qed.

(** C8, as the code has it. On a working connection: an update whose
    identifier no record has is answered 404 and leaves the store as it
    was; an update of an existing record whose supplied fields are valid is
    answered 200 with the record as it now is in the store: each supplied
    field has its new value (a name as trimmed by the schema), each field
    left out has its old value, [_id] and [createdAt] are unchanged,
    [updatedAt] is the time of the update, which is strictly greater than
    before exactly when the clock has advanced since the record was last
    written, and no other record is touched. *)
Theorem update_changes_supplied_fields_only
  (id : string) (b : Body.t) (w : Store.t) :
  healthy w ->
  let answer := Controller.updateProduct Store.Product (put id b) w in
  ((forall i, Store.castObjectId id = Some i -> lookup i w = None) ->
   Res.status (fst answer) = 404 /\ snd answer = w) /\
  (forall i d,
      Store.castObjectId id = Some i -> lookup i w = Some d ->
      supplied_valid b ->
      exists d',
        Res.status (fst answer) = 200 /\
        Res.data (fst answer) = Some (One d') /\
        Doc.name d' = new_string (Body.name b) (Doc.name d) /\
        Doc.price d' = new_number (Body.price b) (Doc.price d) /\
        Doc.category d' = new_string (Body.category b) (Doc.category d) /\
        Doc._id d' = Doc._id d /\
        Doc.createdAt d' = Doc.createdAt d /\
        Doc.updatedAt d' = Store.now w /\
        ((Doc.updatedAt d < Doc.updatedAt d')%Z <-> (Doc.updatedAt d < Store.now w)%Z) /\
        ((Doc.updatedAt d <= Store.now w)%Z -> (Doc.updatedAt d <= Doc.updatedAt d')%Z) /\
        lookup i (snd answer) = Some d' /\
        (forall j, j <> i -> lookup j (snd answer) = lookup j w)).
Proof.
  intros Hw answer. subst answer. red in Hw. split.
  - intros Hnone.
    rewrite updateProduct_run. cbn [put Req.body Req.params Params.id]. cbv zeta.
    unfold Store.cast_id.
    destruct (Store.castObjectId id) as [i|] eqn:Hid.
    + rewrite Hw, (Hnone i eq_refl). split; reflexivity.
    + split; reflexivity.
  - intros i d Hid Hl Hb.
    rewrite updateProduct_run. cbn [put Req.body Req.params Params.id]. cbv zeta.
    rewrite (cast_id_shaped _ _ Hid), Hw, Hl.
    destruct (cast_price_valid b Hb) as [x ->].
    rewrite (validate_update_valid b Hb). cbn [fst snd].
    destruct (apply_update_fields b (Store.now w) d Hb)
      as [F1 [F2 [F3 [F4 [F5 [F6 _]]]]]].
    pose proof (find_has_id _ _ _ Hl) as Hdi.
    exists (Store.apply_update b (Store.now w) d).
    split; [reflexivity|]. split; [reflexivity|].
    split; [exact F1|]. split; [exact F2|]. split; [exact F3|].
    split; [exact F4|]. split; [exact F5|]. split; [exact F6|].
    split; [rewrite F6; reflexivity|].
    split; [rewrite F6; trivial|]. split.
    + unfold lookup, with_docs. cbn [Store.docs].
      apply find_replace_same with (d := d); [exact Hl | congruence].
    + intros j Hj. unfold lookup, with_docs. cbn [Store.docs].
      apply find_replace_other; [exact Hj | congruence].
Qed.

Lemma update_changes_supplied_fields_only_witness :
  (Res.status
     (fst (Controller.updateProduct Store.Product
             (put id9 (Body.mk Js.Undefined (Js.Num (Js.of_Z 1500)) Js.Undefined)) shop))
   = 404) /\
  exists d',
    Res.data
      (fst (Controller.updateProduct Store.Product
              (put id0 (Body.mk Js.Undefined (Js.Num (Js.of_Z 1500)) Js.Undefined)) shop))
    = Some (One d') /\
    Doc.price d' = Js.of_Z 1500 /\ Doc.name d' = "Laptop" /\
    Doc.createdAt d' = 1000%Z /\ Doc.updatedAt d' = 2000%Z.
Proof.
  split.
  - apply (update_changes_supplied_fields_only id9
             (Body.mk Js.Undefined (Js.Num (Js.of_Z 1500)) Js.Undefined) shop).
    + reflexivity.
    + intros i Hi. vm_compute in Hi. injection Hi as <-. reflexivity.
  - destruct (update_changes_supplied_fields_only id0
                (Body.mk Js.Undefined (Js.Num (Js.of_Z 1500)) Js.Undefined) shop
                eq_refl) as [_ H].
    destruct (H 0%N laptop eq_refl eq_refl) as [d' [_ [Hd [Hn [Hp [_ [_ [Hc [Hu _]]]]]]]]].
    + repeat split; [left; reflexivity | right | left; reflexivity].
      eexists. split; reflexivity.
    + exists d'. repeat split; assumption.
Defined.

(** C8, as stated, fails: a record that is updated in the instant in which
    it was created keeps its [updatedAt]. *)
Lemma updatedAt_is_not_always_greater :
  ~ stamped_later id0 (Body.mk Js.Undefined (Js.Num (Js.of_Z 1500)) Js.Undefined)
      (snd (Controller.createProduct Store.Product
              (post (Body.mk (Js.Str "Laptop") (Js.Num (Js.of_Z 1200))
                             (Js.Str "Electronics")))
              empty_store)).
Proof.
  intros H. destruct (H 0%N _ eq_refl eq_refl) as [d' [Hd Hlt]].
  vm_compute in Hd. injection Hd as <-. vm_compute in Hlt. discriminate Hlt.
Qed.

(** The update in that instant is answered 200 with the new price and the
    [updatedAt] the record had. *)
Example update_in_the_same_instant :
  let w := snd (Controller.createProduct Store.Product
                  (post (Body.mk (Js.Str "Laptop") (Js.Num (Js.of_Z 1200))
                                 (Js.Str "Electronics")))
                  empty_store) in
  let r := fst (Controller.updateProduct Store.Product
                  (put id0 (Body.mk Js.Undefined (Js.Num (Js.of_Z 1500)) Js.Undefined))
                  w) in
  Res.status r = 200 /\
  Res.data r = Some (One (Doc.mk 0%N "Laptop" (Js.of_Z 1500) "Electronics"
                            1000%Z 1000%Z 0%N)).
Proof. split; reflexivity. Qed.

(* ================================================================== *)
(** * Listing: numbers                                                 *)
(* ================================================================== *)

Lemma Qred_inject_Z z : Qred (inject_Z z) = inject_Z z.
Proof.
  unfold Qred, inject_Z.
  generalize (Z.ggcd_gcd z 1) (Z.ggcd_correct_divisors z 1).
  destruct (Z.ggcd z 1) as [g [a b]]. simpl.
  intros Hg [Ha Hb]. rewrite Z.gcd_1_r in Hg. subst g.
  rewrite Z.mul_1_l in Ha, Hb. subst. reflexivity.
Qed.


Lemma exponent_of_bounds a d :
  (-1074 <= Js.exponent_of a d
   <= Z.max (Z.log2 a - Z.log2 d - 52) (-1074))%Z.
Proof.
  unfold Js.exponent_of. destruct (Js.scaled a d _) as [n m].
  destruct (_ <=? _)%Z; lia.
Qed.

Lemma round_half_even_1 n : Js.round_half_even n 1 = n.
Proof.
  unfold Js.round_half_even. rewrite Z.mod_1_r, Z.div_1_r. reflexivity.
Qed.

Lemma safe_below_overflow a : (a < 2 ^ 53)%Z -> (2 ^ 1024 <=? a)%Z = false.
Proof.
  intros H. apply Z.leb_gt.
  assert (2 ^ 53 < 2 ^ 1024)%Z by (apply Z.pow_lt_mono_r; lia).
  lia.
Qed.

(** An integer below [2^53] is a double. *)
Lemma round_double_integer q z :
  (q == inject_Z z)%Q -> (Z.abs z < 2 ^ 53)%Z -> Js.round_double q = Js.of_Z z.
Proof.
  intros Hq Hz. unfold Js.round_double.
  rewrite (Qred_complete _ _ Hq), Qred_inject_Z. cbn [Qnum Qden inject_Z].
  destruct (Z.eqb_spec (Z.abs z) 0) as [E | E].
  { assert (z = 0%Z) by lia. subst z. reflexivity. }
  pose proof (exponent_of_bounds (Z.abs z) 1) as B.
  assert (L : (Z.log2 (Z.abs z) < 53)%Z) by (apply Z.log2_lt_pow2; lia).
  change (Z.log2 1) with 0%Z in B.
  set (e := Js.exponent_of (Z.abs z) 1) in *.
  assert (s : (if (z <? 0)%Z then - Z.abs z else Z.abs z)%Z = z).
  { destruct (Z.ltb_spec z 0); lia. }
  unfold Js.scaled, Js.double.
  destruct (Z.leb_spec 0 e) as [He | He].
  - assert (e = 0%Z) by lia. subst e. replace (Js.exponent_of (Z.abs z) 1) with 0%Z.
    cbn [Z.pow Z.mul Z.pow_pos Pos.iter Pos.mul].
    rewrite round_half_even_1. cbn [Z.leb Z.compare]. rewrite Z.mul_1_r.
    rewrite safe_below_overflow by lia. rewrite s, Z.mul_1_r. reflexivity.
  - rewrite round_half_even_1.
    assert (P : (0 < 2 ^ (- e))%Z) by (apply Z.pow_pos_nonneg; lia).
    unfold Js.of_Z. f_equal.
    rewrite <- (Qred_inject_Z z). apply Qred_complete.
    unfold Qeq, inject_Z. cbn [Qnum Qden]. rewrite Z2Pos.id by assumption.
    destruct (Z.ltb_spec z 0); lia.
Qed.

Lemma fin_integer q z :
  (q == inject_Z z)%Q -> (Z.abs z < 2 ^ 53)%Z -> Js.fin q = Js.of_Z z.
Proof. apply round_double_integer. Qed.


Lemma sub_integers a b :
  (Z.abs (a - b) < 2 ^ 53)%Z -> Js.sub (Js.of_Z a) (Js.of_Z b) = Js.of_Z (a - b).
Proof.
  intros H. unfold Js.of_Z at 1 2. cbn [Js.sub]. apply fin_integer; [|exact H].
  unfold Z.sub. rewrite inject_Z_plus, inject_Z_opp. reflexivity.
Qed.

Lemma mul_integers a b :
  (Z.abs (a * b) < 2 ^ 53)%Z -> Js.mul (Js.of_Z a) (Js.of_Z b) = Js.of_Z (a * b).
Proof.
  intros H. unfold Js.of_Z at 1 2. cbn [Js.mul]. apply fin_integer; [|exact H].
  rewrite inject_Z_mult. reflexivity.
Qed.





Lemma as_integer_of_Z z : Store.as_integer (Js.of_Z z) = Some z.
Proof.
  unfold Store.as_integer, Js.of_Z. rewrite Qred_inject_Z. reflexivity.
Qed.

(* ================================================================== *)
(** * Listing: the filter                                              *)
(* ================================================================== *)

Lemma is_given_spec p :
  Controller.is_given p =
  match Controller.given p with Some _ => true | None => false end.
Proof.
  unfold Controller.is_given, Controller.given, Controller.param.
  destruct p as [s|]; [|reflexivity].
  destruct (Js.truthy (Js.Str s)); reflexivity.
Qed.

(** The filter the handler builds selects what the parameters say. *)
Lemma matches_spec q f' :
  Store.cast_filter (Controller.build_query q) = Ok f' ->
  forall d,
    Store.matches f' d =
    in_category (Query.category q) d
    && (above (Query.minPrice q) d && below (Query.maxPrice q) d).
Proof.
  unfold Controller.build_query, Store.cast_filter, in_category, above, below.
  rewrite !is_given_spec.
  cbn [Filter.price Filter.category].
  destruct (Controller.given (Query.category q)) as [c|],
    (Controller.given (Query.minPrice q)) as [lo|],
    (Controller.given (Query.maxPrice q)) as [hi|];
    cbn [orb option_map Filter.gte Filter.lte Store.cast_bound];
    repeat match goal with
           | |- context [Js.is_nan ?x] => destruct (Js.is_nan x)
           end;
    intros H; try discriminate H; injection H as <-; intros d;
    unfold Store.matches, Store.in_range;
    cbn [Filter.category Filter.price Filter.gte Filter.lte];
    rewrite ?andb_true_r; reflexivity.
Qed.

Lemma cast_filter_numeric q :
  numeric_bounds q -> exists f', Store.cast_filter (Controller.build_query q) = Ok f'.
Proof.
  unfold numeric_bounds, present. intros [Hlo Hhi].
  unfold Controller.build_query, Store.cast_filter.
  rewrite !is_given_spec. cbn [Filter.price Filter.category].
  destruct (Controller.given (Query.minPrice q)) as [lo|],
    (Controller.given (Query.maxPrice q)) as [hi|];
    cbn [orb option_map Filter.gte Filter.lte Store.cast_bound];
    rewrite ?(Hlo _ eq_refl), ?(Hhi _ eq_refl); eauto.
Qed.

Lemma selected_spec q f' w :
  Store.cast_filter (Controller.build_query q) = Ok f' ->
  filter (Store.matches f') (Store.docs w) = selected q w.
Proof.
  intros H. unfold selected. apply filter_ext. apply matches_spec. exact H.
Qed.

(** What a list request is answered: an error, or the window of the sorted
    selection. *)
Lemma list_outcome q w :
  let r := fst (Controller.getAllProducts Store.Product (get_list q) w) in
  (Res.status r = 500 /\ Res.data r = None) \/
  (exists k n,
      r = list_envelope q
            (Store.window k n (sorted_selection q w))
            (List.length (selected q w))).
Proof.
  cbv zeta. rewrite getAllProducts_run. cbn [get_list Req.query fst]. cbv zeta.
  destruct (Store.parse_sort _); [|left; split; reflexivity].
  destruct (Store.cast_filter _) as [f'|] eqn:Hf; [|left; split; reflexivity].
  destruct (Store.down w); [left; split; reflexivity|].
  destruct (Store.cast_skip _) as [k|]; [|left; split; reflexivity].
  destruct (Store.cast_limit _) as [n|]; [|left; split; reflexivity].
  right. exists k, n. unfold listing, sorted_selection.
  rewrite (selected_spec _ _ _ Hf). reflexivity.
Qed.

Lemma In_insert_sorted keys x l d :
  In d (Store.insert_sorted keys x l) <-> d = x \/ In d l.
Proof.
  induction l as [|y l IH]; simpl.
  - intuition congruence.
  - destruct (Store.before keys x y); simpl; [intuition congruence|].
    rewrite IH. intuition congruence.
Qed.

Lemma In_sort_docs keys l d : In d (Store.sort_docs keys l) <-> In d l.
Proof.
  induction l as [|x l IH]; simpl; [tauto|].
  rewrite In_insert_sorted, IH. intuition congruence.
Qed.

Lemma records_selected q w d :
  In d (Res.records (fst (Controller.getAllProducts Store.Product (get_list q) w))) ->
  In d (selected q w).
Proof.
  destruct (list_outcome q w) as [[_ H] | [k [n H]]]; cbv zeta in H.
  - unfold Res.records. rewrite H. simpl. tauto.
  - rewrite H. unfold list_envelope, Res.records. cbn [Res.data Res.with_data].
    intros Hd. apply window_incl in Hd. unfold sorted_selection in Hd.
    apply In_sort_docs in Hd. exact Hd.
Qed.

(** C6. A list returns only records whose price is at least [minPrice] when
    that parameter is present and at most [maxPrice] when that one is; when
    the answer is 200 its [total] counts exactly the records of the store
    within the bounds that are present (and of the category, if one is
    given), so that an absent bound leaves its side open; with
    [minPrice=500&maxPrice=2000] every record returned has a price between
    500 and 2000.  A parameter is present when it has a non-empty value. *)
Theorem price_bounds_filter (q : Query.t) (w : Store.t) :
  let r := fst (Controller.getAllProducts Store.Product (get_list q) w) in
  (forall d, In d (Res.records r) ->
     (forall s, present (Query.minPrice q) s ->
                Js.geb (Doc.price d) (Js.Number (Js.Str s)) = true) /\
     (forall s, present (Query.maxPrice q) s ->
                Js.leb (Doc.price d) (Js.Number (Js.Str s)) = true)) /\
  (Res.status r = 200 -> Res.total r = Some (List.length (selected q w))) /\
  (Query.minPrice q = None -> Query.maxPrice q = None ->
   selected q w = filter (in_category (Query.category q)) (Store.docs w)) /\
  (Query.minPrice q = Some "500" -> Query.maxPrice q = Some "2000" ->
   forall d, In d (Res.records r) ->
     Js.geb (Doc.price d) (Js.of_Z 500) = true /\
     Js.leb (Doc.price d) (Js.of_Z 2000) = true).
Proof.
  cbv zeta.
  assert (Hin : forall d,
             In d (Res.records (fst (Controller.getAllProducts Store.Product
                                       (get_list q) w))) ->
             above (Query.minPrice q) d = true /\ below (Query.maxPrice q) d = true).
  { intros d Hd. apply records_selected in Hd. unfold selected in Hd.
    apply filter_In in Hd. destruct Hd as [_ Hd].
    apply andb_true_iff in Hd. destruct Hd as [_ Hd].
    apply andb_true_iff in Hd. exact Hd. }
  split; [|split; [|split]].
  - intros d Hd. destruct (Hin d Hd) as [Ha Hb]. unfold present. split.
    + intros s Hs. unfold above in Ha. rewrite Hs in Ha. exact Ha.
    + intros s Hs. unfold below in Hb. rewrite Hs in Hb. exact Hb.
  - destruct (list_outcome q w) as [[H _] | [k [n H]]]; cbv zeta in H.
    + rewrite H. discriminate.
    + rewrite H. reflexivity.
  - intros Hlo Hhi. unfold selected. apply filter_ext. intros d.
    unfold above, below. rewrite Hlo, Hhi. cbn. apply andb_true_r.
  - intros Hlo Hhi d Hd. destruct (Hin d Hd) as [Ha Hb].
    unfold above in Ha. unfold below in Hb. rewrite Hlo in Ha. rewrite Hhi in Hb.
    split; [exact Ha | exact Hb].
Qed.

Lemma price_bounds_filter_witness :
  Res.records
    (fst (Controller.getAllProducts Store.Product
            (get_list (Query.mk None (Some "500") (Some "2000") (Some "price") None None))
            shop))
  = [phone; laptop]
  /\
  forall d,
    In d (Res.records
            (fst (Controller.getAllProducts Store.Product
                    (get_list (Query.mk None (Some "500") (Some "2000") (Some "price") None None))
                    shop))) ->
    Js.geb (Doc.price d) (Js.of_Z 500) = true /\
    Js.leb (Doc.price d) (Js.of_Z 2000) = true.
Proof.
  split; [reflexivity|].
  apply (price_bounds_filter
           (Query.mk None (Some "500") (Some "2000") (Some "price") None None) shop);
    reflexivity.
Defined.

(* ================================================================== *)
(** * Listing: the page                                                *)
(* ================================================================== *)

Lemma parse_key_spec item :
  Store.parse_key item = (field_of item, descending item).
Proof.
  destruct item as [|[[|] [|] [|] [|] [|] [|] [|] [|]] s]; reflexivity.
Qed.

Lemma item_shape item :
  item = field_of item \/ item = String "-" (field_of item).
Proof.
  destruct item as [|[[|] [|] [|] [|] [|] [|] [|] [|]] s]; simpl; auto.
Qed.

Lemma record_field_shape f :
  In f record_fields -> f <> "" /\ has_space f = false.
Proof.
  unfold record_fields. simpl.
  intros H.
  repeat (destruct H as [H | H]; [subst f; split; [discriminate | reflexivity]|]).
  contradiction.
Qed.

Lemma field_item_shape item :
  In (field_of item) record_fields -> path_of item <> "" /\ has_space item = false.
Proof.
  intros H. destruct (record_field_shape _ H) as [Hne Hsp].
  unfold path_of. rewrite parse_key_spec. cbn [fst]. split; [exact Hne|].
  destruct (item_shape item) as [E | E]; rewrite E; [exact Hsp|].
  cbn [has_space]. rewrite Hsp. reflexivity.
Qed.

(** A sort string that names fields is read as a list of keys. *)
Lemma parse_properties l acc :
  Forall (fun property => In (field_of property) record_fields) l ->
  exists keys, fold_left Store.add_property l (Ok acc) = Ok keys.
Proof.
  intros H. revert acc. induction H as [|p l Hp _ IH]; intros acc; simpl; [eauto|].
  apply field_item_shape in Hp. destruct Hp as [Hp _].
  unfold path_of in Hp. apply String.eqb_neq in Hp. rewrite Hp. apply IH.
Qed.

Lemma parse_sort_sortable q :
  sortable q -> exists keys, Store.parse_sort (Controller.build_sort q) = Ok keys.
Proof. intros H. apply parse_properties. exact H. Qed.





Example page_one_and_a_half :
  let r := fst (Controller.getAllProducts Store.Product
                  (get_list (Query.mk None None None None (Some "1.5") None)) shop) in
  Res.status r = 200 /\ Res.page r = Some (Js.Fin (3 # 2)) /\ Res.records r = [].
Proof. repeat split; reflexivity. Qed.

(* ================================================================== *)
(** * Listing: the order                                               *)
(* ================================================================== *)

Lemma Js_compare_antisym x y : Js.compare y x = CompOpp (Js.compare x y).
Proof.
  destruct x as [| a | p], y as [| b | q]; try reflexivity;
    try (destruct a; reflexivity); try (destruct b; reflexivity).
  - destruct a, b; reflexivity.
  - simpl. symmetry. apply Qcompare_antisym.
Qed.

Lemma compare_path_antisym path a b :
  Store.compare_path path b a = CompOpp (Store.compare_path path a b).
Proof.
  unfold Store.compare_path.
  repeat match goal with
         | |- context [if ?c then _ else _] => destruct c
         end;
    first [ apply N.compare_antisym | apply Z.compare_antisym
          | apply String.compare_antisym | apply Js_compare_antisym | reflexivity ].
Qed.

Lemma compare_docs_antisym keys a b :
  Store.compare_docs keys b a = CompOpp (Store.compare_docs keys a b).
Proof.
  induction keys as [|k keys IH]; simpl; [reflexivity|].
  unfold Store.compare_key.
  rewrite (compare_path_antisym (fst k) a b).
  destruct (snd k), (Store.compare_path (fst k) a b); simpl; auto.
Qed.

Lemma before_ordered keys a b : Store.before keys a b = true <-> ordered keys a b.
Proof.
  unfold Store.before, ordered.
  destruct (Store.compare_docs keys a b); split; congruence.
Qed.

(** The order is total: of two documents, one may come before the other. *)
Lemma ordered_total keys a b :
  Store.before keys a b = false -> ordered keys b a.
Proof.
  unfold Store.before, ordered. rewrite (compare_docs_antisym keys a b).
  destruct (Store.compare_docs keys a b); simpl; congruence.
Qed.

Lemma insert_sorted_Sorted keys x l :
  Sorted (ordered keys) l -> Sorted (ordered keys) (Store.insert_sorted keys x l).
Proof.
  induction l as [|y l IH]; simpl; intros H.
  - repeat constructor.
  - destruct (Store.before keys x y) eqn:E.
    + constructor; [exact H|]. constructor. apply before_ordered. exact E.
    + inversion H as [|? ? Hs Hh]; subst.
      constructor; [apply IH; exact Hs|].
      destruct l as [|z l]; simpl.
      * constructor. apply ordered_total. exact E.
      * destruct (Store.before keys x z); constructor.
        -- apply ordered_total. exact E.
        -- inversion Hh; assumption.
Qed.

Lemma sort_docs_Sorted keys l : Sorted (ordered keys) (Store.sort_docs keys l).
Proof.
  induction l as [|x l IH]; simpl; [constructor|].
  apply insert_sorted_Sorted. exact IH.
Qed.

Lemma Sorted_skipn {A} (R : A -> A -> Prop) k l :
  Sorted R l -> Sorted R (skipn k l).
Proof.
  revert l. induction k as [|k IH]; intros [|x l] H; simpl; auto.
  inversion H; subst. apply IH. assumption.
Qed.

Lemma Sorted_firstn {A} (R : A -> A -> Prop) k l :
  Sorted R l -> Sorted R (firstn k l).
Proof.
  revert l. induction k as [|k IH]; intros [|x l] H; simpl; try constructor.
  - apply IH. inversion H; assumption.
  - inversion H as [|? ? _ Hh]; subst.
    destruct k, l; simpl; constructor. inversion Hh; assumption.
Qed.

Lemma window_Sorted (R : document -> document -> Prop) k n l :
  Sorted R l -> Sorted R (Store.window k n l).
Proof.
  intros H. unfold Store.window. destruct n.
  - apply Sorted_firstn, Sorted_skipn, H.
  - apply Sorted_skipn, H.
Qed.

(** The records of any list answer are in the order of the sort keys. *)
Lemma records_Sorted q w :
  Sorted (ordered (sort_keys_of q))
    (Res.records (fst (Controller.getAllProducts Store.Product (get_list q) w))).
Proof.
  destruct (list_outcome q w) as [[_ H] | [k [n H]]]; cbv zeta in H.
  - unfold Res.records. rewrite H. constructor.
  - rewrite H. unfold list_envelope, Res.records. cbn [Res.data Res.with_data].
    apply window_Sorted. unfold sorted_selection. apply sort_docs_Sorted.
Qed.

Lemma insert_sorted_Permutation keys x l :
  Permutation (Store.insert_sorted keys x l) (x :: l).
Proof.
  induction l as [|y l IH]; simpl; [reflexivity|].
  destruct (Store.before keys x y); [reflexivity|].
  rewrite IH. apply perm_swap.
Qed.

Lemma sort_docs_Permutation keys l : Permutation (Store.sort_docs keys l) l.
Proof.
  induction l as [|x l IH]; simpl; [reflexivity|].
  rewrite insert_sorted_Permutation. apply perm_skip. exact IH.
Qed.

Lemma window_window_of k n l : window_of l (Store.window k n l).
Proof.
  unfold window_of, Store.window. destruct n as [n|].
  - exists k, n. reflexivity.
  - exists k, (List.length (skipn k l)). symmetry. apply firstn_all.
Qed.

(** A list answered 200 is a window of the sorted selection. *)
Lemma records_window q w :
  let r := fst (Controller.getAllProducts Store.Product (get_list q) w) in
  Res.status r = 200 -> window_of (sorted_selection q w) (Res.records r).
Proof.
  cbv zeta.
  destruct (list_outcome q w) as [[H _] | [k [n H]]]; cbv zeta in H.
  - rewrite H. discriminate.
  - intros _. rewrite H. unfold list_envelope, Res.records.
    cbn [Res.data Res.with_data]. apply window_window_of.
Qed.

(** ** Reading the sort parameter *)

Lemma split_no_space s : has_space s = false -> Js.split " " s = [s].
Proof.
  induction s as [|c s IH]; simpl; [reflexivity|].
  intros H. apply orb_false_iff in H. destruct H as [Hc Hs].
  rewrite Hc, (IH Hs). reflexivity.
Qed.

Lemma split_append s rest :
  has_space s = false ->
  Js.split " " (s ++ String " " rest) = s :: Js.split " " rest.
Proof.
  induction s as [|c s IH]; simpl; [reflexivity|].
  intros H. apply orb_false_iff in H. destruct H as [Hc Hs].
  rewrite Hc, (IH Hs). reflexivity.
Qed.

Lemma split_join items :
  items <> [] -> Forall (fun item => has_space item = false) items ->
  Js.split " " (Js.join " " items) = items.
Proof.
  intros Hne H. induction H as [|x l Hx Hl IH]; [congruence|].
  destruct l as [|y l].
  - simpl. apply split_no_space. exact Hx.
  - change (Js.join " " (x :: y :: l)) with (x ++ String " " (Js.join " " (y :: l))).
    rewrite (split_append _ _ Hx), IH; [reflexivity | discriminate].
Qed.

Lemma split_nonempty sep s : Js.split sep s <> [].
Proof.
  destruct s as [|c s]; simpl; [discriminate|].
  destruct (Ascii.eqb c sep); [discriminate|].
  destruct (Js.split sep s); discriminate.
Qed.

Lemma assign_new k o :
  ~ In (fst k) (map fst o) -> Store.assign k o = (o ++ [k])%list.
Proof.
  induction o as [|k' o IH]; simpl; [reflexivity|].
  intros H. destruct (String.eqb_spec (fst k') (fst k)) as [E | _].
  - exfalso. apply H. left. exact E.
  - rewrite IH; [reflexivity | tauto].
Qed.

Lemma parse_items items acc :
  Forall (fun item => path_of item <> "") items ->
  NoDup (map path_of items) ->
  (forall item, In item items -> ~ In (path_of item) (map fst acc)) ->
  fold_left Store.add_property items (Ok acc)
  = Ok (acc ++ map Store.parse_key items)%list.
Proof.
  revert acc. induction items as [|x l IH]; intros acc Hne Hnd Hacc; simpl.
  - rewrite app_nil_r. reflexivity.
  - inversion Hne as [|? ? Hx Hl]; subst. inversion Hnd as [|? ? Hnx Hndl]; subst.
    unfold path_of in Hx. apply String.eqb_neq in Hx. rewrite Hx.
    rewrite assign_new by (apply Hacc; left; reflexivity).
    rewrite IH; [rewrite <- app_assoc; reflexivity | exact Hl | exact Hndl |].
    intros item Hi. rewrite map_app, in_app_iff. simpl.
    intros [F | [F | []]].
    + apply (Hacc item); [right; exact Hi | exact F].
    + apply Hnx. unfold path_of in *. rewrite F.
      apply (in_map (fun i => fst (Store.parse_key i))). exact Hi.
Qed.

Lemma path_of_field item : path_of item = field_of item.
Proof. unfold path_of. rewrite parse_key_spec. reflexivity. Qed.

(** A list of field names is read as the list of its keys. *)
Lemma parse_sort_items s :
  field_list (Js.split "," s) ->
  Store.parse_sort (Js.join " " (Js.split "," s))
  = Ok (map Store.parse_key (Js.split "," s)).
Proof.
  intros [Hf Hnd]. unfold Store.parse_sort.
  rewrite split_join.
  - rewrite parse_items; [reflexivity | | | intros ? ? []].
    + eapply Forall_impl; [|exact Hf]. intros a H. apply field_item_shape, H.
    + rewrite (map_ext _ _ path_of_field). exact Hnd.
  - apply split_nonempty.
  - eapply Forall_impl; [|exact Hf]. intros a H. apply field_item_shape, H.
Qed.

(** ** The order of the keys is the order of the fields *)

Lemma N_of_ascii_inj a b : N_of_ascii a = N_of_ascii b -> a = b.
Proof.
  intros H. rewrite <- (ascii_N_embedding a), <- (ascii_N_embedding b), H.
  reflexivity.
Qed.

Lemma text_le_compare s t : String.compare s t <> Gt <-> text_le s t.
Proof.
  revert t. induction s as [|a s IH]; intros [|b t]; simpl.
  - split; [trivial | discriminate].
  - split; [trivial | discriminate].
  - split; [congruence | contradiction].
  - unfold Ascii.compare.
    destruct (N.compare_spec (N_of_ascii a) (N_of_ascii b)) as [E | L | G].
    + apply N_of_ascii_inj in E. subst b. rewrite IH. split.
      * intros H. right. split; [reflexivity | exact H].
      * intros [H | [_ H]]; [lia | exact H].
    + split; [intros _; left; exact L | discriminate].
    + split; [congruence|].
      intros [H | [H _]]; [lia | subst b; lia].
Qed.

Lemma number_le_compare x y : Js.compare x y <> Gt <-> number_le x y.
Proof.
  unfold number_le, Js.leb.
  destruct x as [| a | p], y as [| b | q]; simpl;
    try (destruct a); try (destruct b); simpl;
    try (split; [intros _; auto | discriminate]);
    try (split; [congruence | intros [H | H]; discriminate H]);
    try (split; [intros H; exfalso; apply H; reflexivity
                | intros [H | H]; discriminate H]).
  rewrite Qle_bool_iff. unfold Qcompare, Qle. split.
  - intros H. right. exact H.
  - intros [H | H]; [discriminate H | exact H].
Qed.

Lemma compare_path_le field a b :
  Store.compare_path field a b <> Gt <-> le_by field a b.
Proof.
  unfold Store.compare_path, le_by.
  destruct (String.eqb_spec field "_id") as [-> | _];
    [cbn [String.eqb Ascii.eqb Bool.eqb andb]; reflexivity|].
  destruct (String.eqb_spec field "name") as [-> | _]; [apply text_le_compare|].
  destruct (String.eqb_spec field "price") as [-> | _];
    [cbn [String.eqb Ascii.eqb Bool.eqb andb]; apply number_le_compare|].
  destruct (String.eqb_spec field "category") as [-> | _]; [apply text_le_compare|].
  destruct (String.eqb_spec field "createdAt") as [-> | _]; [reflexivity|].
  destruct (String.eqb_spec field "updatedAt") as [-> | _]; [reflexivity|].
  destruct (String.eqb_spec field "__v") as [-> | _]; [reflexivity|].
  split; [trivial | discriminate].
Qed.

(** What a key says of two documents is what its item asks for. *)
Lemma compare_key_item item a b :
  match Store.compare_key (Store.parse_key item) a b with
  | Lt => before_by item a b
  | Eq => tie_by item a b
  | Gt => True
  end.
Proof.
  rewrite parse_key_spec. unfold Store.compare_key, before_by, tie_by.
  cbn [fst snd].
  pose proof (compare_path_le (field_of item) a b) as Hab.
  pose proof (compare_path_le (field_of item) b a) as Hba.
  rewrite (compare_path_antisym (field_of item) a b) in Hba.
  destruct (descending item), (Store.compare_path (field_of item) a b);
    cbn [CompOpp] in *; try exact I.
  - split; [apply Hab | apply Hba]; discriminate.
  - intros H. apply Hab in H. apply H. reflexivity.
  - split; [apply Hab | apply Hba]; discriminate.
  - intros H. apply Hba in H. apply H. reflexivity.
Qed.

Lemma ordered_in_order items a b :
  ordered (map Store.parse_key items) a b -> in_order items a b.
Proof.
  unfold ordered. induction items as [|item items IH]; cbn [map Store.compare_docs in_order].
  - trivial.
  - pose proof (compare_key_item item a b) as H.
    destruct (Store.compare_key (Store.parse_key item) a b).
    + intros G. right. split; [exact H | apply IH; exact G].
    + intros _. left. exact H.
    + congruence.
Qed.

Lemma newest_first_of_default a b :
  ordered [("createdAt", true)] a b -> newest_first a b.
Proof.
  unfold ordered, newest_first. simpl. unfold Store.compare_key, Store.compare_path. simpl.
  destruct (Z.compare_spec (Doc.createdAt a) (Doc.createdAt b)); simpl;
    intros G; try lia. congruence.
Qed.

Lemma Sorted_impl {A} (R S : A -> A -> Prop) l :
  (forall a b, R a b -> S a b) -> Sorted R l -> Sorted S l.
Proof.
  intros H Hs. induction Hs as [|x l Hs IH Hh]; constructor; [exact IH|].
  destruct Hh; constructor. apply H. assumption.
Qed.

(** C7, as the code has it. When the sort parameter is present and is a
    comma-separated list of fields of the record, each one alone or after
    [-] and none named twice, the records returned are in the composite
    order of these items, applied from left to right: by each item a record
    comes before another with the smaller value of the field, or with the
    larger one when the item starts with [-], and the next item decides
    between records the item does not tell apart.  A list answered 200 is a
    part of the whole selection put in this order.  When the parameter is
    absent (or empty) the order is that of [createdAt], descending. *)
Theorem sort_parameter (q : Query.t) (w : Store.t) :
  let r := fst (Controller.getAllProducts Store.Product (get_list q) w) in
  (forall s, present (Query.sort q) s -> field_list (Js.split "," s) ->
     Sorted (in_order (Js.split "," s)) (Res.records r) /\
     (Res.status r = 200 ->
      exists l, Permutation l (selected q w) /\
                Sorted (in_order (Js.split "," s)) l /\
                window_of l (Res.records r))) /\
  (Controller.given (Query.sort q) = None ->
     Sorted newest_first (Res.records r) /\
     (Res.status r = 200 ->
      exists l, Permutation l (selected q w) /\
                Sorted newest_first l /\
                window_of l (Res.records r))).
Proof.
  cbv zeta. pose proof (records_Sorted q w) as H.
  pose proof (records_window q w) as Hw. cbv zeta in Hw.
  pose proof (sort_docs_Sorted (sort_keys_of q) (selected q w)) as Hl.
  fold (sorted_selection q w) in Hl.
  split.
  - intros s Hs Hf. red in Hs.
    assert (E : sort_keys_of q = map Store.parse_key (Js.split "," s)).
    { unfold sort_keys_of, Controller.build_sort. rewrite Hs.
      rewrite (parse_sort_items _ Hf). reflexivity. }
    rewrite E in H, Hl. split.
    + eapply Sorted_impl; [|exact H]. apply ordered_in_order.
    + intros H200. exists (sorted_selection q w). split; [|split].
      * apply sort_docs_Permutation.
      * eapply Sorted_impl; [|exact Hl]. apply ordered_in_order.
      * apply Hw, H200.
  - intros Hs.
    assert (E : sort_keys_of q = [("createdAt", true)]).
    { unfold sort_keys_of, Controller.build_sort. rewrite Hs. reflexivity. }
    rewrite E in H, Hl. split.
    + eapply Sorted_impl; [|exact H]. apply newest_first_of_default.
    + intros H200. exists (sorted_selection q w). split; [|split].
      * apply sort_docs_Permutation.
      * eapply Sorted_impl; [|exact Hl]. apply newest_first_of_default.
      * apply Hw, H200.
Qed.

Lemma sort_parameter_witness :
  Res.records
    (fst (Controller.getAllProducts Store.Product
            (get_list (Query.mk None None None (Some "category,-price") None None)) shop))
  = [novel; camera; laptop; phone]
  /\
  Sorted (in_order ["category"; "-price"])
    (Res.records
       (fst (Controller.getAllProducts Store.Product
               (get_list (Query.mk None None None (Some "category,-price") None None))
               shop)))
  /\
  Sorted newest_first
    (Res.records
       (fst (Controller.getAllProducts Store.Product (get_list Query.empty) shop))).
Proof.
  split; [reflexivity|].
  pose proof (sort_parameter
                (Query.mk None None None (Some "category,-price") None None) shop)
    as [H _].
  pose proof (sort_parameter Query.empty shop) as [_ H'].
  cbv zeta in H, H'. split.
  - apply (H "category,-price"); [reflexivity|].
    split.
    + repeat constructor; simpl; tauto.
    + simpl. repeat constructor; simpl; intuition discriminate.
  - apply H'. reflexivity.
Defined.

(** C7, as stated, fails: with [sort=price,-price] the records come in
    descending order of price, which is not the order of the two items
    applied from left to right. *)
Lemma sort_is_not_always_left_to_right :
  ~ sorted_as_asked (Query.mk None None None (Some "price,-price") None None) shop.
Proof.
  intros H. specialize (H "price,-price" eq_refl).
  change (Res.records _) with [camera; laptop; phone; novel] in H.
  inversion H as [|? ? _ Hh]; subst.
  inversion Hh as [|? ? Hab]; subst.
  destruct Hab as [B | [[T _] _]].
  - apply B. right. reflexivity.
  - destruct T as [T | T]; discriminate T.
Qed.

(** A field named twice is sorted by once, in its last direction; an empty
    item, as in [sort=price,,name], makes the list fail. *)
Example sort_items_that_are_not_field_names :
  Res.records
    (fst (Controller.getAllProducts Store.Product
            (get_list (Query.mk None None None (Some "price,-price") None None)) shop))
  = [camera; laptop; phone; novel]
  /\
  (let r := fst (Controller.getAllProducts Store.Product
                   (get_list (Query.mk None None None (Some "price,,name") None None))
                   shop) in
   Res.status r = 500 /\ Res.error r = Some (Exn.message Store.InvalidField)).
Proof. repeat split; reflexivity. Qed.

(* ================================================================== *)
(** * What the handlers do with any model                              *)
(* ================================================================== *)

(** X1. Whatever the model does, each handler answers with one of its own
    status codes only: create 201, 400 or 500; list, delete-all and
    list-by-category 200 or 500; get-by-id and delete-by-id 200, 404 or
    500; update 200, 400, 404 or 500. *)
Theorem handler_status_codes
  (W : Type) (Product : Model W) (c : call) (req : request) (w : W) :
  In (Res.status (fst (handle Product c req w))) (statuses c).
Proof.
  destruct c; unfold handle, statuses;
    [ unfold Controller.createProduct | unfold Controller.getAllProducts
    | unfold Controller.getProductById | unfold Controller.updateProduct
    | unfold Controller.deleteProduct | unfold Controller.deleteAllProducts
    | unfold Controller.getProductsByCategory ];
    handler_cases; cbn; tauto.
Qed.

Ltac shape_case :=
  cbn [fst]; unfold well_shaped; cbn;
  repeat split; intros;
  try discriminate; try congruence; try reflexivity;
  try (left; discriminate); try (right; discriminate).

(** X2. Whatever the model does, the keys of every envelope go with its
    status: a failure carries a message and no data, count, total, page or
    deletedCount; the key [error] is there exactly when the status is 500,
    with the message "Server Error"; the key [errors] is there only with
    status 400 and the message "Validation Error"; a success carries data
    or a deletedCount and neither [error] nor [errors]. *)
Theorem envelope_keys_follow_status
  (W : Type) (Product : Model W) (c : call) (req : request) (w : W) :
  well_shaped (fst (handle Product c req w)).
Proof.
  destruct c; unfold handle;
    [ unfold Controller.createProduct | unfold Controller.getAllProducts
    | unfold Controller.getProductById | unfold Controller.updateProduct
    | unfold Controller.deleteProduct | unfold Controller.deleteAllProducts
    | unfold Controller.getProductsByCategory ];
    handler_cases; shape_case.
Qed.

Lemma guard_true (name price category : value) :
  falsy name \/ falsy price \/ falsy category ->
  negb (Js.truthy name) || negb (Js.truthy price) || negb (Js.truthy category)
  = true.
Proof.
  unfold falsy. intros [H | [H | H]]; rewrite H; cbn;
    rewrite ?orb_true_r; reflexivity.
Qed.

Lemma guard_false (name price category : value) :
  Js.truthy name = true -> Js.truthy price = true -> Js.truthy category = true ->
  negb (Js.truthy name) || negb (Js.truthy price) || negb (Js.truthy category)
  = false.
Proof. intros -> -> ->. reflexivity. Qed.

(** X3. Whatever the model is, a create whose name, price or category is
    falsy (left out, null, false, 0, NaN or the empty string) is answered
    400 with the fixed message and the model is not called: the state is
    the one the request found.  A price of 0 is turned away this way. *)
Theorem create_requires_truthy_fields
  (W : Type) (Product : Model W) (b : Body.t) (w : W) :
  falsy (Body.name b) \/ falsy (Body.price b) \/ falsy (Body.category b) ->
  Controller.createProduct Product (post b) w = (fields_required, w).
Proof.
  intros H. unfold Controller.createProduct, try_catch, ret.
  cbn [post Req.body]. rewrite (guard_true _ _ _ H). reflexivity.
Qed.

Lemma create_requires_truthy_fields_witness :
  Controller.createProduct Store.Product
    (post (Body.mk (Js.Str "Sample") (Js.Num (Js.of_Z 0)) (Js.Str "Other"))) shop
  = (fields_required, shop).
Proof.
  apply (create_requires_truthy_fields Store.t Store.Product
           (Body.mk (Js.Str "Sample") (Js.Num (Js.of_Z 0)) (Js.Str "Other")) shop).
  right. left. reflexivity.
Defined.

(** X4. The handlers that check and then write do not look at what the
    write finds.  Whatever the model is: when [findById] finds nothing,
    update and delete-by-id answer 404 in the state that call left; when it
    finds a record and the write by id that follows finds none (the record
    went away in between), the update is answered 200 with the message of
    success and [data: null], and the delete is answered 200 with the
    record that was read. *)
Theorem check_then_write
  (W : Type) (Product : Model W) (id : string) (b : Body.t) (w w1 w2 : W) :
  (findById Product id w = (Ok None, w1) ->
   Controller.updateProduct Product (put id b) w = (Controller.not_found id, w1) /\
   Controller.deleteProduct Product (by_id id) w = (Controller.not_found id, w1)) /\
  (forall p,
      findById Product id w = (Ok (Some p), w1) ->
      (findByIdAndUpdate Product id b w1 = (Ok None, w2) ->
       let answer := Controller.updateProduct Product (put id b) w in
       Res.status (fst answer) = 200 /\ Res.success (fst answer) = true /\
       Res.data (fst answer) = Some NullData /\ snd answer = w2) /\
      (forall o, findByIdAndDelete Product id w1 = (Ok o, w2) ->
                 Controller.deleteProduct Product (by_id id) w = (deleted p, w2))).
Proof.
  split.
  - intros H. split.
    + unfold Controller.updateProduct, try_catch, bind, ret.
      cbn [put Req.params Params.id]. rewrite H. reflexivity.
    + unfold Controller.deleteProduct, try_catch, bind, ret.
      cbn [by_id Req.params Params.id]. rewrite H. reflexivity.
  - intros p H. split.
    + intros Hu. cbv zeta.
      unfold Controller.updateProduct, try_catch, bind, ret.
      destruct b as [name price category].
      cbn [put Req.params Params.id Req.body Body.name Body.price Body.category].
      rewrite H, Hu. repeat split.
    + intros o Hd.
      unfold Controller.deleteProduct, try_catch, bind, ret.
      cbn [by_id Req.params Params.id]. rewrite H, Hd. reflexivity.
Qed.

Lemma check_then_write_witness :
  Res.status (fst (Controller.updateProduct (vanishing laptop) (put id0 no_body) tt)) = 200 /\
  Res.data (fst (Controller.updateProduct (vanishing laptop) (put id0 no_body) tt))
  = Some NullData /\
  Controller.deleteProduct (vanishing laptop) (by_id id0) tt = (deleted laptop, tt) /\
  Controller.updateProduct Store.Product (put id9 three_violations) shop
  = (Controller.not_found id9, shop).
Proof.
  destruct (check_then_write unit (vanishing laptop) id0 no_body tt tt tt)
    as [_ H].
  destruct (H laptop eq_refl) as [Hu Hd].
  destruct (Hu eq_refl) as [H1 [_ [H2 _]]].
  destruct (check_then_write Store.t Store.Product id9 three_violations shop shop shop)
    as [Hn _].
  split; [exact H1|]. split; [exact H2|]. split; [exact (Hd None eq_refl)|].
  exact (proj1 (Hn eq_refl)).
Defined.

(* ================================================================== *)
(** * The schema, value by value                                       *)
(* ================================================================== *)

Lemma is_category_In c : Schema.is_category c = true <-> In c Schema.categories.
Proof.
  unfold Schema.is_category. rewrite existsb_exists. split.
  - intros [x [Hx E]]. apply String.eqb_eq in E. subst x. exact Hx.
  - intros H. exists c. split; [exact H | apply String.eqb_refl].
Qed.

(** X5. The schema accepts a string as a name exactly when its length
    after trimming is between 3 and 100, a number as a price exactly when
    it is at least 0 (which [NaN] is not), and a string as a category
    exactly when, after trimming, it is one of the eight enumerated
    values. *)
Theorem schema_accepts (s : string) (p : number) (c : string) :
  (Schema.name_error (Js.Str s) = None <-> accepted_name s) /\
  (Schema.price_error (Js.Num p) = None <-> accepted_price p) /\
  (Schema.category_error (Js.Str c) = None <-> accepted_category c).
Proof.
  split; [|split].
  - rewrite name_error_spec. unfold name_violation, accepted_name.
    destruct (String.eqb_spec (Js.trim s) "") as [E | _].
    { rewrite E. simpl. split; [discriminate | lia]. }
    destruct (Nat.ltb_spec (String.length (Js.trim s)) 3).
    { split; [discriminate | lia]. }
    destruct (Nat.ltb_spec 100 (String.length (Js.trim s))).
    { split; [discriminate | lia]. }
    split; [lia | reflexivity].
  - unfold accepted_price. destruct (Js.is_nan p) eqn:Hn.
    + destruct p; try discriminate Hn. simpl. split; discriminate.
    + rewrite (price_error_spec _ Hn). unfold price_violation. rewrite Hn.
      destruct (Js.geb p (Js.of_Z 0)); split; congruence.
  - rewrite category_error_spec. unfold category_violation, accepted_category.
    rewrite <- is_category_In.
    destruct (String.eqb_spec (Js.trim c) "") as [E | _].
    { rewrite E. split; discriminate. }
    destruct (Schema.is_category (Js.trim c)); split; congruence.
Qed.

(** X6. The second validator of the price path never speaks: whatever
    value is given as a price, the error of the path is never "Price must
    be a positive number", since the [min] validator that runs before it
    refuses the same values. *)
Theorem second_price_validator_is_shadowed (v : value) :
  Schema.price_error v <> Some second_price_message.
Proof.
  unfold Schema.price_error, Schema.path_error, Schema.cast_Number.
  assert (V : forall x : option number,
             Schema.doValidate Schema.price_validators x
             <> Some second_price_message).
  { intros [x|]; cbn; [|discriminate].
    destruct (Js.geb x (Js.of_Z 0)); discriminate. }
  destruct v as [| | b | n | s]; try apply V.
  - destruct (Js.is_nan n); [discriminate | apply V].
  - destruct (String.eqb s ""); [apply V|].
    destruct (Js.is_nan _); [discriminate | apply V].
Qed.

(* ================================================================== *)
(** * What a write stores                                              *)
(* ================================================================== *)

Lemma name_error_none v :
  Schema.name_error v = None ->
  exists s, Schema.cast_String v = Schema.Cast (Some s) /\
            3 <= String.length s <= 100.
Proof.
  unfold Schema.name_error, Schema.path_error.
  assert (V : forall s, Schema.doValidate Schema.name_validators (Some s) = None ->
                        3 <= String.length s <= 100).
  { intros s.
    cbn [Schema.doValidate Schema.name_validators Schema.test Schema.message
         Schema.required_String Schema.minlength Schema.maxlength Schema.lift].
    destruct (String.eqb s ""); cbn [negb]; [discriminate|].
    destruct (Nat.leb_spec 3 (String.length s)); [|discriminate].
    destruct (Nat.leb_spec (String.length s) 100); [|discriminate]. lia. }
  destruct v; cbn [Schema.cast_String]; try (cbn; discriminate);
    intros H; eexists; (split; [reflexivity | apply V; exact H]).
Qed.

Lemma price_error_none v :
  Schema.price_error v = None ->
  exists p, Schema.cast_Number "price" v = Schema.Cast (Some p) /\
            Js.geb p (Js.of_Z 0) = true.
Proof.
  unfold Schema.price_error, Schema.path_error.
  assert (V : forall p, Schema.doValidate Schema.price_validators (Some p) = None ->
                        Js.geb p (Js.of_Z 0) = true).
  { intros p. cbn. destruct (Js.geb p (Js.of_Z 0)); [reflexivity | discriminate]. }
  destruct v as [| | b | n | s]; cbn [Schema.cast_Number]; try (cbn; discriminate).
  - intros H. eexists. split; [reflexivity | apply V; exact H].
  - destruct (Js.is_nan n); [discriminate|].
    intros H. eexists. split; [reflexivity | apply V; exact H].
  - destruct (String.eqb s ""); [cbn; discriminate|].
    destruct (Js.is_nan _); [discriminate|].
    intros H. eexists. split; [reflexivity | apply V; exact H].
Qed.

Lemma category_error_none v :
  Schema.category_error v = None ->
  exists c, Schema.cast_String v = Schema.Cast (Some c) /\
            In c Schema.categories.
Proof.
  unfold Schema.category_error, Schema.path_error.
  assert (V : forall c, Schema.doValidate Schema.category_validators (Some c) = None ->
                        In c Schema.categories).
  { intros c.
    cbn [Schema.doValidate Schema.category_validators Schema.test Schema.message
         Schema.required_String Schema.enum Schema.lift].
    destruct (String.eqb c ""); cbn [negb]; [discriminate|].
    intros H. apply is_category_In. unfold Schema.is_category.
    destruct (existsb _ _); [reflexivity | discriminate H]. }
  destruct v; cbn [Schema.cast_String]; try (cbn; discriminate);
    intros H; eexists; (split; [reflexivity | apply V; exact H]).
Qed.

Lemma collect_nil k1 k2 k3 n p c :
  Schema.collect [(k1, n); (k2, p); (k3, c)] = [] ->
  n = None /\ p = None /\ c = None.
Proof. destruct n, p, c; simpl; intros H; try discriminate H; auto. Qed.

Lemma new_document_valid b w :
  Store.validate_document b = [] -> valid_document (new_document b w).
Proof.
  intros H.
  assert (C : Schema.cast_failure (Schema.cast_Number "price" (Body.price b)) = None).
  { destruct (Schema.cast_Number "price" (Body.price b)) eqn:E; [reflexivity|].
    rewrite (validate_document_cast_error _ _ E) in H. discriminate H. }
  rewrite (validate_document_cast _ C) in H.
  apply collect_nil in H. destruct H as [Hn [Hp Hc]].
  destruct (name_error_none _ Hn) as [s [Es Ls]].
  destruct (price_error_none _ Hp) as [p [Ep Lp]].
  destruct (category_error_none _ Hc) as [c [Ec Lc]].
  unfold valid_document, new_document.
  cbn [Doc.name Doc.price Doc.category]. rewrite Es, Ep, Ec. cbn.
  repeat split; try assumption; lia.
Qed.

Lemma apply_update_valid b ts d :
  Store.validate_update b = [] -> valid_document d ->
  valid_document (Store.apply_update b ts d).
Proof.
  unfold Store.validate_update. intros H [Vn [Vp Vc]].
  apply collect_nil in H. destruct H as [Hc [Hp Hn]].
  unfold valid_document, Store.apply_update.
  cbn [Doc.name Doc.price Doc.category].
  split; [|split].
  - destruct (Store.is_undefined (Body.name b)); [exact Vn|].
    destruct (name_error_none _ Hn) as [s [-> Ls]]. exact Ls.
  - destruct (Store.is_undefined (Body.price b)); [exact Vp|].
    destruct (price_error_none _ Hp) as [p [-> Lp]]. exact Lp.
  - destruct (Store.is_undefined (Body.category b)); [exact Vc|].
    destruct (category_error_none _ Hc) as [c [-> Lc]]. exact Lc.
Qed.

Lemma ids_replace_first i d' l :
  Doc._id d' = i ->
  map Doc._id (Store.replace_first i d' l) = map Doc._id l.
Proof.
  intros H. induction l as [|x l IH]; simpl; [reflexivity|].
  destruct (Store.has_id i x) eqn:E; simpl.
  - unfold Store.has_id in E. apply N.eqb_eq in E. congruence.
  - rewrite IH. reflexivity.
Qed.

Lemma NoDup_remove_first i l :
  NoDup (map Doc._id l) -> NoDup (map Doc._id (Store.remove_first i l)).
Proof.
  induction l as [|x l IH]; simpl; intros H; [exact H|].
  inversion H as [|? ? Hx Hl]; subst.
  destruct (Store.has_id i x); [exact Hl|].
  simpl. constructor; [|apply IH; exact Hl].
  intros F. apply Hx. clear -F.
  induction l as [|y l IH]; simpl in *; [contradiction|].
  destruct (Store.has_id i y); simpl in F; [right; exact F|].
  destruct F as [F | F]; [left; exact F | right; apply IH; exact F].
Qed.

Lemma fresh_not_in w :
  fresh_ids w -> ~ In (Store.next_id w) (map Doc._id (Store.docs w)).
Proof.
  unfold fresh_ids. intros H F. apply in_map_iff in F.
  destruct F as [d [E Hd]]. rewrite Forall_forall in H.
  specialize (H d Hd). cbv beta in H. lia.
Qed.

Lemma NoDup_snoc {A} (l : list A) (x : A) :
  NoDup l -> ~ In x l -> NoDup (l ++ [x]).
Proof.
  intros Hl Hx. induction Hl as [|y l Hy Hl IH]; simpl.
  - constructor; [tauto | constructor].
  - constructor.
    + rewrite in_app_iff. simpl. intros [F | [F | []]]; [tauto|].
      apply Hx. left. symmetry. exact F.
    + apply IH. intros F. apply Hx. right. exact F.
Qed.

Lemma well_formed_step (c : call) (req : request) (w : Store.t) :
  well_formed w -> well_formed (snd (handle Store.Product c req w)).
Proof.
  intros [Hf [Hu Hv]]. split.
  { pose proof (proj2 (fresh_ids_invariant req w) Hf) as H.
    destruct c; unfold handle; tauto. }
  unfold unique_ids in *.
  destruct c; unfold handle.
  - rewrite createProduct_run. cbv zeta.
    destruct (_ || _); [split; assumption|].
    destruct (Store.validate_document _) eqn:Hval; [|split; assumption].
    destruct (Store.down w); [split; assumption|].
    cbn [snd Store.docs]. split.
    + rewrite map_app. simpl. apply NoDup_snoc; [exact Hu|].
      apply fresh_not_in. exact Hf.
    + apply Forall_app. split; [exact Hv|].
      constructor; [|constructor]. apply new_document_valid. exact Hval.
  - rewrite getAllProducts_run. split; assumption.
  - rewrite getProductById_run. split; assumption.
  - rewrite updateProduct_run. cbv zeta.
    destruct (Store.cast_id _) as [i|]; [|split; assumption].
    destruct (Store.down w); [split; assumption|].
    destruct (lookup i w) as [d|] eqn:Hl; [|split; assumption].
    destruct (Store.cast_path _ _); [|split; assumption].
    destruct (Store.validate_update _) eqn:Hval; [|split; assumption].
    cbn [snd with_docs Store.docs].
    pose proof (find_has_id _ _ _ Hl) as Hid.
    unfold lookup in Hl. apply find_some in Hl. destruct Hl as [Hin _].
    split.
    + rewrite ids_replace_first; [exact Hu | exact Hid].
    + apply Forall_replace_first; [|exact Hv].
      apply apply_update_valid; [exact Hval|].
      rewrite Forall_forall in Hv. apply Hv. exact Hin.
  - rewrite deleteProduct_run. cbv zeta.
    destruct (Store.cast_id _) as [i|]; [|split; assumption].
    destruct (Store.down w); [split; assumption|].
    destruct (lookup i w) as [d|]; [|split; assumption].
    cbn [snd with_docs Store.docs]. split.
    + apply NoDup_remove_first. exact Hu.
    + apply Forall_remove_first. exact Hv.
  - rewrite deleteAllProducts_run.
    destruct (Store.down w); [split; assumption|].
    cbn [snd with_docs Store.docs]. split; constructor.
  - rewrite getProductsByCategory_state. split; assumption.
Qed.

(** X7. Every store the API reaches from an empty collection, through any
    requests to the seven handlers with the clock and the connection
    changing in between, is well formed: each record has a name of 3 to 100
    characters, a price of at least 0 and a category of the enumerated set;
    no two records have the same [_id]; and the next id is the id of no
    record. *)
Theorem reachable_stores_are_well_formed (w : Store.t) :
  reachable w -> well_formed w.
Proof.
  intros H. induction H as [now down | w now down H IH | w c req H IH].
  - repeat split; constructor.
  - destruct IH as [Hf [Hu Hv]]. repeat split; assumption.
  - apply well_formed_step. exact IH.
Qed.

Lemma reachable_stores_are_well_formed_witness :
  well_formed
    (snd (handle Store.Product Create
            (post (Body.mk (Js.Str " Laptop ") (Js.Num (Js.of_Z 1200))
                     (Js.Str "Electronics")))
            empty_store)).
Proof.
  apply (reachable_stores_are_well_formed
           (snd (handle Store.Product Create
                   (post (Body.mk (Js.Str " Laptop ") (Js.Num (Js.of_Z 1200))
                            (Js.Str "Electronics")))
                   empty_store))).
  apply reach_call. apply (reach_empty 1000%Z None).
Defined.

(** X8. A request that fails writes nothing: whenever a handler answers
    with [success: false] the store is the one the request found; and the
    three reading handlers (list, get-by-id, list-by-category) leave the
    store as it was whatever they answer. *)
Theorem failures_persist_nothing (c : call) (req : request) (w : Store.t) :
  (Res.success (fst (handle Store.Product c req w)) = false ->
   snd (handle Store.Product c req w) = w) /\
  (c = List \/ c = Get \/ c = ByCategory ->
   snd (handle Store.Product c req w) = w).
Proof.
  assert (R : forall c', c' = List \/ c' = Get \/ c' = ByCategory ->
                         snd (handle Store.Product c' req w) = w).
  { intros c' [-> | [-> | ->]]; unfold handle.
    - rewrite getAllProducts_run. reflexivity.
    - rewrite getProductById_run. reflexivity.
    - apply getProductsByCategory_state. }
  split; [|apply R].
  destruct c; try (intros _; apply R; tauto); unfold handle.
  - rewrite createProduct_run. cbv zeta.
    destruct (_ || _); [intros _; reflexivity|].
    destruct (Store.validate_document _); [|intros _; reflexivity].
    destruct (Store.down w); [intros _; reflexivity|]. cbn. discriminate.
  - rewrite updateProduct_run. cbv zeta.
    destruct (Store.cast_id _) as [i|]; [|intros _; reflexivity].
    destruct (Store.down w); [intros _; reflexivity|].
    destruct (lookup i w); [|intros _; reflexivity].
    destruct (Store.cast_path _ _); [|intros _; reflexivity].
    destruct (Store.validate_update _); [|intros _; reflexivity].
    cbn. discriminate.
  - rewrite deleteProduct_run. cbv zeta.
    destruct (Store.cast_id _) as [i|]; [|intros _; reflexivity].
    destruct (Store.down w); [intros _; reflexivity|].
    destruct (lookup i w); [|intros _; reflexivity]. cbn. discriminate.
  - rewrite deleteAllProducts_run.
    destruct (Store.down w); [intros _; reflexivity|]. cbn. discriminate.
Qed.

Lemma failures_persist_nothing_witness :
  snd (handle Store.Product Create (post three_violations) shop) = shop /\
  snd (handle Store.Product List (get_list Query.empty) shop) = shop.
Proof.
  split.
  - apply (proj1 (failures_persist_nothing Create (post three_violations) shop)).
    reflexivity.
  - apply (proj2 (failures_persist_nothing List (get_list Query.empty) shop)).
    left. reflexivity.
Defined.

(* ================================================================== *)
(** * Create, delete and the category listing                          *)
(* ================================================================== *)

(** X9. The create handler accepts exactly the valid bodies.  For a body
    whose three fields are given and truthy, with the types of the schema,
    on a working connection: when no field violates its constraint the
    answer is 201 with the new record, which is added after the records
    held; when one or more do, the answer is 400 with the list of their
    messages, one per violating field in the order name, price, category,
    and the store is left as it was.  The message of a value that is not a
    category is the template of the schema in which [replace] has put the
    value. *)
Theorem create_accepts_valid_bodies (b : Body.t) (w : Store.t) :
  typed b -> all_truthy b -> healthy w ->
  let answer := Controller.createProduct Store.Product (post b) w in
  (violations b = [] ->
   Res.status (fst answer) = 201 /\
   Res.data (fst answer) = Some (One (new_document b w)) /\
   Store.docs (snd answer) = (Store.docs w ++ [new_document b w])%list) /\
  (violations b <> [] ->
   Res.status (fst answer) = 400 /\
   Res.errors (fst answer) = Some (violations b) /\
   snd answer = w).
Proof.
  intros Ht [T1 [T2 T3]] Hw answer. subst answer. red in Hw.
  rewrite createProduct_run. cbn [post Req.body]. cbv zeta.
  rewrite (guard_false _ _ _ T1 T2 T3).
  pose proof (validate_document_typed b Ht) as E.
  destruct (Store.validate_document b) as [|e errs].
  - simpl in E. rewrite Hw. split; [|intros F; congruence].
    intros _. repeat split.
  - split; [intros F; rewrite F in E; discriminate E|].
    intros _. cbn [fst snd]. unfold create_catch. cbn [map] in E.
    cbn. rewrite E. repeat split.
Qed.

Lemma create_accepts_valid_bodies_witness :
  Res.errors
    (fst (Controller.createProduct Store.Product
            (post (Body.mk (Js.Str "Lamp") (Js.Num (Js.of_Z 20)) (Js.Str "Bogus")))
            shop))
  = Some ["Bogus is not a valid category"].
Proof.
  destruct (create_accepts_valid_bodies
              (Body.mk (Js.Str "Lamp") (Js.Num (Js.of_Z 20)) (Js.Str "Bogus")) shop)
    as [_ H].
  - repeat split; eexists; try split; reflexivity.
  - repeat split.
  - reflexivity.
  - apply H. discriminate.
Defined.

Lemma find_none_fresh i l :
  ~ In i (map Doc._id l) -> List.find (Store.has_id i) l = None.
Proof.
  induction l as [|x l IH]; simpl; [reflexivity|].
  intros H. unfold Store.has_id at 1.
  destruct (N.eqb_spec (Doc._id x) i) as [E | _]; [tauto|].
  apply IH. tauto.
Qed.

Lemma find_remove_same i l :
  NoDup (map Doc._id l) ->
  List.find (Store.has_id i) (Store.remove_first i l) = None.
Proof.
  induction l as [|x l IH]; simpl; intros H; [reflexivity|].
  inversion H as [|? ? Hx Hl]; subst.
  destruct (Store.has_id i x) eqn:E.
  - apply find_none_fresh. unfold Store.has_id in E. apply N.eqb_eq in E.
    rewrite <- E. exact Hx.
  - simpl. rewrite E. apply IH. exact Hl.
Qed.

Lemma find_remove_other i j l :
  j <> i ->
  List.find (Store.has_id j) (Store.remove_first i l)
  = List.find (Store.has_id j) l.
Proof.
  intros Hji. induction l as [|x l IH]; simpl; [reflexivity|].
  destruct (Store.has_id i x) eqn:E.
  - unfold Store.has_id in *. apply N.eqb_eq in E.
    destruct (N.eqb_spec (Doc._id x) j) as [F | _]; [congruence | reflexivity].
  - simpl. rewrite IH. reflexivity.
Qed.

Lemma length_remove_first i l d :
  List.find (Store.has_id i) l = Some d ->
  List.length (Store.remove_first i l) + 1 = List.length l.
Proof.
  induction l as [|x l IH]; simpl; [discriminate|].
  destruct (Store.has_id i x); simpl; [lia|].
  intros H. rewrite <- (IH H). lia.
Qed.

(** X10. Delete-by-id removes one record.  On a working connection and a
    store whose ids are distinct, deleting an existing id is answered 200
    with the record as it was; afterwards that id is not found, every other
    id finds what it found before, the store holds one record less, and a
    get-by-id or a second delete of the same id is answered 404. *)
Theorem delete_removes_one_record
  (id : string) (i : N) (d : document) (w : Store.t) :
  healthy w -> unique_ids w ->
  Store.castObjectId id = Some i -> lookup i w = Some d ->
  let answer := Controller.deleteProduct Store.Product (by_id id) w in
  fst answer = deleted d /\
  lookup i (snd answer) = None /\
  (forall j, j <> i -> lookup j (snd answer) = lookup j w) /\
  List.length (Store.docs (snd answer)) + 1 = List.length (Store.docs w) /\
  Res.status (fst (Controller.getProductById Store.Product (by_id id) (snd answer))) = 404 /\
  Res.status (fst (Controller.deleteProduct Store.Product (by_id id) (snd answer))) = 404.
Proof.
  intros Hw Hu Hid Hl answer. subst answer. red in Hw, Hu.
  rewrite deleteProduct_run. cbn [by_id Req.params Params.id]. cbv zeta.
  rewrite (cast_id_shaped _ _ Hid), Hw, Hl. cbn [fst snd].
  assert (Hgone : lookup i (with_docs (Store.remove_first i (Store.docs w)) w) = None).
  { unfold lookup, with_docs. cbn [Store.docs]. apply find_remove_same. exact Hu. }
  split; [reflexivity|]. split; [exact Hgone|]. split; [|split; [|split]].
  - intros j Hj. unfold lookup, with_docs. cbn [Store.docs].
    apply find_remove_other. exact Hj.
  - unfold with_docs. cbn [Store.docs]. eapply length_remove_first. exact Hl.
  - rewrite getProductById_run. cbn [by_id Req.params Params.id fst]. cbv zeta.
    rewrite (cast_id_shaped _ _ Hid). cbn [with_docs Store.down].
    rewrite Hw, Hgone. reflexivity.
  - rewrite deleteProduct_run. cbn [by_id Req.params Params.id fst]. cbv zeta.
    rewrite (cast_id_shaped _ _ Hid). cbn [with_docs Store.down].
    rewrite Hw, Hgone. reflexivity.
Qed.

Lemma delete_removes_one_record_witness :
  fst (Controller.deleteProduct Store.Product (by_id id0) shop) = deleted laptop /\
  lookup 0%N (snd (Controller.deleteProduct Store.Product (by_id id0) shop)) = None.
Proof.
  destruct (delete_removes_one_record id0 0%N laptop shop) as [H1 [H2 _]].
  - reflexivity.
  - unfold unique_ids. simpl.
    repeat constructor; simpl; intuition discriminate.
  - reflexivity.
  - reflexivity.
  - split; [exact H1 | exact H2].
Defined.

Lemma sort_docs_no_keys l : Store.sort_docs [] l = l.
Proof.
  induction l as [|x l IH]; simpl; [reflexivity|].
  rewrite IH. destruct l; reflexivity.
Qed.

Lemma findByCategory_run c w :
  findByCategory Store.Product c w =
  (match Store.down w with
   | Some msg => Throw (Store.NetworkError msg)
   | None => Ok (filter (of_category c) (Store.docs w))
   end, w).
Proof.
  unfold findByCategory. cbn [find Store.Product]. rewrite find_run.
  cbn [Store.cast_filter Filter.price Filter.category option_map Store.sort_of
       Options.none Options.sort Options.skip Options.limit
       Store.cast_skip Store.cast_limit].
  destruct (Store.down w); [reflexivity|].
  cbn [Store.window skipn].
  rewrite sort_docs_no_keys. f_equal. f_equal.
  apply filter_ext. intros d. unfold Store.matches, of_category.
  cbn [Filter.category Filter.price]. apply andb_true_r.
Qed.

Lemma getProductsByCategory_run req w :
  Controller.getProductsByCategory Store.Product req w =
  (match Store.down w with
   | Some msg => Controller.server_error (Store.NetworkError msg)
   | None =>
       Res.with_data
         (Many (filter (of_category (Params.category (Req.params req))) (Store.docs w)))
         (Res.with_count
            (List.length
               (filter (of_category (Params.category (Req.params req))) (Store.docs w)))
            (Res.json 200 true))
   end, w).
Proof.
  unfold Controller.getProductsByCategory, try_catch, bind, ret.
  rewrite findByCategory_run. destruct (Store.down w); reflexivity.
Qed.

Lemma of_category_valid c d :
  valid_document d -> ~ In (Js.trim c) Schema.categories -> of_category c d = false.
Proof.
  intros [_ [_ H]] Hc. unfold of_category.
  destruct (String.eqb_spec (Doc.category d) (Js.trim c)) as [E | _];
    [|reflexivity].
  exfalso. apply Hc. rewrite <- E. exact H.
Qed.

(** X11. List-by-category never changes the store.  On a working
    connection it answers 200 with the records whose category is the
    trimmed path segment, in insertion order, and with their number as
    [count]; the segment is not checked against the enumerated set, so on
    a store of valid records a category outside the set is answered 200
    with an empty list; when the connection is down the answer is 500 with
    the message of the failure as [error]. *)
Theorem category_listing (c : string) (w : Store.t) :
  let answer := Controller.getProductsByCategory Store.Product (by_category c) w in
  snd answer = w /\
  (healthy w ->
   Res.status (fst answer) = 200 /\
   Res.data (fst answer) = Some (Many (filter (of_category c) (Store.docs w))) /\
   Res.count (fst answer) = Some (List.length (filter (of_category c) (Store.docs w)))) /\
  (healthy w -> Forall valid_document (Store.docs w) ->
   ~ In (Js.trim c) Schema.categories ->
   Res.status (fst answer) = 200 /\ Res.data (fst answer) = Some (Many [])) /\
  (forall msg, Store.down w = Some msg ->
               Res.status (fst answer) = 500 /\ Res.error (fst answer) = Some msg).
Proof.
  cbv zeta. rewrite getProductsByCategory_run.
  cbn [by_category Req.params Params.category fst snd].
  split; [reflexivity|]. split; [|split].
  - intros Hw. red in Hw. rewrite Hw. repeat split.
  - intros Hw Hv Hc. red in Hw. rewrite Hw. split; [reflexivity|].
    cbn. f_equal. f_equal.
    induction Hv as [|d l Hd Hl IH]; simpl; [reflexivity|].
    rewrite (of_category_valid c d Hd Hc). exact IH.
  - intros msg Hd. rewrite Hd. split; reflexivity.
Qed.

Lemma category_listing_witness :
  Res.records
    (fst (Controller.getProductsByCategory Store.Product (by_category " Electronics ") shop))
  = [laptop; phone; camera].
Proof.
  destruct (category_listing " Electronics " shop) as [_ [H _]].
  destruct (H eq_refl) as [_ [Hd _]].
  unfold Res.records. rewrite Hd. reflexivity.
Defined.

(** X12. A record that was created is listed in its category.  For a name
    whose trimmed length is between 3 and 100, a price that is at least 0
    and is not 0, and a category of the enumerated set, on a working
    connection: after the create, the listing of that category is the
    listing before it followed by the new record. *)
Theorem created_record_is_listed
  (name : string) (price : number) (category : string) (w : Store.t) :
  valid_name name ->
  valid_price price -> Js.truthy (Js.Num price) = true ->
  valid_category category ->
  healthy w ->
  let b := Body.mk (Js.Str name) (Js.Num price) (Js.Str category) in
  let after := snd (Controller.createProduct Store.Product (post b) w) in
  Res.records
    (fst (Controller.getProductsByCategory Store.Product (by_category category) after))
  = (Res.records
       (fst (Controller.getProductsByCategory Store.Product (by_category category) w))
     ++ [new_document b w])%list.
Proof.
  intros Hn Hp Hp0 Hc Hw b after. subst after b. red in Hw.
  rewrite createProduct_run. cbn [post Req.body Body.name Body.price Body.category].
  cbv zeta.
  rewrite (guard_false _ _ _ (name_nonempty _ Hn) Hp0 (category_nonempty _ Hc)).
  rewrite validate_document_cast
    by (cbn [Body.price]; unfold Schema.cast_Number;
        rewrite (valid_price_not_nan _ Hp); reflexivity).
  cbn [Body.name Body.price Body.category].
  rewrite (name_error_valid _ Hn), (price_error_valid _ Hp), (category_error_valid _ Hc).
  cbn [Schema.collect]. rewrite Hw. cbn [snd].
  rewrite !getProductsByCategory_run. cbn [fst Store.down Store.docs]. rewrite Hw.
  unfold Res.records. cbn [Res.data Res.with_data Res.with_count Res.json].
  cbn [by_category Req.params Params.category].
  rewrite filter_app. f_equal. simpl.
  unfold of_category at 1. unfold new_document at 1.
  cbn [Doc.category Body.category Schema.cast_String Schema.cast_value].
  rewrite String.eqb_refl. reflexivity.
Qed.

Lemma created_record_is_listed_witness :
  Res.records
    (fst (Controller.getProductsByCategory Store.Product (by_category "Books")
            (snd (Controller.createProduct Store.Product
                    (post (Body.mk (Js.Str "Atlas") (Js.Num (Js.of_Z 30)) (Js.Str "Books")))
                    shop))))
  = [novel;
     new_document (Body.mk (Js.Str "Atlas") (Js.Num (Js.of_Z 30)) (Js.Str "Books")) shop].
Proof.
  apply (created_record_is_listed "Atlas" (Js.of_Z 30) "Books" shop).
  - unfold valid_name. simpl. lia.
  - reflexivity.
  - reflexivity.
  - unfold valid_category. simpl. tauto.
  - reflexivity.
Defined.

(* ================================================================== *)
(** * The price range of the model                                     *)
(* ================================================================== *)





(* ================================================================== *)
(** * Pages of a listing                                               *)
(* ================================================================== *)

(** The answer to a list request whose page and limit read as integers
    that are at least 1. *)
Lemma list_window (q : Query.t) (w : Store.t) (page limit : Z) :
  healthy w -> numeric_bounds q -> sortable q ->
  Js.Number (Controller.page_of q) = Js.of_Z page -> (1 <= page)%Z ->
  Js.Number (Controller.limit_of q) = Js.of_Z limit -> (1 <= limit)%Z ->
  safe (page * limit) ->
  fst (Controller.getAllProducts Store.Product (get_list q) w)
  = list_envelope q
      (firstn (Z.to_nat limit)
         (skipn (Z.to_nat ((page - 1) * limit)) (sorted_selection q w)))
      (List.length (selected q w)).
Proof.
  intros Hw Hq Hs Hp Hp1 Hl Hl1 Hpl. red in Hw. unfold safe in Hpl.
  destruct (cast_filter_numeric q Hq) as [f' Hf].
  destruct (parse_sort_sortable q Hs) as [keys Hk].
  rewrite getAllProducts_run. cbn [get_list Req.query fst]. cbv zeta.
  rewrite Hk, Hf, Hw.
  unfold Controller.skip_of. rewrite Hp, Hl, sub_integers, mul_integers by nia.
  unfold Store.cast_skip, Store.cast_limit. rewrite !as_integer_of_Z.
  destruct (Z.leb_spec 0 ((page - 1) * limit)) as [_ | F]; [|nia].
  destruct (Z.eqb_spec limit 0) as [F | _]; [lia|].
  unfold listing. rewrite (selected_spec _ _ _ Hf).
  fold (sorted_selection q w). cbn [Store.window].
  rewrite Zabs2Nat.abs_nat_nonneg by lia. reflexivity.
Qed.

Lemma sorted_selection_length q w :
  List.length (sorted_selection q w) = List.length (selected q w).
Proof.
  unfold sorted_selection. apply Permutation_length, sort_docs_Permutation.
Qed.

(** X14. The size of a page.  On a working connection, with price bounds
    that read as numbers, a sort string that names fields of the record only, and a
    page and a limit that read as integers at least 1 whose product is
    below [2^53], the answer is 200 and [count] is the smaller of [limit]
    and of what is left of the [total] after [(page - 1) * limit] records;
    a page beyond the last one is answered 200 with an empty list and a
    count of 0, with the same [total]. *)
Theorem page_size (q : Query.t) (w : Store.t) (page limit : Z) :
  healthy w -> numeric_bounds q -> sortable q ->
  Js.Number (Controller.page_of q) = Js.of_Z page -> (1 <= page)%Z ->
  Js.Number (Controller.limit_of q) = Js.of_Z limit -> (1 <= limit)%Z ->
  safe (page * limit) ->
  let r := fst (Controller.getAllProducts Store.Product (get_list q) w) in
  let total := List.length (selected q w) in
  Res.status r = 200 /\
  Res.total r = Some total /\
  Res.count r
  = Some (Nat.min (Z.to_nat limit) (total - Z.to_nat ((page - 1) * limit))) /\
  ((Z.of_nat total <= (page - 1) * limit)%Z ->
   Res.data r = Some (Many []) /\ Res.count r = Some 0).
Proof.
  intros Hw Hq Hs Hp Hp1 Hl Hl1 Hpl. cbv zeta.
  rewrite (list_window q w page limit Hw Hq Hs Hp Hp1 Hl Hl1 Hpl).
  pose proof (sorted_selection_length q w) as L.
  unfold list_envelope.
  cbn [Res.status Res.total Res.count Res.data Res.with_data Res.with_totalPages
       Res.with_page Res.with_total Res.with_count Res.json].
  split; [reflexivity|]. split; [reflexivity|].
  rewrite length_firstn, length_skipn, L. split; [reflexivity|].
  intros Hend.
  assert (E : skipn (Z.to_nat ((page - 1) * limit)) (sorted_selection q w) = []).
  { apply length_zero_iff_nil. rewrite length_skipn, L. lia. }
  rewrite E, firstn_nil. split; [reflexivity|].
  f_equal. lia.
Qed.

Lemma page_size_witness :
  let r := fst (Controller.getAllProducts Store.Product
                  (get_list (Query.mk None None None None (Some "3") (Some "3")))
                  shop) in
  Res.status r = 200 /\ Res.total r = Some 4 /\ Res.data r = Some (Many []).
Proof.
  cbv zeta.
  destruct (page_size (Query.mk None None None None (Some "3") (Some "3")) shop 3 3)
    as [H1 [H2 [_ H3]]].
  - reflexivity.
  - split; intros s H; discriminate H.
  - repeat constructor; simpl; tauto.
  - reflexivity.
  - lia.
  - reflexivity.
  - lia.
  - unfold safe. simpl. lia.
  - cbv zeta in *. split; [exact H1|]. split; [exact H2|].
    apply H3. simpl. lia.
Defined.







(* ================================================================== *)
(** * Values that are not numbers                                      *)
(* ================================================================== *)




(** X18. A price bound that is given and does not read as a number makes
    the list fail: the answer is 500 with the message "Server Error" and
    no data, whatever the other parameters and the state of the
    connection. *)
Theorem text_bound_fails_the_list (q : Query.t) (w : Store.t) (s : string) :
  present (Query.minPrice q) s \/ present (Query.maxPrice q) s ->
  Js.is_nan (Js.Number (Js.Str s)) = true ->
  let r := fst (Controller.getAllProducts Store.Product (get_list q) w) in
  Res.status r = 500 /\ Res.success r = false /\
  Res.message r = Some "Server Error" /\ Res.data r = None.
Proof.
  intros Hp Hn. cbv zeta. unfold present in Hp.
  rewrite getAllProducts_run. cbn [get_list Req.query fst]. cbv zeta.
  assert (E : exists e, Store.cast_filter (Controller.build_query q) = Throw e).
  { unfold Controller.build_query, Store.cast_filter. rewrite !is_given_spec.
    cbn [Filter.price Filter.category].
    destruct Hp as [Hp | Hp]; rewrite Hp.
    - cbn [orb option_map Filter.gte Filter.lte Store.cast_bound].
      rewrite Hn. eauto.
    - destruct (Controller.given (Query.minPrice q)) as [lo|];
        cbn [orb option_map Filter.gte Filter.lte Store.cast_bound];
        [destruct (Js.is_nan (Js.Number (Js.Str lo)))|]; rewrite ?Hn; eauto. }
  destruct E as [e ->]. destruct (Store.parse_sort _); repeat split.
Qed.

Lemma text_bound_fails_the_list_witness :
  Res.status
    (fst (Controller.getAllProducts Store.Product
            (get_list (Query.mk None (Some "cheap") None None None None)) shop))
  = 500.
Proof.
  apply (text_bound_fails_the_list
           (Query.mk None (Some "cheap") None None None None) shop "cheap").
  - left. reflexivity.
  - reflexivity.
Defined.

(** The message of that failure names the value as [Number(..)] read it,
    the path and the model. *)
Example text_bound_message :
  Res.error
    (fst (Controller.getAllProducts Store.Product
            (get_list (Query.mk None (Some "cheap") None None None None)) shop))
  = Some ("Cast to Number failed for value " ++ Js.dquote ++ "NaN" ++ Js.dquote
          ++ " (type number) at path " ++ Js.dquote ++ "price" ++ Js.dquote
          ++ " for model " ++ Js.dquote ++ "Product" ++ Js.dquote).
Proof. reflexivity. Qed.

(* ================================================================== *)
(** * What an update never changes                                     *)
(* ================================================================== *)

Lemma identities_replace_first i d d' l :
  List.find (Store.has_id i) l = Some d -> identity d' = identity d ->
  map identity (Store.replace_first i d' l) = map identity l.
Proof.
  intros Hf Hd. induction l as [|x l IH]; simpl in *; [reflexivity|].
  destruct (Store.has_id i x); simpl.
  - injection Hf as ->. rewrite Hd. reflexivity.
  - rewrite (IH Hf). reflexivity.
Qed.

(** X19. An update never adds or removes a record and never changes an
    [_id] or a [createdAt]: whatever the request and the outcome, the
    store after it holds the same ids with the same creation times, in the
    same order. *)
Theorem update_keeps_identities (req : request) (w : Store.t) :
  map identity (Store.docs (snd (Controller.updateProduct Store.Product req w)))
  = map identity (Store.docs w).
Proof.
  rewrite updateProduct_run. cbv zeta.
  destruct (Store.cast_id _) as [i|]; [|reflexivity].
  destruct (Store.down w); [reflexivity|].
  destruct (lookup i w) as [d|] eqn:Hl; [|reflexivity].
  destruct (Store.cast_path _ _); [|reflexivity].
  destruct (Store.validate_update _); [|reflexivity].
  cbn [snd with_docs Store.docs].
  apply identities_replace_first with (d := d); [exact Hl | reflexivity].
Qed.

(* ================================================================== *)
(** * A sort parameter with an empty item                              *)
(* ================================================================== *)

Lemma split_space_app x rest :
  Js.split " " (x ++ String " " rest) = (Js.split " " x ++ Js.split " " rest)%list.
Proof.
  induction x as [|c x IH]; [reflexivity|].
  cbn [append Js.split]. rewrite IH.
  destruct (Ascii.eqb c " "); [reflexivity|].
  pose proof (split_nonempty " " x) as N.
  destruct (Js.split " " x) as [|h t]; [congruence | reflexivity].
Qed.

Lemma split_join_empty items :
  In "" items -> In "" (Js.split " " (Js.join " " items)).
Proof.
  induction items as [|x l IH]; [contradiction|].
  destruct l as [|y l].
  - simpl. intros [-> | F]; [simpl; left; reflexivity | contradiction].
  - change (Js.join " " (x :: y :: l)) with (x ++ String " " (Js.join " " (y :: l))).
    rewrite split_space_app, in_app_iff.
    intros [-> | H]; [left; simpl; left; reflexivity | right; apply IH; exact H].
Qed.

Lemma add_property_thrown l e :
  fold_left Store.add_property l (Throw e) = Throw e.
Proof. induction l as [|p l IH]; [reflexivity | exact IH]. Qed.

Lemma parse_empty_property l :
  In "" l ->
  forall acc, fold_left Store.add_property l (Ok acc) = Throw Store.InvalidField.
Proof.
  induction l as [|p l IH]; [contradiction|].
  intros [-> | H] acc; cbn [fold_left Store.add_property].
  - cbn. apply add_property_thrown.
  - destruct (String.eqb _ ""); [apply add_property_thrown | apply IH; exact H].
Qed.

(** X20. An empty item in the sort parameter makes the list fail.  On a
    working connection and with price bounds that read as numbers, when the
    parameter is given and two commas follow each other, or it starts or
    ends with a comma, the answer is 500 with the message "Server Error"
    and, as [error], the message with which [sort()] refuses the empty
    field, whatever the page and the limit; the store is left as it was. *)
Theorem empty_sort_item_fails_the_list (q : Query.t) (w : Store.t) (s : string) :
  healthy w -> numeric_bounds q ->
  present (Query.sort q) s -> In "" (Js.split "," s) ->
  let answer := Controller.getAllProducts Store.Product (get_list q) w in
  Res.status (fst answer) = 500 /\ Res.success (fst answer) = false /\
  Res.message (fst answer) = Some "Server Error" /\
  Res.error (fst answer)
  = Some ("Invalid field " ++ Js.dquote ++ Js.dquote ++ " passed to sort()") /\
  Res.data (fst answer) = None /\
  snd answer = w.
Proof.
  intros _ _ Hs He. cbv zeta. red in Hs.
  rewrite getAllProducts_run. cbn [get_list Req.query fst snd]. cbv zeta.
  unfold Controller.build_sort. rewrite Hs.
  unfold Store.parse_sort.
  rewrite (parse_empty_property _ (split_join_empty _ He)).
  repeat split.
Qed.

Lemma empty_sort_item_fails_the_list_witness :
  Res.status
    (fst (Controller.getAllProducts Store.Product
            (get_list (Query.mk None None None (Some "price,,name") None None)) shop))
  = 500.
Proof.
  apply (empty_sort_item_fails_the_list
           (Query.mk None None None (Some "price,,name") None None) shop "price,,name").
  - reflexivity.
  - split; intros s H; discriminate H.
  - reflexivity.
  - simpl. tauto.
Defined.
